(** * Outfit recommendation engine: matching, generation and scoring

    A shallow embedding of [app/models.py], [app/scorer.py],
    [app/recommender.py], [app/cache.py] and the endpoints of
    [app/main.py], followed by the properties of the engine.

    Conventions of the embedding.
    - Python [float] values (prices, hues, scores) are exact rationals [Q];
      equality of scores is [Qeq] ([==]).  Python [int] values are [Z] or
      [nat] (lengths, counts).  The functions whose result turns on the
      rounding of a float operation are embedded once more with binary64
      arithmetic, in [Float] over [Binary64].
    - An exception is a value of [PyError]; code that can raise returns in
      [Exc].  True division by a variable raises [ZeroDivisionError] on a
      zero divisor, [random.choice] raises [IndexError] on an empty
      sequence, and the explicit [raise ValueError(...)] statements are kept.
    - The process-wide random source is a function [draw : nat -> nat]
      giving the outcome of the n-th draw; code that draws threads the
      number of draws consumed so far.
    - Dictionaries are [gmap]s; the [defaultdict(list)] indexed by category
      is a total function with default [[]]. *)

From Stdlib Require Import QArith Qminmax Qabs Qround Lqa ZArith String List.
From Stdlib Require Import Sorting.Sorted Sorting.Permutation Lia.
From stdpp Require Import base gmap strings list pretty.

Import ListNotations.
Local Open Scope string_scope.

(** ** Exceptions *)

Inductive PyError :=
| ValueError (msg : string)
| ZeroDivisionError
| IndexError.

Inductive Exc (A : Type) :=
| Ok (a : A)
| Raise (e : PyError).
Arguments Ok {A} a.
Arguments Raise {A} e.

Definition exc_bind {A B} (m : Exc A) (k : A -> Exc B) : Exc B :=
  match m with
  | Ok a => k a
  | Raise e => Raise e
  end.

Notation "'let*' x ':=' m 'in' k" := (exc_bind m (fun x => k))
  (at level 10, x name, m at level 100, k at level 200, only parsing).
Notation "'let*' ' pat ':=' m 'in' k" :=
  (exc_bind m (fun x => match x with pat => k end))
  (at level 10, pat pattern, m at level 100, k at level 200, only parsing).

(** ** Python arithmetic on floats, over [Q] *)

Definition Qltb (x y : Q) : bool := negb (Qle_bool y x).

(** [x / y] with a divisor that is not a literal. *)
Definition truediv (x y : Q) : Exc Q :=
  if Qeq_bool y 0 then Raise ZeroDivisionError else Ok (x / y)%Q.

(** [x % m] for a positive literal [m]: the result has the sign of [m]. *)
Definition pymod (x m : Q) : Q := (x - m * inject_Z (Qfloor (x / m)))%Q.

Definition of_len {A} (l : list A) : Q := inject_Z (Z.of_nat (length l)).

(** [sum(...)] over floats, starting from [0]. *)
Definition Qsum (l : list Q) : Q := fold_left Qplus l 0%Q.

(** [sum(1 for x in l if f x)] *)
Definition count_if {A} (f : A -> bool) (l : list A) : nat :=
  length (List.filter f l).

(** ** app/models.py *)

Inductive Category := TOP | BOTTOM | FOOTWEAR | ACCESSORY.

Inductive Style :=
| CASUAL | FORMAL | SPORTY | BOHEMIAN | MINIMALIST | VINTAGE | STREETWEAR
| BUSINESS.

Inductive Season := SPRING | SUMMER | FALL | WINTER | ALL_SEASON.

Inductive Occasion :=
| EVERYDAY | WORK | PARTY | DATE | SPORTS | FORMAL_EVENT | TRAVEL.

#[global] Instance Category_eq_dec : EqDecision Category.
Proof. solve_decision. Defined.
#[global] Instance Style_eq_dec : EqDecision Style.
Proof. solve_decision. Defined.
#[global] Instance Season_eq_dec : EqDecision Season.
Proof. solve_decision. Defined.
#[global] Instance Occasion_eq_dec : EqDecision Occasion.
Proof. solve_decision. Defined.

Definition Style_value (s : Style) : string :=
  match s with
  | CASUAL => "casual" | FORMAL => "formal" | SPORTY => "sporty"
  | BOHEMIAN => "bohemian" | MINIMALIST => "minimalist"
  | VINTAGE => "vintage" | STREETWEAR => "streetwear"
  | BUSINESS => "business"
  end.

Definition Season_value (s : Season) : string :=
  match s with
  | SPRING => "spring" | SUMMER => "summer" | FALL => "fall"
  | WINTER => "winter" | ALL_SEASON => "all_season"
  end.

Definition Occasion_value (o : Occasion) : string :=
  match o with
  | EVERYDAY => "everyday" | WORK => "work" | PARTY => "party"
  | DATE => "date" | SPORTS => "sports" | FORMAL_EVENT => "formal_event"
  | TRAVEL => "travel"
  end.

Module Color.
Record t := mk { r : Z; g : Z; b : Z }.

Definition eqb (c1 c2 : t) : bool :=
  (r c1 =? r c2)%Z && (g c1 =? g c2)%Z && (b c1 =? b c2)%Z.

(** [Color.to_hsv] *)
Definition to_hsv (self : t) : Exc (Q * Q * Q) :=
  let r := (inject_Z (r self) / 255)%Q in
  let g := (inject_Z (g self) / 255)%Q in
  let b := (inject_Z (b self) / 255)%Q in
  let max_val := Qmax (Qmax r g) b in
  let min_val := Qmin (Qmin r g) b in
  let delta := (max_val - min_val)%Q in
  let* h :=
    if Qeq_bool delta 0 then Ok 0%Q
    else if Qeq_bool max_val r then
      let* q := truediv (g - b) delta in Ok (60 * pymod q 6)%Q
    else if Qeq_bool max_val g then
      let* q := truediv (b - r) delta in Ok (60 * (q + 2))%Q
    else
      let* q := truediv (r - g) delta in Ok (60 * (q + 4))%Q in
  let* s := if Qeq_bool max_val 0 then Ok 0%Q else truediv delta max_val in
  Ok (h, s, max_val).
End Color.

Module Product.
Record t := mk {
  id : string;
  name : string;
  category : Category;
  style : Style;
  color : Color.t;
  price : Q;
  season : Season;
  occasion : list Occasion;
  brand : option string;
  description : option string
}.

(** The dataclass [__eq__]: field by field. *)
Definition eqb (p q : t) : bool :=
  String.eqb (id p) (id q) && String.eqb (name p) (name q)
  && bool_decide (category p = category q)
  && bool_decide (style p = style q)
  && Color.eqb (color p) (color q)
  && Qeq_bool (price p) (price q)
  && bool_decide (season p = season q)
  && bool_decide (occasion p = occasion q)
  && bool_decide (brand p = brand q)
  && bool_decide (description p = description q).
End Product.

Module Outfit.
Record t := mk {
  top : Product.t;
  bottom : Product.t;
  footwear : Product.t;
  accessories : list Product.t;
  match_score : Q;
  reasoning : string;
  total_price : Q
}.

(** [[outfit.top, outfit.bottom, outfit.footwear] + outfit.accessories] *)
Definition items (o : t) : list Product.t :=
  [top o; bottom o; footwear o] ++ accessories o.

(** [outfit.match_score = score; outfit.reasoning = reasoning] *)
Definition set_score (o : t) (score : Q) (reason : string) : t :=
  mk (top o) (bottom o) (footwear o) (accessories o) score reason
     (total_price o).
End Outfit.

Module RecommendationRequest.
Record t := mk {
  base_product_id : string;
  occasion : option Occasion;
  season : option Season;
  max_budget : option Q;
  style_preference : option Style;
  num_recommendations : Z
}.
End RecommendationRequest.

(** [x in l] for a list of enum members. *)
Definition occasion_in (o : Occasion) (l : list Occasion) : bool :=
  existsb (fun o' => bool_decide (o = o')) l.

(** [item.season == target or item.season == Season.ALL_SEASON] *)
Definition season_matches (target s : Season) : bool :=
  bool_decide (s = target) || bool_decide (s = ALL_SEASON).

(** Truth value of an [Optional[float]]: [None] and [0.0] are false. *)
Definition budget_given (b : option Q) : option Q :=
  match b with
  | Some x => if Qeq_bool x 0 then None else Some x
  | None => None
  end.

(** ** app/scorer.py *)

Module OutfitScorer.
Local Open Scope Q_scope.

Definition COLOR_WEIGHT : Q := 0.30.
Definition STYLE_WEIGHT : Q := 0.25.
Definition OCCASION_WEIGHT : Q := 0.20.
Definition SEASON_WEIGHT : Q := 0.15.
Definition BUDGET_WEIGHT : Q := 0.10.

Record t := mk {
  target_occasion : option Occasion;
  target_season : option Season;
  max_budget : option Q
}.

(** [hue_diff = abs(h - base_hue)], folded back into [0, 180]. *)
Definition hue_distance (h base_hue : Q) : Q :=
  let hue_diff := Qabs (h - base_hue) in
  if Qltb 180 hue_diff then 360 - hue_diff else hue_diff.

(** The [if]/[elif] chain of [_score_color_harmony] for one item. *)
Definition harmony_band (hue_diff : Q) (name : string) : Q * string :=
  if Qltb hue_diff 15 then
    (0.95, name ++ " matches base color")
  else if Qltb hue_diff 30 then
    (0.85, name ++ " is analogous to base")
  else if Qltb 115 hue_diff && Qltb hue_diff 125 then
    (0.75, name ++ " creates triadic harmony")
  else if Qltb 150 hue_diff && Qltb hue_diff 180 then
    (0.80, name ++ " complements base color")
  else if Qltb 30 hue_diff && Qltb hue_diff 60 then
    (0.70, name ++ " creates split complementary harmony")
  else
    (0.50, name ++ " has moderate color harmony").

(** [for i, color in enumerate(colors[1:], 1): ...] *)
Fixpoint harmony_loop (base_hue : Q) (rest : list Product.t)
    (harmony_score : Q) (reasons : list string) : Exc (Q * list string) :=
  match rest with
  | [] => Ok (harmony_score, reasons)
  | item :: rest' =>
      let* '(h, _, _) := Color.to_hsv (Product.color item) in
      let '(item_score, reason) :=
        harmony_band (hue_distance h base_hue) (Product.name item) in
      harmony_loop base_hue rest' (harmony_score + item_score)
                   (reasons ++ [reason])%list
  end.

(** [sum(1 for c in colors if c.to_hsv()[1] < 0.2)] *)
Fixpoint neutral_loop (colors : list Color.t) (count : nat) : Exc nat :=
  match colors with
  | [] => Ok count
  | c :: colors' =>
      let* '(_, s, _) := Color.to_hsv c in
      neutral_loop colors' (if Qltb s 0.2 then S count else count)
  end.

Definition _score_color_harmony (outfit : Outfit.t) : Exc (Q * string) :=
  let items := Outfit.items outfit in
  let colors := map Product.color items in
  match colors with
  | [] => Raise IndexError
  | c0 :: _ =>
      let* '(base_hue, _, _) := Color.to_hsv c0 in
      let* '(harmony_score, reasons) :=
        harmony_loop base_hue (tl items) 0 [] in
      let* avg_score :=
        if (1 <? length colors)%nat
        then truediv harmony_score (of_len (tl colors))
        else Ok 0.5 in
      let* neutral_count := neutral_loop colors 0 in
      let '(neutral_bonus, reasons) :=
        if (0 <? neutral_count)%nat
        then (Qmin 0.1 (inject_Z (Z.of_nat neutral_count) * 0.03),
              (reasons ++ [(pretty neutral_count
                            ++ " neutral item(s) add versatility")%string]
              )%list)
        else (0, reasons) in
      let final_score := Qmin 1.0 (avg_score + neutral_bonus) in
      let reason := String.concat "; " (firstn 3 reasons) in
      Ok (final_score,
          if String.eqb reason "" then "Color harmony evaluated" else reason)
  end.

Definition _score_style_compatibility (outfit : Outfit.t)
    : Exc (Q * string) :=
  let items := Outfit.items outfit in
  let styles := map Product.style items in
  match styles with
  | [] => Raise IndexError
  | base_style :: rest =>
      let matches := count_if (fun s => bool_decide (s = base_style)) rest in
      let total := (length styles - 1)%nat in
      if (total =? 0)%nat then Ok (1.0, "Single item")
      else
        let* match_ratio :=
          truediv (inject_Z (Z.of_nat matches)) (inject_Z (Z.of_nat total)) in
        if Qeq_bool match_ratio 1.0 then
          Ok (1.0, "All items share " ++ Style_value base_style ++ " style")
        else if Qle_bool 0.5 match_ratio then
          Ok (0.75, "Mostly " ++ Style_value base_style
                    ++ " style with some variation")
        else
          Ok (0.55, "Mixed styles create eclectic look")
  end.

Definition _score_occasion_fit (self : t) (outfit : Outfit.t)
    : Exc (Q * string) :=
  match target_occasion self with
  | None => Ok (0.7, "No specific occasion specified")
  | Some occ =>
      let items := Outfit.items outfit in
      let matching_items :=
        count_if (fun item => occasion_in occ (Product.occasion item)) items in
      let total := length items in
      let* match_ratio :=
        truediv (inject_Z (Z.of_nat matching_items))
                (inject_Z (Z.of_nat total)) in
      if Qle_bool 0.8 match_ratio then
        Ok (1.0, "Perfect for " ++ Occasion_value occ ++ " occasion")
      else if Qle_bool 0.6 match_ratio then
        Ok (0.8, "Good fit for " ++ Occasion_value occ)
      else if Qle_bool 0.4 match_ratio then
        Ok (0.6, "Moderately suitable for " ++ Occasion_value occ)
      else
        Ok (0.4, "May not be ideal for " ++ Occasion_value occ)
  end.

Definition _score_season_fit (self : t) (outfit : Outfit.t)
    : Exc (Q * string) :=
  match target_season self with
  | None => Ok (0.7, "No specific season specified")
  | Some ssn =>
      let items := Outfit.items outfit in
      let matching_items :=
        count_if (fun item => season_matches ssn (Product.season item))
                 items in
      let total := length items in
      let* match_ratio :=
        truediv (inject_Z (Z.of_nat matching_items))
                (inject_Z (Z.of_nat total)) in
      if Qle_bool 0.8 match_ratio then
        Ok (1.0, "Perfect for " ++ Season_value ssn ++ " season")
      else if Qle_bool 0.6 match_ratio then
        Ok (0.8, "Good for " ++ Season_value ssn ++ " season")
      else if Qle_bool 0.4 match_ratio then
        Ok (0.6, "Moderately suitable for " ++ Season_value ssn)
      else
        Ok (0.4, "May not be ideal for " ++ Season_value ssn)
  end.

Section Reasoning.
(** Python's [f"{x:.2f}"], the two-decimal rendering of a float. *)
Variable fmt2 : Q -> string.

Definition _score_budget (self : t) (outfit : Outfit.t)
    : Exc (Q * string) :=
  match budget_given (max_budget self) with
  | None => Ok (0.7, "No budget constraint")
  | Some max_budget =>
      let total_price := Outfit.total_price outfit in
      if Qle_bool total_price max_budget then
        let* ratio := truediv total_price max_budget in
        if Qltb ratio 0.7 then
          Ok (0.9, "Within budget ($" ++ fmt2 total_price ++ " of $"
                   ++ fmt2 max_budget ++ ")")
        else
          Ok (1.0, "Optimal budget usage ($" ++ fmt2 total_price
                   ++ " of $" ++ fmt2 max_budget ++ ")")
      else
        let overage := total_price - max_budget in
        let* q := truediv overage max_budget in
        let penalty := Qmin 0.5 q in
        let score := Qmax 0.1 (0.5 - penalty) in
        Ok (score, "Exceeds budget by $" ++ fmt2 overage)
  end.

Definition _generate_reasoning (self : t)
    (color_score : Q) (color_reason : string)
    (style_score : Q) (style_reason : string)
    (occasion_score : Q) (occasion_reason : string)
    (season_score : Q) (season_reason : string)
    (budget_score : Q) (budget_reason : string) : string :=
  let parts :=
    if Qle_bool 0.8 color_score then
      ["Excellent color harmony: " ++ color_reason]
    else if Qle_bool 0.6 color_score then
      ["Good color coordination: " ++ color_reason]
    else
      ["Color harmony: " ++ color_reason] in
  let parts :=
    if Qle_bool 0.8 style_score
    then (parts ++ [("Style: " ++ style_reason)%string])%list else parts in
  let parts :=
    if bool_decide (is_Some (target_occasion self))
       && Qle_bool 0.7 occasion_score
    then (parts ++ [("Occasion: " ++ occasion_reason)%string])%list else parts in
  let parts :=
    if bool_decide (is_Some (target_season self))
       && Qle_bool 0.7 season_score
    then (parts ++ [("Season: " ++ season_reason)%string])%list else parts in
  let parts :=
    if bool_decide (is_Some (budget_given (max_budget self)))
    then (parts ++ [("Budget: " ++ budget_reason)%string])%list else parts in
  match parts with
  | [] => "Well-coordinated outfit"
  | _ => String.concat ". " parts
  end.

Definition score_outfit (self : t) (outfit : Outfit.t)
    : Exc (Q * string) :=
  let* '(color_score, color_reason) := _score_color_harmony outfit in
  let* '(style_score, style_reason) := _score_style_compatibility outfit in
  let* '(occasion_score, occasion_reason) :=
    _score_occasion_fit self outfit in
  let* '(season_score, season_reason) := _score_season_fit self outfit in
  let* '(budget_score, budget_reason) := _score_budget self outfit in
  let total_score :=
    color_score * COLOR_WEIGHT +
    style_score * STYLE_WEIGHT +
    occasion_score * OCCASION_WEIGHT +
    season_score * SEASON_WEIGHT +
    budget_score * BUDGET_WEIGHT in
  let reasoning :=
    _generate_reasoning self
      color_score color_reason style_score style_reason
      occasion_score occasion_reason season_score season_reason
      budget_score budget_reason in
  Ok (total_score, reasoning).
End Reasoning.
End OutfitScorer.

(** ** The random source *)

(** A computation that may draw from the random source and may raise: it
    maps the number of draws made so far to its outcome and the number of
    draws made afterwards. *)
Definition Rand (A : Type) : Type := nat -> Exc A * nat.

Definition rand_ret {A} (a : A) : Rand A := fun s => (Ok a, s).

Definition rand_raise {A} (e : PyError) : Rand A := fun s => (Raise e, s).

Definition rand_bind {A B} (m : Rand A) (k : A -> Rand B) : Rand B :=
  fun s =>
    match m s with
    | (Ok a, s') => k a s'
    | (Raise e, s') => (Raise e, s')
    end.

(** [try: x = m ... except Exception: ...]: the outcome, never raising. *)
Definition rand_try {A} (m : Rand A) : Rand (option A) :=
  fun s =>
    match m s with
    | (Ok a, s') => (Ok (Some a), s')
    | (Raise _, s') => (Ok None, s')
    end.

Definition rand_lift {A} (m : Exc A) : Rand A := fun s => (m, s).

Notation "'let!' x ':=' m 'in' k" := (rand_bind m (fun x => k))
  (at level 10, x name, m at level 100, k at level 200, only parsing).

(** ** Sorting and slicing of Python lists *)

(** [l.sort(key=key, reverse=True)]: descending and stable, items with
    equal keys keep their original order. *)
Fixpoint insert_desc {A} (key : A -> Q) (x : A) (l : list A) : list A :=
  match l with
  | [] => [x]
  | y :: l' =>
      if Qltb (key x) (key y) then y :: insert_desc key x l' else x :: l
  end.

Definition sort_desc {A} (key : A -> Q) (l : list A) : list A :=
  fold_right (insert_desc key) [] l.

(** [l[:n]] for an [int] [n], negative [n] counting from the end. *)
Definition slice_to {A} (l : list A) (n : Z) : list A :=
  if (n <? 0)%Z then firstn (Z.to_nat (Z.of_nat (length l) + n)) l
  else firstn (Z.to_nat n) l.

(** ** app/recommender.py *)

Module OutfitRecommender.
Local Open Scope Q_scope.

Record t := mk {
  products : list Product.t;
  by_category : Category -> list Product.t;
  by_id : gmap string Product.t;
  compatibility_cache : gmap (string * string) Q
}.

(** The body of the loop of [_index_products]. *)
Definition index_step
    (index : (Category -> list Product.t) * gmap string Product.t)
    (product : Product.t)
    : (Category -> list Product.t) * gmap string Product.t :=
  let '(by_category, by_id) := index in
  ((fun c => if bool_decide (c = Product.category product)
             then (by_category c ++ [product])%list
             else by_category c),
   <[Product.id product := product]> by_id).

Definition _index_products (products : list Product.t)
    : (Category -> list Product.t) * gmap string Product.t :=
  fold_left index_step products (fun _ => [], ∅).

Definition _calculate_color_compatibility (color1 color2 : Color.t)
    : Exc Q :=
  let* '(h1, _, _) := Color.to_hsv color1 in
  let* '(h2, _, _) := Color.to_hsv color2 in
  let hue_diff := Qabs (h1 - h2) in
  let hue_diff := if Qltb 180 hue_diff then 360 - hue_diff else hue_diff in
  if Qltb hue_diff 30 then Ok 0.9
  else if Qltb 150 hue_diff && Qltb hue_diff 180 then Ok 0.85
  else if Qltb 115 hue_diff && Qltb hue_diff 125 then Ok 0.75
  else Ok 0.6.

(** [tuple(sorted([a, b]))] *)
Definition sorted_pair (a b : string) : string * string :=
  if String.ltb b a then (b, a) else (a, b).

(** [for p2 in self.products[i+1:]: ...] *)
Fixpoint precompute_row (p1 : Product.t) (rest : list Product.t)
    (cache : gmap (string * string) Q) : Exc (gmap (string * string) Q) :=
  match rest with
  | [] => Ok cache
  | p2 :: rest' =>
      let key := sorted_pair (Product.id p1) (Product.id p2) in
      let* score :=
        _calculate_color_compatibility (Product.color p1)
                                       (Product.color p2) in
      precompute_row p1 rest' (<[key := score]> cache)
  end.

(** [for i, p1 in enumerate(self.products): ...] *)
Fixpoint precompute_rows (products : list Product.t)
    (cache : gmap (string * string) Q) : Exc (gmap (string * string) Q) :=
  match products with
  | [] => Ok cache
  | p1 :: rest =>
      let* cache := precompute_row p1 rest cache in
      precompute_rows rest cache
  end.

Definition _precompute_compatibility (products : list Product.t)
    : Exc (gmap (string * string) Q) :=
  precompute_rows products ∅.

(** [OutfitRecommender.__init__] *)
Definition init (products : list Product.t) : Exc t :=
  let '(by_category, by_id) := _index_products products in
  let* cache := _precompute_compatibility products in
  Ok (mk products by_category by_id cache).

Definition _get_compatibility (self : t) (p1 p2 : Product.t) : Q :=
  let key := sorted_pair (Product.id p1) (Product.id p2) in
  default 0.5 (compatibility_cache self !! key).

Definition same_core (o1 o2 : Outfit.t) : bool :=
  String.eqb (Product.id (Outfit.top o1)) (Product.id (Outfit.top o2))
  && String.eqb (Product.id (Outfit.bottom o1))
                (Product.id (Outfit.bottom o2))
  && String.eqb (Product.id (Outfit.footwear o1))
                (Product.id (Outfit.footwear o2)).

Definition _is_duplicate (outfit : Outfit.t) (existing : list Outfit.t)
    : bool :=
  existsb (same_core outfit) existing.

(** The body of the loop over categories in [_filter_candidates]. *)
Definition filter_category (self : t) (base_product : Product.t)
    (occasion : option Occasion) (season : option Season)
    (max_budget : option Q) (style_preference : option Style)
    (category : Category) : list Product.t :=
  let candidates := by_category self category in
  let candidates :=
    match occasion with
    | Some occasion =>
        List.filter (fun p => occasion_in occasion (Product.occasion p))
                    candidates
    | None => candidates
    end in
  let candidates :=
    match season with
    | Some season =>
        List.filter (fun p => season_matches season (Product.season p))
                    candidates
    | None => candidates
    end in
  let candidates :=
    match style_preference with
    | Some style_preference =>
        List.filter
          (fun p => bool_decide (Product.style p = style_preference)
                    || bool_decide (Product.style p
                                    = Product.style base_product))
          candidates
    | None => candidates
    end in
  let candidates :=
    match budget_given max_budget with
    | Some max_budget =>
        let base_price := Product.price base_product in
        let remaining_budget := max_budget - base_price in
        List.filter
          (fun p => Qle_bool (Product.price p) (remaining_budget * 1.5))
          candidates
    | None => candidates
    end in
  candidates.

Definition _filter_candidates (self : t) (base_product : Product.t)
    (occasion : option Occasion) (season : option Season)
    (max_budget : option Q) (style_preference : option Style)
    : Category -> list Product.t :=
  fold_left
    (fun filtered category =>
       fun c => if bool_decide (c = category)
                then filter_category self base_product occasion season
                                     max_budget style_preference category
                else filtered c)
    [TOP; BOTTOM; FOOTWEAR; ACCESSORY]
    (fun _ => []).

(** The loop of [_select_item] that scores the candidates, skipping the
    base product. *)
Definition score_candidates (self : t) (candidates : list Product.t)
    (base_product : Product.t) : list (Q * Product.t) :=
  flat_map
    (fun candidate =>
       if String.eqb (Product.id candidate) (Product.id base_product)
       then []
       else
         let compatibility :=
           _get_compatibility self base_product candidate in
         let style_bonus :=
           if bool_decide (Product.style candidate
                           = Product.style base_product)
           then 0.2 else 0.0 in
         [(compatibility + style_bonus, candidate)])
    candidates.

Section Random.
Variable fmt2 : Q -> string.
Variable draw : nat -> nat.

(** [random.randint(a, b)] *)
Definition randint (a b : nat) : Rand nat :=
  fun s => (Ok (a + draw s mod (b - a + 1))%nat, S s).

(** [random.choice(seq)] *)
Definition choice {A} (seq : list A) : Rand A :=
  fun s =>
    match seq with
    | [] => (Raise IndexError, s)
    | x :: _ => (Ok (nth (draw s mod length seq) seq x), S s)
    end.

Definition _select_item (self : t) (candidates : list Product.t)
    (base_product : Product.t) : Rand Product.t :=
  match candidates with
  | [] => rand_raise (ValueError "No candidates available")
  | _ :: _ =>
      let scored := score_candidates self candidates base_product in
      let scored := sort_desc fst scored in
      let top_candidates :=
        firstn (Nat.max 3 (length scored / 3)) scored in
      match top_candidates with
      | _ :: _ => let! c := choice top_candidates in rand_ret (snd c)
      | [] => choice candidates
      end
  end.

(** [for _ in range(num_accessories): ...] *)
Fixpoint accessory_loop (self : t) (candidates : list Product.t)
    (base_product : Product.t) (n : nat) (accessories : list Product.t)
    : Rand (list Product.t) :=
  match n with
  | O => rand_ret accessories
  | S n' =>
      match candidates with
      | [] => accessory_loop self candidates base_product n' accessories
      | _ :: _ =>
          let! acc := _select_item self candidates base_product in
          if negb (existsb (Product.eqb acc) accessories)
          then accessory_loop self candidates base_product n'
                              (accessories ++ [acc])%list
          else accessory_loop self candidates base_product n' accessories
      end
  end.

Definition _generate_single_outfit (self : t) (base_product : Product.t)
    (candidates : Category -> list Product.t)
    (request : RecommendationRequest.t) : Rand Outfit.t :=
  let base_category := Product.category base_product in
  let! top :=
    if bool_decide (base_category = TOP) then rand_ret base_product
    else _select_item self (candidates TOP) base_product in
  let! bottom :=
    if bool_decide (base_category = BOTTOM) then rand_ret base_product
    else _select_item self (candidates BOTTOM) base_product in
  let! footwear :=
    if bool_decide (base_category = FOOTWEAR) then rand_ret base_product
    else _select_item self (candidates FOOTWEAR) base_product in
  let! num_accessories := randint 1 3 in
  let! accessories :=
    accessory_loop self (candidates ACCESSORY) base_product
                   num_accessories [] in
  let! accessories :=
    match accessories, candidates ACCESSORY with
    | [], _ :: _ =>
        let! acc :=
          _select_item self (candidates ACCESSORY) base_product in
        rand_ret [acc]
    | _, _ => rand_ret accessories
    end in
  let total_price :=
    Product.price top + Product.price bottom + Product.price footwear
    + Qsum (map Product.price accessories) in
  rand_ret (Outfit.mk top bottom footwear accessories 0.0 "" total_price).

(** The [while] loop of [generate_recommendations]; [remaining] is
    [max_attempts - attempts]. *)
Fixpoint attempts_loop (self : t) (base_product : Product.t)
    (candidates : Category -> list Product.t)
    (request : RecommendationRequest.t)
    (remaining : nat) (outfits : list Outfit.t) : Rand (list Outfit.t) :=
  match remaining with
  | O => rand_ret outfits
  | S remaining' =>
      if (Z.of_nat (length outfits)
          <? RecommendationRequest.num_recommendations request)%Z
      then
        let! outcome :=
          rand_try (_generate_single_outfit self base_product candidates
                                            request) in
        match outcome with
        | Some outfit =>
            if negb (_is_duplicate outfit outfits)
            then attempts_loop self base_product candidates request
                               remaining' (outfits ++ [outfit])%list
            else attempts_loop self base_product candidates request
                               remaining' outfits
        | None =>
            attempts_loop self base_product candidates request
                          remaining' outfits
        end
      else rand_ret outfits
  end.

(** [for outfit in outfits: score, reasoning = scorer.score_outfit(outfit) ...] *)
Fixpoint score_loop (scorer : OutfitScorer.t) (outfits : list Outfit.t)
    (scored_outfits : list Outfit.t) : Exc (list Outfit.t) :=
  match outfits with
  | [] => Ok scored_outfits
  | outfit :: outfits' =>
      let* '(score, reasoning) :=
        OutfitScorer.score_outfit fmt2 scorer outfit in
      score_loop scorer outfits'
        (scored_outfits ++ [Outfit.set_score outfit score reasoning])%list
  end.

Definition generate_recommendations (self : t)
    (request : RecommendationRequest.t) : Rand (list Outfit.t) :=
  match by_id self !! RecommendationRequest.base_product_id request with
  | None =>
      rand_raise
        (ValueError ("Product "
                     ++ RecommendationRequest.base_product_id request
                     ++ " not found"))
  | Some base_product =>
      let candidates :=
        _filter_candidates self base_product
          (RecommendationRequest.occasion request)
          (RecommendationRequest.season request)
          (RecommendationRequest.max_budget request)
          (RecommendationRequest.style_preference request) in
      let max_attempts := 100%nat in
      let! outfits :=
        attempts_loop self base_product candidates request
                      max_attempts [] in
      let scorer :=
        OutfitScorer.mk (RecommendationRequest.occasion request)
                        (RecommendationRequest.season request)
                        (RecommendationRequest.max_budget request) in
      let! scored_outfits := rand_lift (score_loop scorer outfits []) in
      let scored_outfits := sort_desc Outfit.match_score scored_outfits in
      rand_ret
        (slice_to scored_outfits
                  (RecommendationRequest.num_recommendations request))
  end.
End Random.
End OutfitRecommender.

(** ** Derived notions used in the statements *)

Local Open Scope Q_scope.

(** The components of [to_hsv]; [to_hsv] never raises ([to_hsv_hsv]). *)
Definition hsv (c : Color.t) : Q * Q * Q :=
  match Color.to_hsv c with
  | Ok t => t
  | Raise _ => (0, 0, 0)
  end.

Definition hue (c : Color.t) : Q := fst (fst (hsv c)).
Definition saturation (c : Color.t) : Q := snd (fst (hsv c)).

(** The identifier triple compared by [_is_duplicate]. *)
Definition core (o : Outfit.t) : string * string * string :=
  (Product.id (Outfit.top o), Product.id (Outfit.bottom o),
   Product.id (Outfit.footwear o)).

(** A computation raised. *)
Definition raised {A} (r : Exc A) : Prop := exists e, r = Raise e.

(** The product identifiers of a catalog. *)
Definition ids (products : list Product.t) : list string :=
  map Product.id products.


(** The score component of [harmony_band]; it does not depend on the
    item's name ([harmony_band_fst]). *)
Definition band_score (hue_diff : Q) : Q :=
  fst (OutfitScorer.harmony_band hue_diff "").

(** The score of one non-top item against the hue of the top. *)
Definition item_score (base_hue : Q) (item : Product.t) : Q :=
  band_score (OutfitScorer.hue_distance (hue (Product.color item)) base_hue).

(** Number of items of an outfit whose colour has saturation below 0.2. *)
Definition neutral_count (o : Outfit.t) : nat :=
  count_if (fun c => Qltb (saturation c) 0.2)
           (map Product.color (Outfit.items o)).

(** The band table as the specification words it, a band [a-b] taken with
    its end points. *)
Definition spec_band (d : Q) : Q :=
  if Qltb d 15 then 0.95
  else if Qltb d 30 then 0.85
  else if Qle_bool 115 d && Qle_bool d 125 then 0.75
  else if Qle_bool 150 d && Qle_bool d 180 then 0.80
  else if Qle_bool 30 d && Qle_bool d 60 then 0.70
  else 0.50.


(** What the construction of the index adds to the cache: a score in
    [0, 1] under the sorted pair of two catalog identifiers. *)
Definition indexed (products : list Product.t) (k : string * string) (v : Q)
    : Prop :=
  0 <= v <= 1 /\
  exists p1 p2, In p1 products /\ In p2 products /\
    k = OutfitRecommender.sorted_pair (Product.id p1) (Product.id p2).


(** The order of a list sorted by decreasing key. *)
Definition descending {A} (key : A -> Q) (x y : A) : Prop := key y <= key x.

(** The score [_select_item] ranks a candidate by. *)
Definition selection_score (self : OutfitRecommender.t)
    (base_product candidate : Product.t) : Q :=
  OutfitRecommender._get_compatibility self base_product candidate
  + (if bool_decide (Product.style candidate = Product.style base_product)
     then 0.2 else 0.0).

(** How [_generate_single_outfit] fills the slot of a category: with the
    base product when it is of that category, from the candidates of the
    category otherwise. *)
Definition slot_ok (base_product : Product.t)
    (candidates : Category -> list Product.t) (c : Category)
    (p : Product.t) : Prop :=
  if bool_decide (Product.category base_product = c)
  then p = base_product
  else In p (candidates c).

(** The shape of an outfit assembled by [_generate_single_outfit]. *)
Definition generated (base_product : Product.t)
    (candidates : Category -> list Product.t) (o : Outfit.t) : Prop :=
  slot_ok base_product candidates TOP (Outfit.top o) /\
  slot_ok base_product candidates BOTTOM (Outfit.bottom o) /\
  slot_ok base_product candidates FOOTWEAR (Outfit.footwear o) /\
  incl (Outfit.accessories o) (candidates ACCESSORY) /\
  List.NoDup (Outfit.accessories o) /\
  (length (Outfit.accessories o) <= 3)%nat /\
  (candidates ACCESSORY <> [] -> Outfit.accessories o <> []) /\
  ((exists c, In c (candidates ACCESSORY)
              /\ Product.id c <> Product.id base_product) ->
   forall a, In a (Outfit.accessories o) ->
             Product.id a <> Product.id base_product) /\
  Outfit.total_price o
  = Product.price (Outfit.top o) + Product.price (Outfit.bottom o)
    + Product.price (Outfit.footwear o)
    + Qsum (map Product.price (Outfit.accessories o)).

(** An outfit with its score and reasoning filled in by the scorer. *)
Definition scored_from (fmt2 : Q -> string) (scorer : OutfitScorer.t)
    (o o' : Outfit.t) : Prop :=
  exists score reasoning,
    OutfitScorer.score_outfit fmt2 scorer o = Ok (score, reasoning) /\
    o' = Outfit.set_score o score reasoning.

(** The candidates and the scorer that [generate_recommendations] builds
    from a request. *)
Definition request_candidates (self : OutfitRecommender.t)
    (base_product : Product.t) (request : RecommendationRequest.t)
    : Category -> list Product.t :=
  OutfitRecommender._filter_candidates self base_product
    (RecommendationRequest.occasion request)
    (RecommendationRequest.season request)
    (RecommendationRequest.max_budget request)
    (RecommendationRequest.style_preference request).

Definition request_scorer (request : RecommendationRequest.t)
    : OutfitScorer.t :=
  OutfitScorer.mk (RecommendationRequest.occasion request)
                  (RecommendationRequest.season request)
                  (RecommendationRequest.max_budget request).

(** ** A small catalog for the concrete instances

    [top_001], [bottom_008], [footwear_001], [acc_001] and [acc_007] are
    entries of [app/data.py]; the red, cyan and orange items are synthetic. *)
Module Example.
Local Open Scope string_scope.

Definition top_001 : Product.t :=
  Product.mk "top_001" "Classic White T-Shirt" TOP CASUAL
    (Color.mk 255 255 255) 29.99 ALL_SEASON [EVERYDAY; SPORTS; TRAVEL]
    (Some "Basics Co") None.

Definition bottom_008 : Product.t :=
  Product.mk "bottom_008" "Beige Cargo Pants" BOTTOM CASUAL
    (Color.mk 245 245 220) 79.99 ALL_SEASON [EVERYDAY; TRAVEL]
    (Some "Adventure") None.

Definition footwear_001 : Product.t :=
  Product.mk "footwear_001" "White Sneakers" FOOTWEAR CASUAL
    (Color.mk 255 255 255) 99.99 ALL_SEASON [EVERYDAY; SPORTS; TRAVEL]
    (Some "Sport Co") None.

Definition acc_001 : Product.t :=
  Product.mk "acc_001" "Black Leather Belt" ACCESSORY FORMAL
    (Color.mk 0 0 0) 49.99 ALL_SEASON [WORK; FORMAL_EVENT; EVERYDAY]
    (Some "Accessories Co") None.

Definition acc_007 : Product.t :=
  Product.mk "acc_007" "Beige Canvas Hat" ACCESSORY CASUAL
    (Color.mk 245 245 220) 29.99 SUMMER [EVERYDAY; TRAVEL; SPORTS]
    (Some "Outdoor Co") None.

Definition catalog : list Product.t :=
  [top_001; bottom_008; footwear_001; acc_001; acc_007].

Definition red_top : Product.t :=
  Product.mk "red_top" "Red Shirt" TOP CASUAL (Color.mk 255 0 0) 20
    ALL_SEASON [EVERYDAY] None None.

Definition cyan_bottom : Product.t :=
  Product.mk "cyan_bottom" "Cyan Shorts" BOTTOM CASUAL (Color.mk 0 255 255)
    20 ALL_SEASON [EVERYDAY] None None.

Definition cyan_shoes : Product.t :=
  Product.mk "cyan_shoes" "Cyan Sneakers" FOOTWEAR CASUAL
    (Color.mk 0 255 255) 20 ALL_SEASON [EVERYDAY] None None.

(** The top and both other items at hue distance exactly 180. *)
Definition complementary_outfit : Outfit.t :=
  Outfit.mk red_top cyan_bottom cyan_shoes [] 0 "" 60.

(** The white T-shirt (hue 0) with the beige cargo pants (hue 60) and the
    white sneakers. *)
Definition beige_outfit : Outfit.t :=
  Outfit.mk top_001 bottom_008 footwear_001 [] 0 "" 209.97.

(** A rendering of prices; the statements do not depend on it. *)
Definition fmt2 (x : Q) : string := "".

(** A random source whose every draw is 0. *)
Definition draw0 (n : nat) : nat := 0.

(** The recommender of a catalog; [init] never raises ([init_total]). *)
Definition recommender (products : list Product.t) : OutfitRecommender.t :=
  match OutfitRecommender.init products with
  | Ok self => self
  | Raise _ => OutfitRecommender.mk [] (fun _ => []) ∅ ∅
  end.

(** Travel in winter, from the white T-shirt: no accessory of the catalog
    passes both filters. *)
Definition winter_travel_request : RecommendationRequest.t :=
  RecommendationRequest.mk "top_001" (Some TRAVEL) (Some WINTER) None None
                           5.

(** Outfits around the black leather belt, an accessory. *)
Definition belt_request : RecommendationRequest.t :=
  RecommendationRequest.mk "acc_001" None None None None 5.

(** A budget of 300 from the white T-shirt, casual style preferred. *)
Definition budget_request : RecommendationRequest.t :=
  RecommendationRequest.mk "top_001" (Some EVERYDAY) (Some SUMMER)
                           (Some 300) (Some CASUAL) 5.

(** An identifier that is not in the catalog. *)
Definition unknown_request : RecommendationRequest.t :=
  RecommendationRequest.mk "top_999" None None None None 5.

(** The catalog with the belt as its only accessory. *)
Definition belt_only_catalog : list Product.t :=
  [top_001; bottom_008; footwear_001; acc_001].

(** An outfit 20% over a budget of 100. *)
Definition over_budget_outfit : Outfit.t :=
  Outfit.mk red_top cyan_bottom cyan_shoes [] 0 "" 120.

(** A call on the catalog, with every draw 0 and no draw made before. *)
Definition run (request : RecommendationRequest.t)
    : Exc (list Outfit.t) * nat :=
  OutfitRecommender.generate_recommendations fmt2 draw0
    (recommender catalog) request 0%nat.

(** The outfits returned for a request, [[]] if the call raises. *)
Definition recommend (request : RecommendationRequest.t)
    : list Outfit.t :=
  match fst (run request) with
  | Ok outfits => outfits
  | Raise _ => []
  end.

(** Two accessories to select from. *)
Definition two_accessories : list Product.t := [acc_001; acc_007].
End Example.

(** ** app/models.py: dictionaries of products *)

Definition Category_value (c : Category) : string :=
  match c with
  | TOP => "top" | BOTTOM => "bottom" | FOOTWEAR => "footwear"
  | ACCESSORY => "accessory"
  end.

(** The dictionary built by [Product.to_dict], one field for each key; the
    inner dictionary of the colour is a [Color.t]. *)
Module ProductDict.
Record t := mk {
  id : string;
  name : string;
  category : string;
  style : string;
  color : Color.t;
  price : Q;
  season : string;
  occasion : list string;
  brand : option string;
  description : option string
}.
End ProductDict.

(** [Product.to_dict] *)
Definition Product_to_dict (self : Product.t) : ProductDict.t :=
  ProductDict.mk
    (Product.id self)
    (Product.name self)
    (Category_value (Product.category self))
    (Style_value (Product.style self))
    (Color.mk (Color.r (Product.color self)) (Color.g (Product.color self))
              (Color.b (Product.color self)))
    (Product.price self)
    (Season_value (Product.season self))
    (map Occasion_value (Product.occasion self))
    (Product.brand self)
    (Product.description self).

(** ** Python dictionaries in insertion order

    An association list from the oldest key to the newest one, each key
    occurring once. *)

(** [d.get(k)] *)
Fixpoint dict_get {V} (k : string) (d : list (string * V)) : option V :=
  match d with
  | [] => None
  | (k', v) :: d' => if String.eqb k' k then Some v else dict_get k d'
  end.

(** [d[k] = v]: a key of the dictionary keeps its place, a new key goes to
    the end. *)
Fixpoint dict_set {V} (k : string) (v : V) (d : list (string * V))
    : list (string * V) :=
  match d with
  | [] => [(k, v)]
  | (k', v') :: d' =>
      if String.eqb k' k then (k', v) :: d' else (k', v') :: dict_set k v d'
  end.

(** [del d[k]] for a key of the dictionary. *)
Definition dict_del {V} (k : string) (d : list (string * V))
    : list (string * V) :=
  List.filter (fun kv => negb (String.eqb (fst kv) k)) d.

Definition dict_keys {V} (d : list (string * V)) : list string := map fst d.

(** ** app/cache.py *)

Module RecommendationCache.
Section Cache.
(** The dictionaries of [Outfit.to_dict], which rounds the score and the
    price, and the MD5 digest of the JSON text of a request. *)
Variable D : Type.
Variable to_dict : Outfit.t -> D.
Variable _cache_key : RecommendationRequest.t -> string.

Record t := mk {
  cache : list (string * list D);
  max_size : Z
}.

(** [RecommendationCache.__init__] *)
Definition init (max_size : Z) : t := mk [] max_size.

Definition get (self : t) (request : RecommendationRequest.t)
    : option (list D) :=
  let key := _cache_key request in
  dict_get key (cache self).

Definition set (self : t) (request : RecommendationRequest.t)
    (outfits : list Outfit.t) : t :=
  let key := _cache_key request in
  let cache :=
    if (max_size self <=? Z.of_nat (length (cache self)))%Z then
      match cache self with
      | (first_key, _) :: _ => dict_del first_key (cache self)
      | [] => cache self
      end
    else cache self in
  mk (dict_set key (map to_dict outfits) cache) (max_size self).

Definition clear (self : t) : t := mk [] (max_size self).

(** A call that changes the cache, and the cache after a sequence of
    calls. *)
Inductive call :=
| call_set (request : RecommendationRequest.t) (outfits : list Outfit.t)
| call_clear.

Definition after (self : t) (calls : list call) : t :=
  fold_left
    (fun c op =>
       match op with
       | call_set request outfits => set c request outfits
       | call_clear => clear c
       end)
    calls self.
End Cache.
Arguments cache {D} _.
Arguments max_size {D} _.
Arguments init {D} max_size.
Arguments get {D} _cache_key self request.
Arguments set {D} to_dict _cache_key self request outfits.
Arguments clear {D} self.
Arguments after {D} to_dict _cache_key self calls.
End RecommendationCache.

(** ** app/main.py *)

(** What an endpoint raises: an [HTTPException], or an exception that it
    does not catch. *)
Inductive EndpointError :=
| HTTPException (status_code : Z) (detail : string)
| Uncaught (e : PyError).

Inductive Endpoint (A : Type) :=
| Return (a : A)
| Fail (e : EndpointError).
Arguments Return {A} a.
Arguments Fail {A} e.

Module RecommendationRequestModel.
Record t := mk {
  base_product_id : string;
  occasion : option string;
  season : option string;
  max_budget : option Q;
  style_preference : option string;
  num_recommendations : Z
}.
End RecommendationRequestModel.

Definition Style_members : list Style :=
  [CASUAL; FORMAL; SPORTY; BOHEMIAN; MINIMALIST; VINTAGE; STREETWEAR;
   BUSINESS].

Definition Season_members : list Season :=
  [SPRING; SUMMER; FALL; WINTER; ALL_SEASON].

Definition Occasion_members : list Occasion :=
  [EVERYDAY; WORK; PARTY; DATE; SPORTS; FORMAL_EVENT; TRAVEL].

Module Main.
Section Endpoints.
(** The response models, built from a dictionary without a validation
    error, [repr] of a string and [str] of an exception that has no
    message of its own. *)
Variable D R PR : Type.
Variable to_dict : Outfit.t -> D.
Variable OutfitResponse : D -> R.
Variable ProductResponse : ProductDict.t -> PR.
Variable _cache_key : RecommendationRequest.t -> string.
Variable repr : string -> string.
Variable str : PyError -> string.
Variable fmt2 : Q -> string.
Variable draw : nat -> nat.

(** The module-level [products] and [recommender]. *)
Variable products : list Product.t.
Variable recommender : OutfitRecommender.t.

(** [E(value)] for an enumeration [E]: the member with this value. *)
Definition by_value {A} (members : list A) (value : A -> string)
    (class : string) (s : string) : Exc A :=
  match find (fun m => String.eqb (value m) s) members with
  | Some m => Ok m
  | None => Raise (ValueError (repr s ++ " is not a valid " ++ class))
  end.

(** [E(field) if field else None] *)
Definition optional_member {A} (members : list A) (value : A -> string)
    (class : string) (field : option string) : Exc (option A) :=
  match field with
  | None => Ok None
  | Some s =>
      if String.eqb s "" then Ok None
      else let* m := by_value members value class s in Ok (Some m)
  end.

(** The [cache_request] of [get_recommendations]. *)
Definition cache_request (request : RecommendationRequestModel.t)
    : Exc RecommendationRequest.t :=
  let* occasion :=
    optional_member Occasion_members Occasion_value "Occasion"
      (RecommendationRequestModel.occasion request) in
  let* season :=
    optional_member Season_members Season_value "Season"
      (RecommendationRequestModel.season request) in
  let* style_preference :=
    optional_member Style_members Style_value "Style"
      (RecommendationRequestModel.style_preference request) in
  Ok (RecommendationRequest.mk
        (RecommendationRequestModel.base_product_id request)
        occasion season
        (RecommendationRequestModel.max_budget request)
        style_preference
        (RecommendationRequestModel.num_recommendations request)).

(** [str(e)] *)
Definition str_error (e : PyError) : string :=
  match e with
  | ValueError msg => msg
  | _ => str e
  end.

(** [get_product] *)
Definition get_product (product_id : string) : Endpoint PR :=
  match find (fun p => String.eqb (Product.id p) product_id) products with
  | Some product => Return (ProductResponse (Product_to_dict product))
  | None => Fail (HTTPException 404 "Product not found")
  end.

(** [get_recommendations], on the module-level [cache] and the random
    source; the elapsed time and its warning are left out. *)
Definition get_recommendations (cache : RecommendationCache.t D)
    (request : RecommendationRequestModel.t) (s : nat)
    : Endpoint (list R) * RecommendationCache.t D * nat :=
  match cache_request request with
  | Raise e => (Fail (Uncaught e), cache, s)
  | Ok cache_request =>
      match RecommendationCache.get _cache_key cache cache_request with
      | Some (d :: ds) => (Return (map OutfitResponse (d :: ds)), cache, s)
      | _ =>
          match OutfitRecommender.generate_recommendations fmt2 draw
                  recommender cache_request s with
          | (Ok outfits, s') =>
              (Return (map OutfitResponse (map to_dict outfits)),
               RecommendationCache.set to_dict _cache_key cache
                 cache_request outfits,
               s')
          | (Raise (ValueError msg), s') =>
              (Fail (HTTPException 400 (str_error (ValueError msg))),
               cache, s')
          | (Raise e, s') =>
              (Fail (HTTPException 500
                       ("Internal server error: " ++ str_error e)),
               cache, s')
          end
      end
  end.
End Endpoints.
End Main.

(** ** Derived notions for the further properties *)

(** The compatibility of two colours; [_calculate_color_compatibility]
    never raises. *)
Definition color_compatibility (c1 c2 : Color.t) : Q :=
  match OutfitRecommender._calculate_color_compatibility c1 c2 with
  | Ok q => q
  | Raise _ => 0
  end.

(** [x] occurs before [y] in [l]. *)
Definition before {A} (l : list A) (x y : A) : Prop :=
  exists l1 l2 l3, l = (l1 ++ x :: l2 ++ y :: l3)%list.

(** The products that can fill the slot of a category: the base product
    when it is of that category, the candidates of the category
    otherwise. *)
Definition slot_choices (base_product : Product.t)
    (candidates : Category -> list Product.t) (c : Category)
    : list Product.t :=
  if bool_decide (Product.category base_product = c)
  then [base_product]
  else candidates c.

(** The field of a request model that [cache_request] turns into the
    optional member [m]: the value of the member, and [None] or the empty
    string for no member. *)
Definition parses {A} (value : A -> string) (field : option string)
    (m : option A) : Prop :=
  match m with
  | Some x => field = Some (value x)
  | None => field = None \/ field = Some ""
  end.

(** ** Further concrete instances *)

Module Sample.
Local Open Scope string_scope.

(** The first outfit returned for the request with a budget. *)
Definition first_outfit : Outfit.t :=
  hd Example.complementary_outfit
     (Example.recommend Example.budget_request).

(** A request for no outfit at all. *)
Definition zero_request : RecommendationRequest.t :=
  RecommendationRequest.mk "top_001" None None None None 0.

(** A key function for the instances, in place of the digest: the
    identifier of the base product. *)
Definition key (request : RecommendationRequest.t) : string :=
  RecommendationRequest.base_product_id request.

(** A full cache of capacity 2, the entry of the T-shirt being the
    oldest. *)
Definition full_cache : RecommendationCache.t Outfit.t :=
  RecommendationCache.mk Outfit.t [("top_001", []); ("acc_001", [])] 2.

(** The request with a budget as the endpoint receives it. *)
Definition model : RecommendationRequestModel.t :=
  RecommendationRequestModel.mk "top_001" (Some "everyday") (Some "summer")
                                (Some 300) (Some "casual") 5.

(** The endpoint on the example catalog, the outfits standing for their
    own dictionaries and responses. *)
Definition endpoint (cache : RecommendationCache.t Outfit.t) (s : nat)
    : Endpoint (list Outfit.t) * RecommendationCache.t Outfit.t * nat :=
  Main.get_recommendations Outfit.t Outfit.t (fun o => o) (fun d => d) key
    (fun s => s) (fun _ => "") Example.fmt2 Example.draw0
    (Example.recommender Example.catalog) cache model s.

(** The response of a call of the endpoint, [[]] if it fails. *)
Definition response (out : Endpoint (list Outfit.t)
                           * RecommendationCache.t Outfit.t * nat)
    : list Outfit.t :=
  match fst (fst out) with
  | Return r => r
  | Fail _ => []
  end.

(** A second pair of cargo pants, equal to the first but for its
    identifier and name, so that the two outfits of the catalog below score
    the same. *)
Definition bottom_twin : Product.t :=
  Product.mk "bottom_twin" "Beige Cargo Pants II" BOTTOM CASUAL
    (Color.mk 245 245 220) 79.99 ALL_SEASON [EVERYDAY; TRAVEL]
    (Some "Adventure") None.

Definition twin_catalog : list Product.t :=
  [Example.top_001; Example.bottom_008; bottom_twin; Example.footwear_001].

(** Up to five outfits around the T-shirt, without constraints. *)
Definition twin_request : RecommendationRequest.t :=
  RecommendationRequest.mk "top_001" None None None None 5.

(** A random source whose n-th draw is n + 1. *)
Definition shifted (n : nat) : nat := S n.

Definition twin_run : Exc (list Outfit.t) * nat :=
  OutfitRecommender.generate_recommendations Example.fmt2 shifted
    (Example.recommender twin_catalog) twin_request 0%nat.

Definition twin_outfits : list Outfit.t :=
  match fst twin_run with
  | Ok outfits => outfits
  | Raise _ => []
  end.
End Sample.

(** ** Binary64 arithmetic

    A Python [float] is an IEEE 754 binary64 number.  A finite one is the
    rational it denotes; an operation returns the exact result rounded to
    the nearest binary64 number, ties to the even significand, with gradual
    underflow.  Infinities and NaN are not represented: the model covers
    computations whose results stay below 2^1024 in magnitude.  The
    comparisons, [abs], [min] and [max] of Python are exact on these
    values. *)

Module Binary64.
Local Open Scope Q_scope.

(** The nearest integer, ties to the even one. *)
Definition nearest_even (x : Q) : Z :=
  let f := Qfloor x in
  match Qcompare (x - inject_Z f) (1 # 2) with
  | Lt => f
  | Gt => (f + 1)%Z
  | Eq => if Z.even f then f else (f + 1)%Z
  end.

(** The exponent of a positive rational: the [k] with
    [2^k <= x < 2^(k+1)]. *)
Definition exponent (x : Q) : Z :=
  let k := (Z.log2 (Qnum x) - Z.log2 (Zpos (Qden x)))%Z in
  if Qle_bool (2 ^ k) x then k else (k - 1)%Z.

(** Rounding of a positive rational to 53 significant bits, or to a
    multiple of [2^-1074] below [2^-1022]. *)
Definition round_pos (x : Q) : Q :=
  let e := Z.max (exponent x - 52) (-1074) in
  Qred (inject_Z (nearest_even (x / 2 ^ e)) * 2 ^ e).

Definition round (x : Q) : Q :=
  let x := Qred x in
  match Qcompare x 0 with
  | Eq => 0
  | Gt => round_pos x
  | Lt => - round_pos (- x)
  end.

(** A decimal literal of the source, an [int] used as a [float], and the
    operations.  Literals that are binary64 numbers themselves (0.5, 1.5,
    the integers) are written as they are. *)
Definition lit (x : Q) : Q := round x.
Definition of_int (n : Z) : Q := round (inject_Z n).
Definition add (x y : Q) : Q := round (x + y).
Definition sub (x y : Q) : Q := round (x - y).
Definition mul (x y : Q) : Q := round (x * y).

(** [x / y] for a non-zero [y]. *)
Definition quot (x y : Q) : Q := round (x / y).

(** [x / y] with a divisor that is not a literal: raises on zero. *)
Definition div (x y : Q) : Exc Q :=
  if Qeq_bool y 0 then Raise ZeroDivisionError else Ok (quot x y).

(** [x % m] for a positive [m]: the exact remainder of the division
    truncated toward zero, to which [m] is added when it is negative. *)
Definition mod_ (x m : Q) : Q :=
  let q := x / m in
  let r := x - m * inject_Z (Z.quot (Qnum q) (Zpos (Qden q))) in
  if Qltb r 0 then add r m else r.
End Binary64.

(** ** The decisions that depend on rounding, in binary64

    [Color.to_hsv], [_calculate_color_compatibility], [_filter_candidates]
    and [_score_budget] once more, every arithmetic operation rounding as
    Python's does.  Prices, budgets and hues are the binary64 numbers the
    code holds. *)

Module Float.
Local Open Scope Q_scope.

(** [Color.to_hsv] *)
Definition to_hsv (self : Color.t) : Exc (Q * Q * Q) :=
  let r := Binary64.quot (Binary64.of_int (Color.r self)) 255 in
  let g := Binary64.quot (Binary64.of_int (Color.g self)) 255 in
  let b := Binary64.quot (Binary64.of_int (Color.b self)) 255 in
  let max_val := Qmax (Qmax r g) b in
  let min_val := Qmin (Qmin r g) b in
  let delta := Binary64.sub max_val min_val in
  let* h :=
    if Qeq_bool delta 0 then Ok 0
    else if Qeq_bool max_val r then
      let* q := Binary64.div (Binary64.sub g b) delta in
      Ok (Binary64.mul 60 (Binary64.mod_ q 6))
    else if Qeq_bool max_val g then
      let* q := Binary64.div (Binary64.sub b r) delta in
      Ok (Binary64.mul 60 (Binary64.add q 2))
    else
      let* q := Binary64.div (Binary64.sub r g) delta in
      Ok (Binary64.mul 60 (Binary64.add q 4)) in
  let* s :=
    if Qeq_bool max_val 0 then Ok 0 else Binary64.div delta max_val in
  Ok (h, s, max_val).

(** [OutfitRecommender._calculate_color_compatibility] *)
Definition _calculate_color_compatibility (color1 color2 : Color.t)
    : Exc Q :=
  let* '(h1, _, _) := to_hsv color1 in
  let* '(h2, _, _) := to_hsv color2 in
  let hue_diff := Qabs (Binary64.sub h1 h2) in
  let hue_diff :=
    if Qltb 180 hue_diff then Binary64.sub 360 hue_diff else hue_diff in
  if Qltb hue_diff 30 then Ok (Binary64.lit 0.9)
  else if Qltb 150 hue_diff && Qltb hue_diff 180 then Ok (Binary64.lit 0.85)
  else if Qltb 115 hue_diff && Qltb hue_diff 125 then Ok (Binary64.lit 0.75)
  else Ok (Binary64.lit 0.6).

(** The body of the loop over categories in
    [OutfitRecommender._filter_candidates]. *)
Definition filter_category (self : OutfitRecommender.t)
    (base_product : Product.t)
    (occasion : option Occasion) (season : option Season)
    (max_budget : option Q) (style_preference : option Style)
    (category : Category) : list Product.t :=
  let candidates := OutfitRecommender.by_category self category in
  let candidates :=
    match occasion with
    | Some occasion =>
        List.filter (fun p => occasion_in occasion (Product.occasion p))
                    candidates
    | None => candidates
    end in
  let candidates :=
    match season with
    | Some season =>
        List.filter (fun p => season_matches season (Product.season p))
                    candidates
    | None => candidates
    end in
  let candidates :=
    match style_preference with
    | Some style_preference =>
        List.filter
          (fun p => bool_decide (Product.style p = style_preference)
                    || bool_decide (Product.style p
                                    = Product.style base_product))
          candidates
    | None => candidates
    end in
  let candidates :=
    match budget_given max_budget with
    | Some max_budget =>
        let base_price := Product.price base_product in
        let remaining_budget := Binary64.sub max_budget base_price in
        List.filter
          (fun p => Qle_bool (Product.price p)
                             (Binary64.mul remaining_budget 1.5))
          candidates
    | None => candidates
    end in
  candidates.

(** [OutfitRecommender._filter_candidates] *)
Definition _filter_candidates (self : OutfitRecommender.t)
    (base_product : Product.t)
    (occasion : option Occasion) (season : option Season)
    (max_budget : option Q) (style_preference : option Style)
    : Category -> list Product.t :=
  fold_left
    (fun filtered category =>
       fun c => if bool_decide (c = category)
                then filter_category self base_product occasion season
                                     max_budget style_preference category
                else filtered c)
    [TOP; BOTTOM; FOOTWEAR; ACCESSORY]
    (fun _ => []).

(** [OutfitScorer._score_budget] *)
Definition _score_budget (fmt2 : Q -> string) (self : OutfitScorer.t)
    (outfit : Outfit.t) : Exc (Q * string) :=
  match budget_given (OutfitScorer.max_budget self) with
  | None => Ok (Binary64.lit 0.7, "No budget constraint")
  | Some max_budget =>
      let total_price := Outfit.total_price outfit in
      if Qle_bool total_price max_budget then
        let* ratio := Binary64.div total_price max_budget in
        if Qltb ratio (Binary64.lit 0.7) then
          Ok (Binary64.lit 0.9,
              "Within budget ($" ++ fmt2 total_price ++ " of $"
              ++ fmt2 max_budget ++ ")")
        else
          Ok (1.0, "Optimal budget usage ($" ++ fmt2 total_price
                   ++ " of $" ++ fmt2 max_budget ++ ")")
      else
        let overage := Binary64.sub total_price max_budget in
        let* q := Binary64.div overage max_budget in
        let penalty := Qmin 0.5 q in
        let score := Qmax (Binary64.lit 0.1) (Binary64.sub 0.5 penalty) in
        Ok (score, "Exceeds budget by $" ++ fmt2 overage)
  end.

(** The hue that [to_hsv] returns; [to_hsv] never raises. *)
Definition hue (c : Color.t) : Q :=
  match to_hsv c with
  | Ok (h, _, _) => h
  | Raise _ => 0
  end.

(** The hue distance of [_calculate_color_compatibility]. *)
Definition hue_distance (h1 h2 : Q) : Q :=
  let hue_diff := Qabs (Binary64.sub h1 h2) in
  if Qltb 180 hue_diff then Binary64.sub 360 hue_diff else hue_diff.

(** The conjunction of the constraints of a request on a candidate, the
    budget bound computed as the filter computes it. *)
Definition keeps (base_product : Product.t) (occasion : option Occasion)
    (season : option Season) (max_budget : option Q)
    (style_preference : option Style) (p : Product.t) : bool :=
  match occasion with
  | Some o => occasion_in o (Product.occasion p)
  | None => true
  end
  && match season with
     | Some s => season_matches s (Product.season p)
     | None => true
     end
  && match style_preference with
     | Some st => bool_decide (Product.style p = st)
                  || bool_decide (Product.style p = Product.style base_product)
     | None => true
     end
  && match max_budget with
     | Some b =>
         Qle_bool (Product.price p)
                  (Binary64.mul (Binary64.sub b (Product.price base_product))
                                1.5)
     | None => true
     end.
End Float.

(** ** Instances in binary64 *)

Module FloatSample.
Local Open Scope string_scope.

(** Two entries of [app/data.py], their prices the binary64 numbers that
    the literals 199.99 and 99.99 denote. *)
Definition top_002 : Product.t :=
  Product.mk "top_002" "Navy Blue Blazer" TOP FORMAL (Color.mk 0 32 96)
    (Binary64.lit 199.99) ALL_SEASON [WORK; FORMAL_EVENT; DATE]
    (Some "Formal Wear") None.

Definition footwear_001 : Product.t :=
  Product.mk "footwear_001" "White Sneakers" FOOTWEAR CASUAL
    (Color.mk 255 255 255) (Binary64.lit 99.99) ALL_SEASON
    [EVERYDAY; SPORTS; TRAVEL] (Some "Sport Co") None.

Definition catalog : list Product.t := [top_002; footwear_001].

(** The maximum budget 266.65. *)
Definition budget : Q := Binary64.lit 266.65.

(** An outfit whose total price is the binary64 number below 7. *)
Definition outfit_below_7 : Outfit.t :=
  Outfit.mk Example.red_top Example.cyan_bottom Example.cyan_shoes [] 0 ""
            (Binary64.lit 6.999999999999999).
End FloatSample.
(** * Properties *)

(** ** Comparisons and division *)

Lemma Qltb_lt x y : Qltb x y = true <-> x < y.
Proof.
  unfold Qltb. rewrite negb_true_iff. split.
  - intros H. apply Qnot_le_lt. intros Hle.
    apply Qle_bool_iff in Hle. congruence.
  - intros H. destruct (Qle_bool y x) eqn:E; auto.
    apply Qle_bool_iff in E. lra.
Qed.

Lemma Qltb_ge x y : Qltb x y = false <-> y <= x.
Proof. unfold Qltb. rewrite negb_false_iff. apply Qle_bool_iff. Qed.

Lemma Qle_bool_gt x y : Qle_bool x y = false <-> y < x.
Proof.
  split.
  - intros H. apply Qnot_le_lt. intros Hle.
    apply Qle_bool_iff in Hle. congruence.
  - intros H. destruct (Qle_bool x y) eqn:E; auto.
    apply Qle_bool_iff in E. lra.
Qed.

Lemma truediv_ok x y : ~ y == 0 -> truediv x y = Ok (x / y).
Proof.
  intros H. unfold truediv. destruct (Qeq_bool y 0) eqn:E; auto.
  apply Qeq_bool_iff in E. contradiction.
Qed.

Lemma budget_given_pos b : 0 < b -> budget_given (Some b) = Some b.
Proof.
  intros H. unfold budget_given. destruct (Qeq_bool b 0) eqn:E; auto.
  apply Qeq_bool_iff in E. lra.
Qed.

Lemma budget_given_nonzero b : ~ b == 0 -> budget_given (Some b) = Some b.
Proof.
  intros H. unfold budget_given. destruct (Qeq_bool b 0) eqn:E; auto.
  apply Qeq_bool_iff in E. contradiction.
Qed.

(** ** Colours *)

Lemma to_hsv_total c : exists t, Color.to_hsv c = Ok t.
Proof.
  unfold Color.to_hsv.
  set (r := inject_Z (Color.r c) / 255).
  set (g := inject_Z (Color.g c) / 255).
  set (b := inject_Z (Color.b c) / 255).
  set (max_val := Qmax (Qmax r g) b).
  set (delta := max_val - Qmin (Qmin r g) b).
  assert (Hs : exists s,
    (if Qeq_bool max_val 0 then Ok 0 else truediv delta max_val) = Ok s).
  { destruct (Qeq_bool max_val 0) eqn:E; [eauto|].
    apply Qeq_bool_neq in E. rewrite (truediv_ok _ _ E). eauto. }
  destruct Hs as [s ->].
  destruct (Qeq_bool delta 0) eqn:Ed; [cbn; eauto|].
  apply Qeq_bool_neq in Ed.
  rewrite !(truediv_ok _ _ Ed).
  destruct (Qeq_bool max_val r); [cbn; eauto|].
  destruct (Qeq_bool max_val g); cbn; eauto.
Qed.

Lemma to_hsv_hsv c :
  Color.to_hsv c = Ok (hue c, saturation c, snd (hsv c)).
Proof.
  unfold hue, saturation, hsv.
  destruct (to_hsv_total c) as [[[h s] v] ->]. reflexivity.
Qed.

Lemma pymod_range x : 0 <= pymod x 6 < 6.
Proof.
  unfold pymod.
  pose proof (Qfloor_le (x / 6)) as Hlo.
  pose proof (Qlt_floor (x / 6)) as Hhi.
  rewrite inject_Z_plus in Hhi.
  assert (E : x == 6 * (x / 6)) by (field; discriminate).
  set (f := inject_Z (Qfloor (x / 6))) in *.
  change (inject_Z 1) with 1 in Hhi.
  set (y := x / 6) in *. lra.
Qed.

Lemma quotient_range x y d :
  0 < d -> x - y <= d -> y - x <= d -> -1 <= (x - y) / d <= 1.
Proof.
  intros Hd H1 H2. split.
  - apply Qle_shift_div_l; [exact Hd|]. lra.
  - apply Qle_shift_div_r; [exact Hd|]. lra.
Qed.

(** The hue is an angle in [0, 360). *)
Lemma hue_range c : 0 <= hue c < 360.
Proof.
  unfold hue, hsv, Color.to_hsv.
  set (r := inject_Z (Color.r c) / 255).
  set (g := inject_Z (Color.g c) / 255).
  set (b := inject_Z (Color.b c) / 255).
  set (max_val := Qmax (Qmax r g) b).
  set (min_val := Qmin (Qmin r g) b).
  set (delta := max_val - min_val).
  assert (Hmax : r <= max_val /\ g <= max_val /\ b <= max_val).
  { unfold max_val. pose proof (Q.le_max_l (Qmax r g) b).
    pose proof (Q.le_max_r (Qmax r g) b).
    pose proof (Q.le_max_l r g). pose proof (Q.le_max_r r g). lra. }
  assert (Hmin : min_val <= r /\ min_val <= g /\ min_val <= b).
  { unfold min_val. pose proof (Q.le_min_l (Qmin r g) b).
    pose proof (Q.le_min_r (Qmin r g) b).
    pose proof (Q.le_min_l r g). pose proof (Q.le_min_r r g). lra. }
  assert (Hs : exists s,
    (if Qeq_bool max_val 0 then Ok 0 else truediv delta max_val) = Ok s).
  { destruct (Qeq_bool max_val 0) eqn:E; [eauto|].
    apply Qeq_bool_neq in E. rewrite (truediv_ok _ _ E). eauto. }
  destruct Hs as [s ->].
  destruct (Qeq_bool delta 0) eqn:Ed; [cbn; lra|].
  apply Qeq_bool_neq in Ed.
  assert (Hd : 0 < delta) by (unfold delta in *; lra).
  rewrite !(truediv_ok _ _ Ed).
  destruct (Qeq_bool max_val r); [|destruct (Qeq_bool max_val g)];
    cbn [exc_bind fst snd].
  - pose proof (pymod_range ((g - b) / delta)). lra.
  - assert (Hq : -1 <= (b - r) / delta <= 1)
      by (apply quotient_range; unfold delta in *; lra).
    lra.
  - assert (Hq : -1 <= (r - g) / delta <= 1)
      by (apply quotient_range; unfold delta in *; lra).
    lra.
Qed.

(** The hue distance of two colours is folded into [0, 180]. *)
Lemma hue_distance_range c1 c2 :
  0 <= OutfitScorer.hue_distance (hue c1) (hue c2) <= 180.
Proof.
  unfold OutfitScorer.hue_distance.
  pose proof (hue_range c1). pose proof (hue_range c2).
  pose proof (Qabs_nonneg (hue c1 - hue c2)) as Hn.
  assert (Hlt : Qabs (hue c1 - hue c2) < 360).
  { apply Qabs_case; intros; lra. }
  destruct (Qltb 180 (Qabs (hue c1 - hue c2))) eqn:E;
    [apply Qltb_lt in E|apply Qltb_ge in E]; lra.
Qed.

(** Case analysis on the comparisons of a goal. *)
Ltac case_cmp1 :=
  match goal with
  | |- context [Qltb ?a ?b] =>
      let E := fresh "E" in
      destruct (Qltb a b) eqn:E;
      [apply Qltb_lt in E | apply Qltb_ge in E]
  | |- context [Qle_bool ?a ?b] =>
      let E := fresh "E" in
      destruct (Qle_bool a b) eqn:E;
      [apply Qle_bool_iff in E | apply Qle_bool_gt in E]
  | |- context [Qeq_bool ?a ?b] =>
      let E := fresh "E" in
      destruct (Qeq_bool a b) eqn:E;
      [apply Qeq_bool_iff in E | apply Qeq_bool_neq in E]
  end.

Ltac case_cmp := repeat case_cmp1.

Lemma harmony_band_fst d n :
  fst (OutfitScorer.harmony_band d n) = band_score d.
Proof.
  unfold band_score, OutfitScorer.harmony_band.
  repeat match goal with |- context [if ?c then _ else _] => destruct c end;
    reflexivity.
Qed.

(** The band table of the code: every band is an open interval, and the
    end points 30, 60, 115, 125, 150 and 180 score 0.50. *)
Lemma band_score_table d :
  (d < 15 -> band_score d = 0.95) /\
  (15 <= d -> d < 30 -> band_score d = 0.85) /\
  (115 < d -> d < 125 -> band_score d = 0.75) /\
  (150 < d -> d < 180 -> band_score d = 0.80) /\
  (30 < d -> d < 60 -> band_score d = 0.70) /\
  (d == 30 \/ (60 <= d /\ d <= 115) \/ (125 <= d /\ d <= 150) \/ 180 <= d ->
   band_score d = 0.50).
Proof.
  unfold band_score, OutfitScorer.harmony_band.
  repeat (case_cmp1; try (exfalso; lra));
    cbn; repeat split; intros; try reflexivity; exfalso; lra.
Qed.

Lemma band_score_range d : 0.5 <= band_score d <= 0.95.
Proof.
  unfold band_score, OutfitScorer.harmony_band.
  case_cmp; cbn; lra.
Qed.

(** Away from the six end points the code's table is the specification's. *)
Lemma band_score_spec_band d :
  ~ d == 30 -> ~ d == 60 -> ~ d == 115 -> ~ d == 125 -> ~ d == 150 ->
  ~ d == 180 ->
  band_score d = spec_band d.
Proof.
  intros.
  unfold band_score, spec_band, OutfitScorer.harmony_band.
  repeat (case_cmp1; try (exfalso; lra)); reflexivity.
Qed.

Lemma item_score_range base_hue item :
  0.5 <= item_score base_hue item <= 0.95.
Proof. unfold item_score. apply band_score_range. Qed.

Lemma harmony_loop_spec base_hue rest acc reasons :
  exists reasons',
    OutfitScorer.harmony_loop base_hue rest acc reasons
    = Ok (fold_left Qplus (map (item_score base_hue) rest) acc, reasons').
Proof.
  revert acc reasons. induction rest as [|item rest IH]; intros acc reasons.
  - cbn. eauto.
  - cbn [OutfitScorer.harmony_loop map fold_left].
    rewrite to_hsv_hsv. cbn [exc_bind].
    destruct (OutfitScorer.harmony_band _ _) as [sc reason] eqn:E.
    assert (Hsc : sc = item_score base_hue item).
    { unfold item_score. rewrite <- (harmony_band_fst _ (Product.name item)).
      rewrite E. reflexivity. }
    subst sc. apply IH.
Qed.

Lemma neutral_loop_spec colors n :
  OutfitScorer.neutral_loop colors n
  = Ok (count_if (fun c => Qltb (saturation c) 0.2) colors + n)%nat.
Proof.
  revert n. induction colors as [|c colors IH]; intros n.
  - reflexivity.
  - cbn [OutfitScorer.neutral_loop]. rewrite to_hsv_hsv. cbn [exc_bind].
    rewrite IH. unfold count_if. cbn [List.filter].
    destruct (Qltb (saturation c) 0.2); cbn [length]; f_equal; lia.
Qed.

Lemma of_len_cons {A} (x : A) l : of_len (x :: l) == of_len l + 1.
Proof.
  unfold of_len. cbn [length]. rewrite Nat2Z.inj_succ.
  unfold Z.succ. rewrite inject_Z_plus. reflexivity.
Qed.

Lemma of_len_nonneg {A} (l : list A) : 0 <= of_len l.
Proof.
  unfold of_len. replace 0 with (inject_Z 0) by reflexivity.
  rewrite <- Zle_Qle. lia.
Qed.

Lemma fold_scores_range base_hue rest acc :
  acc + 0.5 * of_len rest
  <= fold_left Qplus (map (item_score base_hue) rest) acc
  <= acc + 0.95 * of_len rest.
Proof.
  revert acc. induction rest as [|item rest IH]; intros acc.
  - change (@of_len Product.t []) with 0. cbn [map fold_left]. lra.
  - cbn [map fold_left]. specialize (IH (acc + item_score base_hue item)).
    pose proof (item_score_range base_hue item) as Hb.
    rewrite of_len_cons. lra.
Qed.

Lemma of_len_pos {A} (x : A) l : 0 < of_len (x :: l).
Proof. rewrite of_len_cons. pose proof (of_len_nonneg l). lra. Qed.

Lemma Qmin_nonneg x y : 0 <= x -> 0 <= y -> 0 <= Qmin x y.
Proof. intros. apply Q.min_glb; assumption. Qed.

(** [_score_color_harmony] never raises; its score is the average of the
    item scores plus the neutrality bonus, clamped to 1. *)
Lemma score_color_harmony_formula o :
  let others :=
    Outfit.bottom o :: Outfit.footwear o :: Outfit.accessories o in
  let base_hue := hue (Product.color (Outfit.top o)) in
  exists score reason,
    OutfitScorer._score_color_harmony o = Ok (score, reason) /\
    score == Qmin 1 (Qsum (map (item_score base_hue) others) / of_len others
                     + Qmin 0.1 (0.03 * inject_Z (Z.of_nat (neutral_count o)))).
Proof.
  intros others base_hue.
  unfold OutfitScorer._score_color_harmony, neutral_count, Outfit.items.
  cbn [app map tl].
  rewrite to_hsv_hsv. cbn [exc_bind]. fold base_hue. fold others.
  destruct (harmony_loop_spec base_hue others 0 []) as [reasons ->].
  cbn [exc_bind].
  match goal with
  | |- context [(1 <? ?n)%nat] =>
      replace (1 <? n)%nat with true
        by (symmetry; apply Nat.ltb_lt; cbn [length]; lia)
  end.
  change (Product.color (Outfit.bottom o)
          :: Product.color (Outfit.footwear o)
          :: map Product.color (Outfit.accessories o))
    with (map Product.color others).
  assert (Hlen : of_len (map Product.color others) = of_len others)
    by (unfold of_len; rewrite length_map; reflexivity).
  rewrite Hlen.
  assert (Hpos : 0 < of_len others) by apply of_len_pos.
  rewrite truediv_ok by lra. cbn [exc_bind].
  rewrite neutral_loop_spec. cbn [exc_bind]. rewrite Nat.add_0_r.
  set (n := count_if _ _).
  destruct (0 <? n)%nat eqn:En.
  - eexists _, _. split; [reflexivity|].
    unfold Qsum. apply Q.min_compat; [reflexivity|].
    apply Qplus_comp; [reflexivity|].
    apply Q.min_compat; [reflexivity|]. ring.
  - apply Nat.ltb_ge in En. assert (n = 0%nat) as -> by lia.
    eexists _, _. split; [reflexivity|].
    unfold Qsum. apply Q.min_compat; [reflexivity|].
    apply Qplus_comp; [reflexivity|]. reflexivity.
Qed.

Lemma score_color_harmony_range o :
  exists score reason,
    OutfitScorer._score_color_harmony o = Ok (score, reason) /\
    0 <= score <= 1.
Proof.
  destruct (score_color_harmony_formula o) as (score & reason & Hrun & Hsc).
  exists score, reason. split; [exact Hrun|].
  cbv zeta in Hsc. rewrite Hsc.
  set (others := Outfit.bottom o :: Outfit.footwear o :: Outfit.accessories o).
  set (base_hue := hue (Product.color (Outfit.top o))).
  split; [|apply Q.le_min_l].
  apply Qmin_nonneg; [lra|].
  pose proof (fold_scores_range base_hue others 0) as [Hlo _].
  fold (Qsum (map (item_score base_hue) others)) in Hlo.
  assert (Hpos : 0 < of_len others) by apply of_len_pos.
  assert (0 <= Qsum (map (item_score base_hue) others) / of_len others).
  { apply Qle_shift_div_l; [exact Hpos|]. lra. }
  assert (0 <= Qmin 0.1 (0.03 * inject_Z (Z.of_nat (neutral_count o)))).
  { apply Qmin_nonneg; [lra|].
    assert (0 <= inject_Z (Z.of_nat (neutral_count o))).
    { replace 0 with (inject_Z 0) by reflexivity. rewrite <- Zle_Qle. lia. }
    lra. }
  lra.
Qed.

(** ** The other sub-scores *)

Lemma inject_nat_pos n : (0 < n)%nat -> 0 < inject_Z (Z.of_nat n).
Proof.
  intros H. replace 0 with (inject_Z 0) by reflexivity.
  rewrite <- Zlt_Qlt. lia.
Qed.

Lemma score_style_range o :
  exists score reason,
    OutfitScorer._score_style_compatibility o = Ok (score, reason) /\
    0 <= score <= 1.
Proof.
  unfold OutfitScorer._score_style_compatibility, Outfit.items.
  cbn [app map length Nat.sub Nat.eqb].
  rewrite truediv_ok
    by (match goal with
        | |- ~ inject_Z (Z.of_nat ?n) == 0 =>
            pose proof (inject_nat_pos n ltac:(lia)); lra
        end).
  cbn [exc_bind].
  case_cmp; eexists _, _; (split; [reflexivity|]); lra.
Qed.

Lemma ratio_score_range (matching total : nat) (r1 r2 r3 r4 : string) :
  (0 < total)%nat ->
  exists score reason,
    (let* match_ratio :=
       truediv (inject_Z (Z.of_nat matching)) (inject_Z (Z.of_nat total)) in
     if Qle_bool 0.8 match_ratio then Ok (1.0, r1)
     else if Qle_bool 0.6 match_ratio then Ok (0.8, r2)
     else if Qle_bool 0.4 match_ratio then Ok (0.6, r3)
     else Ok (0.4, r4)) = Ok (score, reason) /\
    0 <= score <= 1.
Proof.
  intros Hpos. pose proof (inject_nat_pos total Hpos).
  rewrite truediv_ok by lra. cbn [exc_bind].
  case_cmp; eexists _, _; (split; [reflexivity|]); lra.
Qed.

Lemma score_occasion_range self o :
  exists score reason,
    OutfitScorer._score_occasion_fit self o = Ok (score, reason) /\
    0 <= score <= 1.
Proof.
  unfold OutfitScorer._score_occasion_fit.
  destruct (OutfitScorer.target_occasion self) as [occ|].
  - apply ratio_score_range. unfold Outfit.items. cbn [app length]. lia.
  - eexists _, _. split; [reflexivity|]. lra.
Qed.

Lemma score_season_range self o :
  exists score reason,
    OutfitScorer._score_season_fit self o = Ok (score, reason) /\
    0 <= score <= 1.
Proof.
  unfold OutfitScorer._score_season_fit.
  destruct (OutfitScorer.target_season self) as [ssn|].
  - apply ratio_score_range. unfold Outfit.items. cbn [app length]. lia.
  - eexists _, _. split; [reflexivity|]. lra.
Qed.

Lemma score_budget_range fmt2 self o :
  (forall b, OutfitScorer.max_budget self = Some b -> 0 < b) ->
  exists score reason,
    OutfitScorer._score_budget fmt2 self o = Ok (score, reason) /\
    0 <= score <= 1.
Proof.
  intros Hb. unfold OutfitScorer._score_budget.
  destruct (OutfitScorer.max_budget self) as [b|];
    [|eexists _, _; split; [reflexivity|lra]].
  specialize (Hb b eq_refl). rewrite (budget_given_pos _ Hb).
  rewrite !truediv_ok by lra.
  destruct (Qle_bool (Outfit.total_price o) b) eqn:Hle; cbn [exc_bind].
  - case_cmp; eexists _, _; (split; [reflexivity|]); lra.
  - apply Qle_bool_gt in Hle.
    eexists _, _. split; [reflexivity|].
    set (q := (Outfit.total_price o - b) / b).
    assert (Hq : 0 <= q).
    { apply Qle_shift_div_l; [exact Hb|]. lra. }
    split.
    + apply Q.max_le_iff. left. lra.
    + apply Q.max_lub; [lra|].
      assert (0 <= Qmin 0.5 q) by (apply Qmin_nonneg; lra). lra.
Qed.

(** ** The total score *)

(** C4. For every outfit and every scorer whose maximum budget, when
    present, is positive, [score_outfit] returns; its total score is the
    weighted sum 0.30*color + 0.25*style + 0.20*occasion + 0.15*season +
    0.10*budget of the five sub-scores, the weights sum to 1, and the
    total lies in [0, 1]. *)
Theorem C4_score_outfit (fmt2 : Q -> string) (self : OutfitScorer.t)
    (outfit : Outfit.t) :
  (forall b, OutfitScorer.max_budget self = Some b -> 0 < b) ->
  exists color style occasion season budget r1 r2 r3 r4 r5 total reasoning,
    OutfitScorer._score_color_harmony outfit = Ok (color, r1) /\
    OutfitScorer._score_style_compatibility outfit = Ok (style, r2) /\
    OutfitScorer._score_occasion_fit self outfit = Ok (occasion, r3) /\
    OutfitScorer._score_season_fit self outfit = Ok (season, r4) /\
    OutfitScorer._score_budget fmt2 self outfit = Ok (budget, r5) /\
    OutfitScorer.score_outfit fmt2 self outfit = Ok (total, reasoning) /\
    total == 0.30 * color + 0.25 * style + 0.20 * occasion + 0.15 * season
             + 0.10 * budget /\
    OutfitScorer.COLOR_WEIGHT + OutfitScorer.STYLE_WEIGHT
    + OutfitScorer.OCCASION_WEIGHT + OutfitScorer.SEASON_WEIGHT
    + OutfitScorer.BUDGET_WEIGHT == 1 /\
    0 <= total <= 1.
Proof.
  intros Hb.
  destruct (score_color_harmony_range outfit) as (c & r1 & Hc & Hcr).
  destruct (score_style_range outfit) as (s & r2 & Hs & Hsr).
  destruct (score_occasion_range self outfit) as (oc & r3 & Ho & Hor).
  destruct (score_season_range self outfit) as (se & r4 & Hse & Hser).
  destruct (score_budget_range fmt2 self outfit Hb) as (b & r5 & Hbu & Hbr).
  exists c, s, oc, se, b, r1, r2, r3, r4, r5.
  unfold OutfitScorer.score_outfit.
  rewrite Hc, Hs, Ho, Hse, Hbu. cbn [exc_bind].
  eexists _, _. repeat split; try reflexivity;
    unfold OutfitScorer.COLOR_WEIGHT, OutfitScorer.STYLE_WEIGHT,
      OutfitScorer.OCCASION_WEIGHT, OutfitScorer.SEASON_WEIGHT,
      OutfitScorer.BUDGET_WEIGHT; lra.
Qed.

(** ** The colour sub-score at the end points of the bands *)

(** C8. At a hue distance of exactly 180 between the top (pure red, hue 0)
    and the other items (pure cyan, hue 180) the code scores each item 0.50,
    so the colour sub-score is 0.50, where the band 150-180 of the
    specification gives 0.80.  The same happens at distance 60: with the
    white T-shirt (hue 0) and the beige cargo pants (hue 60) of the
    catalog the pants score 0.50 against 0.70 for the band 30-60, and the
    colour sub-score of the outfit is 0.815. *)
Theorem C8_color_band_end_points :
  hue (Product.color Example.red_top) == 0 /\
  hue (Product.color Example.cyan_bottom) == 180 /\
  OutfitScorer.hue_distance (hue (Product.color Example.cyan_bottom))
                            (hue (Product.color Example.red_top)) == 180 /\
  item_score (hue (Product.color Example.red_top)) Example.cyan_bottom
  = 0.50 /\
  spec_band 180 = 0.80 /\
  (exists score reason,
     OutfitScorer._score_color_harmony Example.complementary_outfit
     = Ok (score, reason) /\ score == 0.50) /\
  OutfitScorer.hue_distance (hue (Product.color Example.bottom_008))
                            (hue (Product.color Example.top_001)) == 60 /\
  item_score (hue (Product.color Example.top_001)) Example.bottom_008
  = 0.50 /\
  spec_band 60 = 0.70 /\
  (exists score reason,
     OutfitScorer._score_color_harmony Example.beige_outfit
     = Ok (score, reason) /\ score == 0.815).
Proof.
  assert (Hrun : forall o q,
            (match OutfitScorer._score_color_harmony o with
             | Ok (score, _) => Qeq_bool score q
             | Raise _ => false
             end = true) ->
            exists score reason,
              OutfitScorer._score_color_harmony o = Ok (score, reason)
              /\ score == q).
  { intros o q H.
    destruct (OutfitScorer._score_color_harmony o) as [[score reason]|];
      [|discriminate].
    exists score, reason. split; [reflexivity|].
    apply Qeq_bool_iff. exact H. }
  split_and!; try (vm_compute; reflexivity);
    apply Hrun; vm_compute; reflexivity.
Qed.

(** ** The indexes of the recommender *)

Lemma index_products_from products bc bi c :
  fst (fold_left OutfitRecommender.index_step products (bc, bi)) c
  = (bc c
     ++ List.filter (fun p => bool_decide (Product.category p = c)) products
    )%list.
Proof.
  revert bc bi. induction products as [|p products IH]; intros bc bi.
  - cbn. rewrite app_nil_r. reflexivity.
  - cbn [fold_left List.filter OutfitRecommender.index_step]. rewrite IH.
    destruct (decide (c = Product.category p)) as [->|Hne].
    + rewrite !bool_decide_eq_true_2 by reflexivity.
      rewrite <- app_assoc. reflexivity.
    + rewrite !bool_decide_eq_false_2 by congruence. reflexivity.
Qed.

Lemma index_by_category products c :
  fst (OutfitRecommender._index_products products) c
  = List.filter (fun p => bool_decide (Product.category p = c)) products.
Proof. apply index_products_from. Qed.

Lemma init_fields products self :
  OutfitRecommender.init products = Ok self ->
  OutfitRecommender.products self = products /\
  OutfitRecommender.by_category self
  = fst (OutfitRecommender._index_products products) /\
  OutfitRecommender.by_id self
  = snd (OutfitRecommender._index_products products) /\
  OutfitRecommender._precompute_compatibility products
  = Ok (OutfitRecommender.compatibility_cache self).
Proof.
  unfold OutfitRecommender.init.
  destruct (OutfitRecommender._index_products products) as [bc bi].
  destruct (OutfitRecommender._precompute_compatibility products) as [cache|e];
    cbn [exc_bind]; [|discriminate].
  intros [= <-]. cbn. auto.
Qed.

Lemma by_category_init products self c :
  OutfitRecommender.init products = Ok self ->
  OutfitRecommender.by_category self c
  = List.filter (fun p => bool_decide (Product.category p = c)) products.
Proof.
  intros H. apply init_fields in H as (_ & -> & _). apply index_by_category.
Qed.

(** ** The candidate filter *)

Lemma filter_filter {A} (f g : A -> bool) l :
  List.filter f (List.filter g l) = List.filter (fun x => g x && f x) l.
Proof.
  induction l as [|x l IH]; [reflexivity|]. cbn [List.filter].
  destruct (g x); cbn [List.filter andb]; [|exact IH].
  destruct (f x); rewrite IH; reflexivity.
Qed.

Lemma filter_true {A} (l : list A) : List.filter (fun _ => true) l = l.
Proof. induction l as [|x l IH]; [reflexivity|]. cbn. rewrite IH. reflexivity. Qed.

Lemma filter_candidates_category self base occ ssn mb sp c :
  OutfitRecommender._filter_candidates self base occ ssn mb sp c
  = OutfitRecommender.filter_category self base occ ssn mb sp c.
Proof.
  unfold OutfitRecommender._filter_candidates. cbn [fold_left].
  destruct c; reflexivity.
Qed.


Lemma occasion_in_In o l : occasion_in o l = true <-> In o l.
Proof.
  unfold occasion_in. rewrite existsb_exists. split.
  - intros (o' & Hin & Heq). apply bool_decide_eq_true in Heq. subst. exact Hin.
  - intros Hin. exists o. split; [exact Hin|].
    apply bool_decide_eq_true. reflexivity.
Qed.

Lemma season_matches_spec target s :
  season_matches target s = true <-> s = target \/ s = ALL_SEASON.
Proof.
  unfold season_matches. rewrite orb_true_iff, !bool_decide_eq_true.
  reflexivity.
Qed.


(** ** The compatibility index *)

Lemma sorted_pair_comm a b :
  OutfitRecommender.sorted_pair a b = OutfitRecommender.sorted_pair b a.
Proof.
  unfold OutfitRecommender.sorted_pair, String.ltb.
  rewrite (String.compare_antisym a b).
  destruct (String.compare b a) eqn:E; cbn [CompOpp]; try reflexivity.
  apply String.compare_eq_iff in E. subst. reflexivity.
Qed.

Lemma sorted_pair_cases a b :
  OutfitRecommender.sorted_pair a b = (a, b)
  \/ OutfitRecommender.sorted_pair a b = (b, a).
Proof.
  unfold OutfitRecommender.sorted_pair. destruct (String.ltb b a); auto.
Qed.

Lemma calculate_color_compatibility_ok c1 c2 :
  exists q,
    OutfitRecommender._calculate_color_compatibility c1 c2 = Ok q /\
    0 <= q <= 1.
Proof.
  unfold OutfitRecommender._calculate_color_compatibility.
  rewrite !to_hsv_hsv. cbn [exc_bind].
  repeat match goal with
         | |- context [if ?c then _ else _] => destruct c
         end; eexists; (split; [reflexivity|]); lra.
Qed.

Lemma precompute_row_spec p1 rest cache :
  exists cache',
    OutfitRecommender.precompute_row p1 rest cache = Ok cache' /\
    forall k v, cache' !! k = Some v ->
      cache !! k = Some v \/ indexed (p1 :: rest) k v.
Proof.
  revert cache. induction rest as [|p2 rest IH]; intros cache.
  - exists cache. split; [reflexivity|]. auto.
  - cbn [OutfitRecommender.precompute_row].
    destruct (calculate_color_compatibility_ok (Product.color p1)
                (Product.color p2)) as (q & -> & Hq).
    cbn [exc_bind].
    destruct (IH (<[OutfitRecommender.sorted_pair (Product.id p1)
                      (Product.id p2) := q]> cache))
      as (cache' & -> & Hc).
    exists cache'. split; [reflexivity|].
    intros k v Hk. destruct (Hc k v Hk) as [Hold|(Hv & a & b & Ha & Hb & ->)].
    + apply lookup_insert_Some in Hold as [[<- <-]|[_ Hold]]; [|auto].
      right. split; [exact Hq|].
      exists p1, p2. cbn [In]. auto.
    + right. split; [exact Hv|]. exists a, b. cbn [In] in *. tauto.
Qed.

Lemma precompute_rows_spec products cache :
  exists cache',
    OutfitRecommender.precompute_rows products cache = Ok cache' /\
    forall k v, cache' !! k = Some v ->
      cache !! k = Some v \/ indexed products k v.
Proof.
  revert cache. induction products as [|p1 rest IH]; intros cache.
  - exists cache. split; [reflexivity|]. auto.
  - cbn [OutfitRecommender.precompute_rows].
    destruct (precompute_row_spec p1 rest cache) as (c1 & -> & H1).
    cbn [exc_bind].
    destruct (IH c1) as (c2 & -> & H2).
    exists c2. split; [reflexivity|].
    intros k v Hk. destruct (H2 k v Hk) as [Hold|(Hv & a & b & Ha & Hb & ->)].
    + destruct (H1 k v Hold) as [?|?]; auto.
    + right. split; [exact Hv|]. exists a, b. cbn [In]. auto.
Qed.

(** The constructor never raises. *)
Lemma init_total products :
  exists self, OutfitRecommender.init products = Ok self.
Proof.
  unfold OutfitRecommender.init, OutfitRecommender._precompute_compatibility.
  destruct (OutfitRecommender._index_products products) as [bc bi].
  destruct (precompute_rows_spec products ∅) as (cache & -> & _).
  cbn [exc_bind]. eauto.
Qed.

Lemma cache_indexed products self k v :
  OutfitRecommender.init products = Ok self ->
  OutfitRecommender.compatibility_cache self !! k = Some v ->
  indexed products k v.
Proof.
  intros Hinit Hk. apply init_fields in Hinit as (_ & _ & _ & Hpre).
  unfold OutfitRecommender._precompute_compatibility in Hpre.
  destruct (precompute_rows_spec products ∅) as (cache & Hrun & Hc).
  rewrite Hrun in Hpre. injection Hpre as ->.
  destruct (Hc k v Hk) as [Hempty|H]; [|exact H].
  rewrite lookup_empty in Hempty. discriminate.
Qed.

(** C3. For the index built from a catalog, the compatibility of two
    products does not depend on their order, lies in [0, 1], and is the
    neutral 0.5 for every pair that was never indexed, in particular when
    one of the identifiers is not in the catalog. *)
Theorem C3_compatibility products self (p q : Product.t) :
  OutfitRecommender.init products = Ok self ->
  OutfitRecommender._get_compatibility self p q
  = OutfitRecommender._get_compatibility self q p /\
  0 <= OutfitRecommender._get_compatibility self p q <= 1 /\
  (OutfitRecommender.compatibility_cache self
     !! OutfitRecommender.sorted_pair (Product.id p) (Product.id q) = None ->
   OutfitRecommender._get_compatibility self p q = 0.5) /\
  (~ In (Product.id p) (ids products) \/ ~ In (Product.id q) (ids products) ->
   OutfitRecommender._get_compatibility self p q = 0.5).
Proof.
  intros Hinit. unfold OutfitRecommender._get_compatibility.
  split; [rewrite (sorted_pair_comm (Product.id p)); reflexivity|].
  destruct (OutfitRecommender.compatibility_cache self
              !! OutfitRecommender.sorted_pair (Product.id p) (Product.id q))
    as [v|] eqn:Hk; cbn [default].
  - destruct (cache_indexed _ _ _ _ Hinit Hk) as (Hv & a & b & Ha & Hb & Hkey).
    split; [exact Hv|]. split; [discriminate|].
    intros Hnot. exfalso.
    assert (Hids : In (Product.id p) (ids products)
                   /\ In (Product.id q) (ids products)).
    { unfold ids.
      pose proof (in_map Product.id _ _ Ha) as Ha'.
      pose proof (in_map Product.id _ _ Hb) as Hb'.
      destruct (sorted_pair_cases (Product.id p) (Product.id q)) as [E|E];
        destruct (sorted_pair_cases (Product.id a) (Product.id b)) as [E'|E'];
        rewrite E, E' in Hkey; injection Hkey as -> ->; auto. }
    tauto.
  - split; [lra|]. split; reflexivity.
Qed.

(** ** Sorting and slicing *)

Section Sorting.
Context {A : Type} (key : A -> Q).

Lemma insert_desc_perm x l : Permutation (insert_desc key x l) (x :: l).
Proof.
  induction l as [|y l IH]; [reflexivity|]. cbn [insert_desc].
  destruct (Qltb (key x) (key y)); [|reflexivity].
  rewrite IH. apply perm_swap.
Qed.

Lemma sort_desc_perm l : Permutation (sort_desc key l) l.
Proof.
  induction l as [|x l IH]; [reflexivity|]. cbn [sort_desc fold_right].
  fold (sort_desc key l). rewrite insert_desc_perm, IH. reflexivity.
Qed.

Lemma insert_desc_sorted x l :
  StronglySorted (descending key) l ->
  StronglySorted (descending key) (insert_desc key x l).
Proof.
  induction 1 as [|y l Hs IH Hy]; cbn [insert_desc].
  - repeat constructor.
  - destruct (Qltb (key x) (key y)) eqn:E.
    + apply Qltb_lt in E. constructor; [exact IH|].
      rewrite (List.Forall_forall (descending key y)).
      intros z Hz.
      apply (Permutation_in _ (insert_desc_perm x l)) in Hz.
      destruct Hz as [<-|Hz]; [unfold descending; lra|].
      rewrite List.Forall_forall in Hy. auto.
    + apply Qltb_ge in E. constructor; [constructor; assumption|].
      constructor; [exact E|].
      rewrite List.Forall_forall in Hy |- *. intros z Hz.
      specialize (Hy z Hz). unfold descending in *. lra.
Qed.

Lemma sort_desc_sorted l : StronglySorted (descending key) (sort_desc key l).
Proof.
  induction l as [|x l IH]; [constructor|]. cbn [sort_desc fold_right].
  apply insert_desc_sorted. exact IH.
Qed.

Lemma insert_desc_stable q x l :
  List.filter (fun y => Qeq_bool (key y) q) (insert_desc key x l)
  = List.filter (fun y => Qeq_bool (key y) q) (x :: l).
Proof.
  induction l as [|y l IH]; [reflexivity|]. cbn [insert_desc].
  destruct (Qltb (key x) (key y)) eqn:E; [|reflexivity].
  apply Qltb_lt in E. cbn [List.filter] in *. rewrite IH.
  destruct (Qeq_bool (key x) q) eqn:Ex; [|reflexivity].
  destruct (Qeq_bool (key y) q) eqn:Ey; [|reflexivity].
  apply Qeq_bool_iff in Ex, Ey. lra.
Qed.

(** Items with equal keys keep their original order. *)
Lemma sort_desc_stable q l :
  List.filter (fun y => Qeq_bool (key y) q) (sort_desc key l)
  = List.filter (fun y => Qeq_bool (key y) q) l.
Proof.
  induction l as [|x l IH]; [reflexivity|]. cbn [sort_desc fold_right].
  fold (sort_desc key l). rewrite insert_desc_stable.
  cbn [List.filter]. rewrite IH. reflexivity.
Qed.

Lemma sort_desc_length l : length (sort_desc key l) = length l.
Proof. apply Permutation_length, sort_desc_perm. Qed.

Lemma sort_desc_In x l : In x (sort_desc key l) <-> In x l.
Proof.
  split; apply Permutation_in;
    [apply sort_desc_perm|symmetry; apply sort_desc_perm].
Qed.
End Sorting.

Lemma firstn_In {A} (x : A) n l : In x (firstn n l) -> In x l.
Proof.
  revert l. induction n as [|n IH]; intros [|y l]; cbn; try tauto.
  intros [->|H]; auto.
Qed.

Lemma firstn_sorted {A} (R : A -> A -> Prop) n l :
  StronglySorted R l -> StronglySorted R (firstn n l).
Proof.
  revert l. induction n as [|n IH]; intros l Hs; [constructor|].
  destruct Hs as [|y l Hs Hy]; cbn [firstn]; constructor; [auto|].
  rewrite List.Forall_forall in Hy |- *. intros z Hz. apply Hy.
  eapply firstn_In. exact Hz.
Qed.

Lemma firstn_NoDup {A} n (l : list A) :
  List.NoDup l -> List.NoDup (firstn n l).
Proof.
  revert l. induction n as [|n IH]; intros l Hd; [constructor|].
  destruct Hd as [|y l Hy Hd]; cbn [firstn]; constructor; [|auto].
  intros Hin. apply Hy. eapply firstn_In. exact Hin.
Qed.

Lemma slice_to_firstn {A} (l : list A) n :
  exists k, slice_to l n = firstn k l /\
            ((0 <= n)%Z -> k = Z.to_nat n).
Proof.
  unfold slice_to. destruct (n <? 0)%Z eqn:E.
  - apply Z.ltb_lt in E. eexists. split; [reflexivity|]. lia.
  - eexists. split; [reflexivity|]. reflexivity.
Qed.

(** ** Selection of one item *)

Lemma choice_spec draw {A} (x : A) l s :
  exists y, OutfitRecommender.choice draw (x :: l) s = (Ok y, S s)
            /\ In y (x :: l).
Proof.
  unfold OutfitRecommender.choice. eexists. split; [reflexivity|].
  apply nth_In. apply Nat.mod_upper_bound. cbn [length]. lia.
Qed.

Lemma score_candidates_In self candidates base sc c :
  In (sc, c) (OutfitRecommender.score_candidates self candidates base) <->
  In c candidates /\ Product.id c <> Product.id base
  /\ sc = selection_score self base c.
Proof.
  unfold OutfitRecommender.score_candidates. rewrite in_flat_map. split.
  - intros (c' & Hin & Hc).
    destruct (String.eqb_spec (Product.id c') (Product.id base)) as [E|E];
      [destruct Hc|].
    destruct Hc as [[= <- <-]|[]]. auto.
  - intros (Hin & Hne & ->). exists c. split; [exact Hin|].
    destruct (String.eqb_spec (Product.id c) (Product.id base)) as [E|E];
      [contradiction|].
    left. reflexivity.
Qed.

Lemma score_candidates_nil self candidates base :
  OutfitRecommender.score_candidates self candidates base = [] <->
  forall c, In c candidates -> Product.id c = Product.id base.
Proof.
  split.
  - intros E c Hin.
    destruct (String.eqb_spec (Product.id c) (Product.id base)) as [|Hne];
      [assumption|].
    assert (H : In (selection_score self base c, c)
                   (OutfitRecommender.score_candidates self candidates base))
      by (apply score_candidates_In; auto).
    rewrite E in H. destruct H.
  - intros H.
    destruct (OutfitRecommender.score_candidates self candidates base)
      as [|[sc c] l] eqn:E; [reflexivity|].
    assert (Hin : In (sc, c)
                   (OutfitRecommender.score_candidates self candidates base))
      by (rewrite E; left; reflexivity).
    apply score_candidates_In in Hin as (Hin & Hne & _).
    specialize (H c Hin). contradiction.
Qed.

Lemma firstn_nil_iff {A} n (l : list A) :
  (0 < n)%nat -> firstn n l = [] -> l = [].
Proof. destruct n; [lia|]. destruct l; [reflexivity|discriminate]. Qed.

Lemma select_item_nonempty draw self candidates base s :
  let run := OutfitRecommender._select_item draw self candidates base s in
  let scored := OutfitRecommender.score_candidates self candidates base in
  let ranked := sort_desc fst scored in
  candidates <> [] ->
  exists p, run = (Ok p, S s) /\ In p candidates /\
    (scored <> [] ->
     In p (map snd (firstn (Nat.max 3 (length scored / 3)) ranked))
     /\ Product.id p <> Product.id base) /\
    (scored = [] -> Product.id p = Product.id base).
Proof.
  intros run scored ranked Hne.
  assert (Hperm : Permutation ranked scored) by apply sort_desc_perm.
  unfold run, OutfitRecommender._select_item.
  destruct candidates as [|c0 cs]; [contradiction|].
  fold scored. fold ranked.
  assert (Hlen : length ranked = length scored) by apply sort_desc_length.
  rewrite Hlen.
  destruct (firstn (Nat.max 3 (length scored / 3)) ranked)
    as [|t ts] eqn:Etop.
  - apply firstn_nil_iff in Etop; [|lia].
    assert (Hs : scored = []).
    { apply Permutation_nil. rewrite <- Etop. exact Hperm. }
    destruct (choice_spec draw c0 cs s) as (p & Hrun & Hin).
    exists p. split; [exact Hrun|]. split; [exact Hin|].
    split; [intros Hn; contradiction|].
    intros _. apply (score_candidates_nil self (c0 :: cs) base); assumption.
  - destruct (choice_spec draw t ts s) as ([sc p] & Hrun & Hin).
    unfold rand_bind. rewrite Hrun. cbn [rand_ret snd].
    exists p. split; [reflexivity|].
    assert (Hsc : In (sc, p) scored).
    { apply (Permutation_in _ Hperm).
      apply (firstn_In _ (Nat.max 3 (length scored / 3))).
      rewrite Etop. exact Hin. }
    apply score_candidates_In in Hsc as (Hc & Hid & _).
    split; [exact Hc|]. split.
    + intros _. split; [|exact Hid].
      apply (in_map snd) in Hin. exact Hin.
    + intros Hs. fold scored in Etop. exfalso.
      assert (Hr : ranked = [])
        by (apply Permutation_nil; rewrite <- Hs; symmetry; exact Hperm).
      rewrite Hr in Etop.
      destruct (Nat.max 3 (length scored / 3)); discriminate.
Qed.

(** C2 (amended). [_select_item] raises "No candidates available" exactly
    when the candidate list is empty.  For a non-empty list it returns an
    element of the list after one draw: when some candidate has an
    identifier other than the base product's, the returned item is one of
    the top max(3, count/3) of the candidates other than the base product,
    ranked by decreasing compatibility(base, candidate) plus 0.2 for a
    style equal to the base product's, and its identifier is not the base
    product's; when every candidate has the base product's identifier, it
    is drawn from the whole candidate list. *)
Theorem C2_select_item draw self candidates base s :
  let run := OutfitRecommender._select_item draw self candidates base s in
  let scored := OutfitRecommender.score_candidates self candidates base in
  let ranked := sort_desc fst scored in
  (raised (fst run) <-> candidates = []) /\
  (candidates = [] ->
   run = (Raise (ValueError "No candidates available"), s)) /\
  (forall sc c, In (sc, c) scored <->
     In c candidates /\ Product.id c <> Product.id base
     /\ sc = selection_score self base c) /\
  Permutation ranked scored /\
  StronglySorted (descending fst) ranked /\
  (candidates <> [] ->
   exists p, run = (Ok p, S s) /\ In p candidates /\
     (scored <> [] ->
      In p (map snd (firstn (Nat.max 3 (length scored / 3)) ranked))
      /\ Product.id p <> Product.id base) /\
     (scored = [] -> Product.id p = Product.id base)).
Proof.
  intros run scored ranked.
  pose proof (select_item_nonempty draw self candidates base s) as Hnonempty.
  cbv zeta in Hnonempty. fold scored ranked run in Hnonempty.
  split; [|split; [|split; [|split; [|split]]]].
  - split.
    + intros [e He]. destruct candidates as [|c0 cs]; [reflexivity|].
      destruct Hnonempty as (p & Hrun & _); [discriminate|].
      rewrite Hrun in He. discriminate.
    + intros ->. exists (ValueError "No candidates available"). reflexivity.
  - intros ->. reflexivity.
  - intros sc c. apply score_candidates_In.
  - apply sort_desc_perm.
  - apply sort_desc_sorted.
  - exact Hnonempty.
Qed.

(** ** Assembly of one outfit *)

Lemma color_eqb_refl c : Color.eqb c c = true.
Proof. unfold Color.eqb. rewrite !Z.eqb_refl. reflexivity. Qed.

Lemma product_eqb_refl p : Product.eqb p p = true.
Proof.
  unfold Product.eqb.
  rewrite !String.eqb_refl, color_eqb_refl, Qeq_bool_refl.
  rewrite !bool_decide_eq_true_2 by reflexivity. reflexivity.
Qed.

Lemma not_in_accessories acc accessories :
  existsb (Product.eqb acc) accessories = false -> ~ In acc accessories.
Proof.
  intros H Hin.
  assert (E : existsb (Product.eqb acc) accessories = true).
  { apply existsb_exists. exists acc. split; [exact Hin|].
    apply product_eqb_refl. }
  congruence.
Qed.

Lemma select_item_ok draw self candidates base s :
  candidates <> [] ->
  exists p,
    OutfitRecommender._select_item draw self candidates base s = (Ok p, S s)
    /\ In p candidates
    /\ ((exists c, In c candidates /\ Product.id c <> Product.id base) ->
        Product.id p <> Product.id base).
Proof.
  intros Hne.
  destruct (select_item_nonempty draw self candidates base s Hne)
    as (p & Hrun & Hin & Hsome & Hnone).
  exists p. split; [exact Hrun|]. split; [exact Hin|].
  intros (c & Hc & Hid). apply Hsome. intros E.
  rewrite score_candidates_nil in E. specialize (E c Hc). contradiction.
Qed.

Lemma accessory_loop_spec draw self candidates base n accessories s :
  exists accessories' ext s',
    OutfitRecommender.accessory_loop draw self candidates base n accessories s
    = (Ok accessories', s') /\
    accessories' = (accessories ++ ext)%list /\
    incl ext candidates /\
    (length ext <= n)%nat /\
    (List.NoDup accessories -> List.NoDup accessories') /\
    (candidates <> [] -> (0 < n)%nat -> accessories' <> []) /\
    ((exists c, In c candidates /\ Product.id c <> Product.id base) ->
     forall a, In a ext -> Product.id a <> Product.id base).
Proof.
  revert accessories s. induction n as [|n IH]; intros accessories s.
  - exists accessories, [], s. cbn [OutfitRecommender.accessory_loop].
    rewrite app_nil_r. split_and!; auto; try lia.
    intros x [].
  - cbn [OutfitRecommender.accessory_loop].
    destruct candidates as [|c0 cs] eqn:Ec.
    + destruct (IH accessories s)
        as (accs' & ext & s' & Hrun & Happ & Hincl & Hlen & Hnd & Hne & Hid).
      exists accs', ext, s'. split_and!; auto.
    + rewrite <- Ec in *.
      destruct (select_item_ok draw self candidates base s)
        as (p & Hrun & Hin & Hp); [rewrite Ec; discriminate|].
      unfold rand_bind at 1. rewrite Ec in Hrun |- *. rewrite Hrun.
      rewrite <- Ec in *.
      destruct (existsb (Product.eqb p) accessories) eqn:Edup; cbn [negb].
      * destruct (IH accessories (S s))
          as (accs' & ext & s' & Hrun' & Happ & Hincl & Hlen & Hnd & Hne & Hid).
        exists accs', ext, s'. split_and!; auto.
        intros _ _. subst accs'. intros E.
        apply app_eq_nil in E as [-> _]. discriminate.
      * destruct (IH (accessories ++ [p])%list (S s))
          as (accs' & ext & s' & Hrun' & Happ & Hincl & Hlen & Hnd & Hne & Hid).
        exists accs', (p :: ext), s'.
        rewrite <- app_assoc in Happ. cbn [app] in Happ.
        split_and!; auto.
        -- intros x [<-|Hx]; auto.
        -- cbn [length]. lia.
        -- intros Hd. apply Hnd. apply List.NoDup_app; auto.
           ++ repeat constructor. intros [].
           ++ intros x Hx [<-|[]].
              apply not_in_accessories in Edup. contradiction.
        -- intros _ _. subst accs'. intros E.
           apply app_eq_nil in E as [_ E]. discriminate.
        -- intros Hex a [<-|Ha]; auto.
Qed.

Lemma slot_run draw self base (candidates : Category -> list Product.t) c s :
  let run :=
    (if bool_decide (Product.category base = c) then rand_ret base
     else OutfitRecommender._select_item draw self (candidates c) base) s in
  (exists p s', run = (Ok p, s') /\ slot_ok base candidates c p) \/
  (exists e, run = (Raise e, s) /\ Product.category base <> c
             /\ candidates c = []).
Proof.
  intros run. unfold run, slot_ok.
  destruct (bool_decide (Product.category base = c)) eqn:E.
  - left. exists base, s. split; reflexivity.
  - apply bool_decide_eq_false in E.
    destruct (candidates c) as [|c0 cs] eqn:Ec.
    + right. eexists. split; [reflexivity|]. auto.
    + left.
      destruct (select_item_ok draw self (c0 :: cs) base s)
        as (p & Hrun & Hin & _); [discriminate|].
      exists p, (S s). split; [exact Hrun|exact Hin].
Qed.

Lemma randint_1_3 draw s :
  exists n, OutfitRecommender.randint draw 1 3 s = (Ok n, S s)
            /\ (1 <= n <= 3)%nat.
Proof.
  unfold OutfitRecommender.randint. eexists. split; [reflexivity|].
  pose proof (Nat.mod_upper_bound (draw s) (3 - 1 + 1) ltac:(cbn; lia)).
  cbn in *. lia.
Qed.

(** Every outfit that [_generate_single_outfit] returns is well formed. *)
Lemma generate_single_outfit_spec draw self base candidates request s o s' :
  OutfitRecommender._generate_single_outfit draw self base candidates request s
  = (Ok o, s') ->
  generated base candidates o.
Proof.
  unfold OutfitRecommender._generate_single_outfit.
  unfold rand_bind at 1.
  destruct (slot_run draw self base candidates TOP s)
    as [(top & s1 & -> & Htop)|(e & -> & _)]; [|discriminate].
  unfold rand_bind at 1.
  destruct (slot_run draw self base candidates BOTTOM s1)
    as [(bottom & s2 & -> & Hbottom)|(e & -> & _)]; [|discriminate].
  unfold rand_bind at 1.
  destruct (slot_run draw self base candidates FOOTWEAR s2)
    as [(footwear & s3 & -> & Hfoot)|(e & -> & _)]; [|discriminate].
  unfold rand_bind at 1.
  destruct (randint_1_3 draw s3) as (n & -> & Hn).
  unfold rand_bind at 1.
  destruct (accessory_loop_spec draw self (candidates ACCESSORY) base n []
              (S s3))
    as (accs & ext & s4 & -> & Happ & Hincl & Hlen & Hnd & Hne & Hid).
  cbn [app] in Happ. subst ext.
  unfold rand_bind at 1.
  destruct accs as [|a accs].
  - destruct (candidates ACCESSORY) as [|c0 cs] eqn:Ec.
    + cbn [rand_ret]. intros [= <- <-]. unfold generated. cbn.
      split_and!; auto; try lia; [intros x []|constructor].
    + exfalso. apply Hne; [discriminate|lia|reflexivity].
  - cbn [rand_ret]. intros [= <- <-]. unfold generated.
    cbn [Outfit.top Outfit.bottom Outfit.footwear Outfit.accessories
         Outfit.total_price].
    split_and!; auto using List.NoDup_nil; try lia.
Qed.

Lemma generate_single_outfit_ok draw self base candidates request :
  (forall c, c <> ACCESSORY -> Product.category base <> c ->
             candidates c <> []) ->
  forall s, exists o s',
    OutfitRecommender._generate_single_outfit draw self base candidates
      request s = (Ok o, s').
Proof.
  intros Hc s. unfold OutfitRecommender._generate_single_outfit.
  unfold rand_bind at 1.
  destruct (slot_run draw self base candidates TOP s)
    as [(top & s1 & -> & Htop)|(e & _ & Hcat & Hnil)];
    [|exfalso; apply (Hc TOP); auto; discriminate].
  unfold rand_bind at 1.
  destruct (slot_run draw self base candidates BOTTOM s1)
    as [(bottom & s2 & -> & Hbottom)|(e & _ & Hcat & Hnil)];
    [|exfalso; apply (Hc BOTTOM); auto; discriminate].
  unfold rand_bind at 1.
  destruct (slot_run draw self base candidates FOOTWEAR s2)
    as [(footwear & s3 & -> & Hfoot)|(e & _ & Hcat & Hnil)];
    [|exfalso; apply (Hc FOOTWEAR); auto; discriminate].
  unfold rand_bind at 1.
  destruct (randint_1_3 draw s3) as (n & -> & Hn).
  unfold rand_bind at 1.
  destruct (accessory_loop_spec draw self (candidates ACCESSORY) base n []
              (S s3))
    as (accs & ext & s4 & -> & _).
  unfold rand_bind at 1.
  destruct accs as [|a accs]; [|cbn [rand_ret]; eauto].
  destruct (candidates ACCESSORY) as [|c0 cs] eqn:Ec; [cbn [rand_ret]; eauto|].
  unfold rand_bind at 1.
  destruct (select_item_ok draw self (c0 :: cs) base s4)
    as (p & -> & _); [discriminate|].
  cbn [rand_ret]. eauto.
Qed.

(** ** The attempt loop *)

Lemma same_core_spec o1 o2 :
  OutfitRecommender.same_core o1 o2 = true <-> core o1 = core o2.
Proof.
  unfold OutfitRecommender.same_core, core.
  rewrite !andb_true_iff, !String.eqb_eq. split.
  - intros [[-> ->] ->]. reflexivity.
  - intros [= -> -> ->]. auto.
Qed.

Lemma is_duplicate_spec o outfits :
  OutfitRecommender._is_duplicate o outfits = true
  <-> In (core o) (map core outfits).
Proof.
  unfold OutfitRecommender._is_duplicate.
  rewrite existsb_exists, in_map_iff. split.
  - intros (o' & Hin & E). apply same_core_spec in E. eauto.
  - intros (o' & E & Hin). exists o'. split; [exact Hin|].
    apply same_core_spec. congruence.
Qed.

Lemma attempts_loop_spec draw self base candidates request remaining
    outfits s :
  exists l ext s',
    OutfitRecommender.attempts_loop draw self base candidates request
      remaining outfits s = (Ok l, s') /\
    l = (outfits ++ ext)%list /\
    Forall (generated base candidates) ext /\
    (List.NoDup (map core outfits) -> List.NoDup (map core l)) /\
    (Z.of_nat (length l)
     <= Z.max (Z.of_nat (length outfits))
              (RecommendationRequest.num_recommendations request))%Z.
Proof.
  revert outfits s. induction remaining as [|k IH]; intros outfits s.
  - exists outfits, [], s. cbn [OutfitRecommender.attempts_loop rand_ret].
    rewrite app_nil_r. split_and!; auto. lia.
  - cbn [OutfitRecommender.attempts_loop].
    destruct (Z.of_nat (length outfits)
              <? RecommendationRequest.num_recommendations request)%Z
      eqn:Elt.
    + apply Z.ltb_lt in Elt. unfold rand_bind at 1, rand_try.
      destruct (OutfitRecommender._generate_single_outfit draw self base
                  candidates request s) as [[o|e] s1] eqn:Egen.
      * apply generate_single_outfit_spec in Egen.
        destruct (OutfitRecommender._is_duplicate o outfits) eqn:Edup;
          cbn [negb].
        -- destruct (IH outfits s1)
             as (l & ext & s' & Hrun & Happ & Hgen & Hnd & Hlen).
           exists l, ext, s'. split_and!; auto.
        -- destruct (IH (outfits ++ [o])%list s1)
             as (l & ext & s' & Hrun & Happ & Hgen & Hnd & Hlen).
           exists l, (o :: ext), s'.
           rewrite <- app_assoc in Happ. cbn [app] in Happ.
           split_and!; auto.
           ++ intros Hd. apply Hnd. rewrite map_app. cbn [map].
              apply List.NoDup_app; auto.
              ** repeat constructor. intros [].
              ** intros x Hx [<-|[]].
                 apply is_duplicate_spec in Hx. congruence.
           ++ rewrite length_app in Hlen. cbn [length] in Hlen. lia.
      * destruct (IH outfits s1)
          as (l & ext & s' & Hrun & Happ & Hgen & Hnd & Hlen).
        exists l, ext, s'. split_and!; auto.
    + exists outfits, [], s. cbn [rand_ret].
      rewrite app_nil_r. split_and!; auto. lia.
Qed.

Lemma attempts_loop_nonempty draw self base candidates request k s :
  (0 < RecommendationRequest.num_recommendations request)%Z ->
  (forall s, exists o s',
     OutfitRecommender._generate_single_outfit draw self base candidates
       request s = (Ok o, s')) ->
  exists l s',
    OutfitRecommender.attempts_loop draw self base candidates request
      (S k) [] s = (Ok l, s') /\ l <> [].
Proof.
  intros Hnum Hgen. cbn [OutfitRecommender.attempts_loop length].
  replace (Z.of_nat 0 <? RecommendationRequest.num_recommendations request)%Z
    with true by (symmetry; apply Z.ltb_lt; exact Hnum).
  unfold rand_bind at 1, rand_try.
  destruct (Hgen s) as (o & s1 & ->).
  cbn [OutfitRecommender._is_duplicate existsb negb app].
  destruct (attempts_loop_spec draw self base candidates request k [o] s1)
    as (l & ext & s' & Hrun & -> & _).
  exists ([o] ++ ext)%list, s'. split; [exact Hrun|discriminate].
Qed.

(** ** Scoring of the collected outfits *)

Lemma budget_given_Some mb b : budget_given mb = Some b -> ~ b == 0.
Proof.
  unfold budget_given. destruct mb as [x|]; [|discriminate].
  destruct (Qeq_bool x 0) eqn:E; [discriminate|].
  intros [= <-]. apply Qeq_bool_neq. exact E.
Qed.

Lemma score_budget_total fmt2 self o :
  exists score reason,
    OutfitScorer._score_budget fmt2 self o = Ok (score, reason).
Proof.
  unfold OutfitScorer._score_budget.
  destruct (budget_given (OutfitScorer.max_budget self)) as [b|] eqn:E;
    [|eauto].
  apply budget_given_Some in E. rewrite !truediv_ok by exact E.
  cbn [exc_bind].
  repeat match goal with
         | |- context [if ?c then _ else _] => destruct c
         end; eauto.
Qed.

(** The scorer never raises. *)
Lemma score_outfit_total fmt2 self o :
  exists score reasoning,
    OutfitScorer.score_outfit fmt2 self o = Ok (score, reasoning).
Proof.
  destruct (score_color_harmony_range o) as (c & r1 & Hc & _).
  destruct (score_style_range o) as (st & r2 & Hs & _).
  destruct (score_occasion_range self o) as (oc & r3 & Ho & _).
  destruct (score_season_range self o) as (se & r4 & Hse & _).
  destruct (score_budget_total fmt2 self o) as (b & r5 & Hb).
  unfold OutfitScorer.score_outfit.
  rewrite Hc, Hs, Ho, Hse, Hb. cbn [exc_bind]. eauto.
Qed.

Lemma score_loop_spec fmt2 scorer outfits acc :
  exists scored,
    OutfitRecommender.score_loop fmt2 scorer outfits acc
    = Ok (acc ++ scored)%list /\
    Forall2 (scored_from fmt2 scorer) outfits scored.
Proof.
  revert acc. induction outfits as [|o outfits IH]; intros acc.
  - exists []. rewrite app_nil_r. split; [reflexivity|constructor].
  - cbn [OutfitRecommender.score_loop].
    destruct (score_outfit_total fmt2 scorer o) as (sc & r & Hsc).
    rewrite Hsc. cbn [exc_bind].
    destruct (IH (acc ++ [Outfit.set_score o sc r])%list)
      as (scored & -> & Hall).
    exists (Outfit.set_score o sc r :: scored).
    rewrite <- app_assoc. split; [reflexivity|].
    constructor; [|exact Hall]. exists sc, r. auto.
Qed.

(** ** Lookup of the base product *)

Lemma index_by_id_Some products bc (bi : gmap string Product.t) k p :
  snd (fold_left OutfitRecommender.index_step products (bc, bi)) !! k
  = Some p ->
  bi !! k = Some p \/ (In p products /\ Product.id p = k).
Proof.
  revert bc bi. induction products as [|q products IH]; intros bc bi.
  - cbn. auto.
  - cbn [fold_left OutfitRecommender.index_step]. intros H.
    apply IH in H as [H|[Hin Hid]]; [|cbn [In]; auto].
    apply lookup_insert_Some in H as [[<- <-]|[_ H]]; cbn [In]; auto.
Qed.

Lemma index_by_id_None products bc (bi : gmap string Product.t) k :
  snd (fold_left OutfitRecommender.index_step products (bc, bi)) !! k = None
  <-> bi !! k = None /\ ~ In k (ids products).
Proof.
  revert bc bi. induction products as [|q products IH]; intros bc bi.
  - cbn. tauto.
  - cbn [fold_left OutfitRecommender.index_step ids map In].
    rewrite IH, lookup_insert_None. fold (ids products). tauto.
Qed.

Lemma by_id_lookup products self k :
  OutfitRecommender.init products = Ok self ->
  (OutfitRecommender.by_id self !! k = None <-> ~ In k (ids products)) /\
  (forall p, OutfitRecommender.by_id self !! k = Some p ->
             In p products /\ Product.id p = k).
Proof.
  intros Hinit. apply init_fields in Hinit as (_ & _ & -> & _).
  unfold OutfitRecommender._index_products. split.
  - rewrite index_by_id_None, lookup_empty. tauto.
  - intros p H. apply index_by_id_Some in H as [H|H]; [|exact H].
    rewrite lookup_empty in H. discriminate.
Qed.

(** ** The whole call *)

Lemma generate_recommendations_missing fmt2 draw self request s :
  OutfitRecommender.by_id self
    !! RecommendationRequest.base_product_id request = None ->
  OutfitRecommender.generate_recommendations fmt2 draw self request s
  = (Raise (ValueError ("Product "
                        ++ RecommendationRequest.base_product_id request
                        ++ " not found")), s).
Proof.
  intros H. unfold OutfitRecommender.generate_recommendations.
  rewrite H. reflexivity.
Qed.

Lemma generate_recommendations_found fmt2 draw self request base s :
  OutfitRecommender.by_id self
    !! RecommendationRequest.base_product_id request = Some base ->
  let candidates := request_candidates self base request in
  let num := RecommendationRequest.num_recommendations request in
  exists collected scored s',
    OutfitRecommender.generate_recommendations fmt2 draw self request s
    = (Ok (slice_to (sort_desc Outfit.match_score scored) num), s') /\
    Forall (generated base candidates) collected /\
    List.NoDup (map core collected) /\
    (Z.of_nat (length collected) <= Z.max 0 num)%Z /\
    Forall2 (scored_from fmt2 (request_scorer request)) collected scored /\
    ((0 < num)%Z ->
     (forall s, exists o s1,
        OutfitRecommender._generate_single_outfit draw self base candidates
          request s = (Ok o, s1)) ->
     collected <> []).
Proof.
  intros Hbase candidates num.
  unfold OutfitRecommender.generate_recommendations. rewrite Hbase.
  fold (request_candidates self base request). fold candidates.
  fold (request_scorer request).
  unfold rand_bind at 1.
  destruct (attempts_loop_spec draw self base candidates request 100 [] s)
    as (l & ext & s1 & Hrun & Happ & Hgen & Hnd & Hlen).
  rewrite Hrun. cbn [app] in Happ. subst ext.
  unfold rand_bind at 1, rand_lift.
  destruct (score_loop_spec fmt2 (request_scorer request) l [])
    as (scored & -> & Hscored).
  cbn [app rand_ret].
  exists l, scored, s1. split_and!; auto.
  - apply Hnd. constructor.
  - intros Hnum Hok.
    destruct (attempts_loop_nonempty draw self base candidates request 99 s
                Hnum Hok) as (l' & s2 & Hrun' & Hne).
    rewrite Hrun in Hrun'. injection Hrun' as -> ->. exact Hne.
Qed.

(** ** Failure of the call *)

(** C1. [generate_recommendations] raises exactly when the base product
    identifier of the request is not an identifier of the catalog; it then
    raises "Product ... not found" without drawing and without output.
    When the identifier is in the catalog it returns a list of outfits,
    whatever the candidates are. *)
Theorem C1_generate_recommendations fmt2 draw products self request s :
  OutfitRecommender.init products = Ok self ->
  let run :=
    OutfitRecommender.generate_recommendations fmt2 draw self request s in
  let id := RecommendationRequest.base_product_id request in
  (raised (fst run) <-> ~ In id (ids products)) /\
  (~ In id (ids products) ->
   run = (Raise (ValueError ("Product " ++ id ++ " not found")), s)) /\
  (In id (ids products) -> exists outfits s', run = (Ok outfits, s')).
Proof.
  intros Hinit run id.
  destruct (by_id_lookup products self id Hinit) as [Hnone Hsome].
  destruct (OutfitRecommender.by_id self !! id) as [base|] eqn:Hbase.
  - assert (Hin : In id (ids products)).
    { destruct (Hsome base eq_refl) as [Hp <-]. apply in_map. exact Hp. }
    destruct (generate_recommendations_found fmt2 draw self request base s
                Hbase) as (collected & scored & s' & Hrun & _).
    fold run in Hrun. split_and!.
    + split; [|tauto]. intros [e He]. rewrite Hrun in He. discriminate.
    + tauto.
    + intros _. eauto.
  - assert (Hnot : ~ In id (ids products)) by (apply Hnone; reflexivity).
    pose proof (generate_recommendations_missing fmt2 draw self request s
                  Hbase) as Hrun.
    fold run id in Hrun. split_and!.
    + split; [tauto|]. intros _. rewrite Hrun. eexists. reflexivity.
    + intros _. exact Hrun.
    + tauto.
Qed.

(** ** The returned list *)

Lemma scored_from_core fmt2 scorer collected scored :
  Forall2 (scored_from fmt2 scorer) collected scored ->
  map core scored = map core collected.
Proof.
  induction 1 as [|o o' l l' (sc & r & _ & ->) _ IH]; [reflexivity|].
  cbn [map]. rewrite IH. reflexivity.
Qed.

Lemma generate_recommendations_Ok fmt2 draw self request s outfits s' :
  OutfitRecommender.generate_recommendations fmt2 draw self request s
  = (Ok outfits, s') ->
  exists base collected scored,
    OutfitRecommender.by_id self
      !! RecommendationRequest.base_product_id request = Some base /\
    outfits = slice_to (sort_desc Outfit.match_score scored)
                       (RecommendationRequest.num_recommendations request) /\
    Forall (generated base (request_candidates self base request)) collected /\
    List.NoDup (map core collected) /\
    Forall2 (scored_from fmt2 (request_scorer request)) collected scored.
Proof.
  intros Hrun.
  destruct (OutfitRecommender.by_id self
              !! RecommendationRequest.base_product_id request)
    as [base|] eqn:Hbase.
  - destruct (generate_recommendations_found fmt2 draw self request base s
                Hbase)
      as (collected & scored & s1 & Hrun' & Hgen & Hnd & _ & Hsc & _).
    rewrite Hrun in Hrun'. injection Hrun' as -> ->.
    exists base, collected, scored. auto.
  - rewrite (generate_recommendations_missing _ _ _ _ _ Hbase) in Hrun.
    discriminate.
Qed.

Lemma filter_firstn_prefix {A} (f : A -> bool) (k : nat) (l : list A) :
  exists rest,
    List.filter f l = (List.filter f (firstn k l) ++ rest)%list.
Proof.
  exists (List.filter f (skipn k l)).
  rewrite <- List.filter_app, firstn_skipn. reflexivity.
Qed.

(** The three steps of a call for a base product of the catalog: the
    attempt loop, the scoring and the sort with its slice. *)
Lemma generate_recommendations_steps fmt2 draw self request base s :
  OutfitRecommender.by_id self
    !! RecommendationRequest.base_product_id request = Some base ->
  exists collected scored s',
    OutfitRecommender.attempts_loop draw self base
      (request_candidates self base request) request 100 [] s
    = (Ok collected, s') /\
    OutfitRecommender.score_loop fmt2 (request_scorer request) collected []
    = Ok scored /\
    Forall2 (scored_from fmt2 (request_scorer request)) collected scored /\
    List.NoDup (map core collected) /\
    OutfitRecommender.generate_recommendations fmt2 draw self request s
    = (Ok (slice_to (sort_desc Outfit.match_score scored)
                    (RecommendationRequest.num_recommendations request)),
       s').
Proof.
  intros Hbase.
  unfold OutfitRecommender.generate_recommendations. rewrite Hbase.
  fold (request_candidates self base request).
  fold (request_scorer request).
  unfold rand_bind at 1.
  destruct (attempts_loop_spec draw self base
              (request_candidates self base request) request 100 [] s)
    as (l & ext & s1 & Hrun & _ & _ & Hnd & _).
  rewrite Hrun.
  unfold rand_bind at 1, rand_lift.
  destruct (score_loop_spec fmt2 (request_scorer request) l [])
    as (scored & Hscore & Hscored).
  rewrite Hscore. cbn [app rand_ret].
  exists l, scored, s1. split_and!; auto.
  apply Hnd. constructor.
Qed.

(** C6. With a non-negative requested count, the list returned by
    [generate_recommendations] has at most that many outfits, is sorted by
    decreasing match score, and has no two outfits with the same (top,
    bottom, footwear) identifiers, whatever their accessories.  It is the
    beginning of the stable sort of the outfits collected by the attempt
    loop, each with the score of the scorer: the returned outfits of any
    one score are, in this order, the first outfits of that score that the
    loop collected. *)
Theorem C6_recommendations fmt2 draw self request s outfits s' :
  let num := RecommendationRequest.num_recommendations request in
  (0 <= num)%Z ->
  OutfitRecommender.generate_recommendations fmt2 draw self request s
  = (Ok outfits, s') ->
  (Z.of_nat (length outfits) <= num)%Z /\
  StronglySorted (descending Outfit.match_score) outfits /\
  List.NoDup (map core outfits) /\
  exists base collected scored,
    OutfitRecommender.by_id self
      !! RecommendationRequest.base_product_id request = Some base /\
    OutfitRecommender.attempts_loop draw self base
      (request_candidates self base request) request 100 [] s
    = (Ok collected, s') /\
    OutfitRecommender.score_loop fmt2 (request_scorer request) collected []
    = Ok scored /\
    Forall2 (scored_from fmt2 (request_scorer request)) collected scored /\
    List.NoDup (map core collected) /\
    outfits = firstn (Z.to_nat num) (sort_desc Outfit.match_score scored) /\
    forall q, exists rest,
      List.filter (fun o => Qeq_bool (Outfit.match_score o) q) scored
      = (List.filter (fun o => Qeq_bool (Outfit.match_score o) q) outfits
         ++ rest)%list.
Proof.
  intros num Hnum Hrun.
  destruct (OutfitRecommender.by_id self
              !! RecommendationRequest.base_product_id request)
    as [base|] eqn:Hbase.
  2:{ rewrite (generate_recommendations_missing _ _ _ _ _ Hbase) in Hrun.
      discriminate. }
  destruct (generate_recommendations_steps fmt2 draw self request base s
              Hbase)
    as (collected & scored & s1 & Hloop & Hscore & Hsc & Hnd & Hrun').
  rewrite Hrun in Hrun'. injection Hrun' as Hout ->. fold num in Hout.
  destruct (slice_to_firstn (sort_desc Outfit.match_score scored) num)
    as (k & Hk & Hkn).
  rewrite Hk in Hout. rewrite (Hkn Hnum) in Hout. clear k Hk Hkn.
  assert (Hnd' : List.NoDup (map core scored))
    by (rewrite (scored_from_core _ _ _ _ Hsc); exact Hnd).
  split_and!.
  - subst outfits. rewrite length_firstn. lia.
  - subst outfits. apply firstn_sorted, sort_desc_sorted.
  - subst outfits. rewrite <- firstn_map. apply firstn_NoDup.
    eapply Permutation_NoDup; [|exact Hnd'].
    apply Permutation_map. symmetry. apply sort_desc_perm.
  - exists base, collected, scored. split_and!; auto.
    intros q.
    rewrite <- (sort_desc_stable Outfit.match_score q scored).
    subst outfits. apply filter_firstn_prefix.
Qed.

(** ** The items of a generated outfit *)

Lemma filter_category_incl self base occ ssn mb sp c p :
  In p (OutfitRecommender.filter_category self base occ ssn mb sp c) ->
  In p (OutfitRecommender.by_category self c).
Proof.
  unfold OutfitRecommender.filter_category.
  destruct occ, ssn, sp, (budget_given mb); intros H;
    repeat (apply filter_In in H as [H _]); exact H.
Qed.

Lemma request_candidates_In products self base request c p :
  OutfitRecommender.init products = Ok self ->
  In p (request_candidates self base request c) ->
  In p products /\ Product.category p = c.
Proof.
  intros Hinit H. unfold request_candidates in H.
  rewrite filter_candidates_category in H.
  apply filter_category_incl in H.
  rewrite (by_category_init _ _ _ Hinit) in H.
  apply filter_In in H as [Hin Hc]. apply bool_decide_eq_true in Hc. auto.
Qed.

Lemma slot_ok_In products self base request c p :
  OutfitRecommender.init products = Ok self ->
  In base products ->
  slot_ok base (request_candidates self base request) c p ->
  In p products /\ Product.category p = c.
Proof.
  intros Hinit Hbase. unfold slot_ok.
  destruct (bool_decide (Product.category base = c)) eqn:E.
  - apply bool_decide_eq_true in E. intros ->. auto.
  - apply request_candidates_In. exact Hinit.
Qed.

Lemma ids_inj products p q :
  List.NoDup (ids products) -> In p products -> In q products ->
  Product.id p = Product.id q -> p = q.
Proof.
  unfold ids. induction products as [|x products IH]; [intros _ []|].
  cbn [map]. intros Hnd. apply List.NoDup_cons_iff in Hnd as [Hx Hnd].
  intros [->|Hp] [->|Hq] E; auto.
  - exfalso. apply Hx. rewrite E. apply in_map. exact Hq.
  - exfalso. apply Hx. rewrite <- E. apply in_map. exact Hp.
Qed.

Lemma ids_NoDup products l :
  List.NoDup (ids products) -> incl l products -> List.NoDup l ->
  List.NoDup (map Product.id l).
Proof.
  intros Hnd Hincl. induction 1 as [|x l Hx Hl IH]; [constructor|].
  cbn [map]. constructor.
  - intros Hin. apply in_map_iff in Hin as (y & E & Hy). apply Hx.
    assert (y = x) as <-; [|exact Hy].
    apply (ids_inj products); auto.
    + apply Hincl. right. exact Hy.
    + apply Hincl. left. reflexivity.
  - apply IH. intros y Hy. apply Hincl. right. exact Hy.
Qed.

(** The outfits returned by [generate_recommendations] are the collected
    ones up to their score and reasoning. *)
Lemma returned_outfit fmt2 draw self request s outfits s' o :
  OutfitRecommender.generate_recommendations fmt2 draw self request s
  = (Ok outfits, s') ->
  In o outfits ->
  exists base o0 score reasoning,
    OutfitRecommender.by_id self
      !! RecommendationRequest.base_product_id request = Some base /\
    generated base (request_candidates self base request) o0 /\
    o = Outfit.set_score o0 score reasoning.
Proof.
  intros Hrun Hin.
  apply generate_recommendations_Ok in Hrun
    as (base & collected & scored & Hbase & -> & Hgen & _ & Hsc).
  destruct (slice_to_firstn (sort_desc Outfit.match_score scored)
              (RecommendationRequest.num_recommendations request))
    as (k & Hk & _).
  rewrite Hk in Hin. apply firstn_In in Hin. apply sort_desc_In in Hin.
  exists base.
  clear Hk. induction Hsc as [|o0 o' l l' (sc & r & _ & ->) _ IH].
  - destruct Hin.
  - apply List.Forall_cons_iff in Hgen as [Hg Hgen].
    destruct Hin as [<-|Hin]; [|apply IH; assumption].
    exists o0, sc, r. auto.
Qed.

(** C7 (amended). With unique identifiers in the catalog, every outfit
    returned by [generate_recommendations] has at most 3 accessories, at
    least 1 when the filtered accessory candidates are not empty and none
    when they are empty; its accessories have pairwise distinct
    identifiers, none of which is the identifier of its top, bottom or
    footwear. *)
Theorem C7_accessories fmt2 draw products self request s outfits s' o :
  OutfitRecommender.init products = Ok self ->
  List.NoDup (ids products) ->
  OutfitRecommender.generate_recommendations fmt2 draw self request s
  = (Ok outfits, s') ->
  In o outfits ->
  (length (Outfit.accessories o) <= 3)%nat /\
  (exists base,
     OutfitRecommender.by_id self
       !! RecommendationRequest.base_product_id request = Some base /\
     (request_candidates self base request ACCESSORY <> [] ->
      (1 <= length (Outfit.accessories o))%nat) /\
     (request_candidates self base request ACCESSORY = [] ->
      Outfit.accessories o = [])) /\
  List.NoDup (map Product.id (Outfit.accessories o)) /\
  (forall a, In a (Outfit.accessories o) ->
     Product.id a <> Product.id (Outfit.top o) /\
     Product.id a <> Product.id (Outfit.bottom o) /\
     Product.id a <> Product.id (Outfit.footwear o)).
Proof.
  intros Hinit Hnd Hrun Hin.
  destruct (returned_outfit _ _ _ _ _ _ _ _ Hrun Hin)
    as (base & o0 & sc & r & Hbase & Hgen & ->).
  cbn [Outfit.set_score Outfit.accessories Outfit.top Outfit.bottom
       Outfit.footwear].
  destruct Hgen as (Htop & Hbot & Hfoot & Hincl & Hnda & Hlen & Hne & _).
  destruct (by_id_lookup products self
              (RecommendationRequest.base_product_id request) Hinit)
    as [_ Hsome].
  destruct (Hsome base Hbase) as [Hbin _].
  apply (slot_ok_In products self base request _ _ Hinit Hbin) in Htop, Hbot,
    Hfoot.
  assert (Hacc : forall a, In a (Outfit.accessories o0) ->
                   In a products /\ Product.category a = ACCESSORY).
  { intros a Ha. apply (request_candidates_In products self base request).
    - exact Hinit.
    - apply Hincl. exact Ha. }
  split_and!.
  - exact Hlen.
  - exists base. split_and!; [exact Hbase| |].
    + intros Hc. specialize (Hne Hc).
      destruct (Outfit.accessories o0); [contradiction|cbn [length]; lia].
    + intros Hc. rewrite Hc in Hincl.
      destruct (Outfit.accessories o0) as [|a l]; [reflexivity|].
      destruct (Hincl a). left. reflexivity.
  - apply (ids_NoDup products); auto. intros a Ha. apply Hacc. exact Ha.
  - intros a Ha. destruct (Hacc a Ha) as [Hap Hcat].
    destruct Htop as [Ht Htc], Hbot as [Hb Hbc], Hfoot as [Hf Hfc].
    split_and!; intros E; apply (ids_inj products) in E; auto; congruence.
Qed.

(** A base product of the accessory category is in no outfit when another
    accessory is among the candidates. *)
Lemma accessory_base_omitted fmt2 draw products self request base s outfits
    s' o item :
  OutfitRecommender.init products = Ok self ->
  List.NoDup (ids products) ->
  OutfitRecommender.by_id self
    !! RecommendationRequest.base_product_id request = Some base ->
  Product.category base = ACCESSORY ->
  (exists c, In c (request_candidates self base request ACCESSORY)
             /\ Product.id c <> Product.id base) ->
  OutfitRecommender.generate_recommendations fmt2 draw self request s
  = (Ok outfits, s') ->
  In o outfits ->
  In item (Outfit.items o) ->
  Product.id item <> Product.id base.
Proof.
  intros Hinit Hnd Hbase Hcat Hother Hrun Hin Hitem.
  destruct (returned_outfit _ _ _ _ _ _ _ _ Hrun Hin)
    as (base' & o0 & sc & r & Hbase' & Hgen & ->).
  rewrite Hbase in Hbase'. injection Hbase' as <-.
  destruct Hgen as (Htop & Hbot & Hfoot & _ & _ & _ & _ & Hid & _).
  destruct (by_id_lookup products self
              (RecommendationRequest.base_product_id request) Hinit)
    as [_ Hsome].
  destruct (Hsome base Hbase) as [Hbin _].
  apply (slot_ok_In products self base request _ _ Hinit Hbin) in Htop, Hbot,
    Hfoot.
  unfold Outfit.items in Hitem.
  cbn [Outfit.set_score Outfit.accessories Outfit.top Outfit.bottom
       Outfit.footwear app In] in Hitem.
  destruct Htop as [Ht Htc], Hbot as [Hb Hbc], Hfoot as [Hf Hfc].
  destruct Hitem as [<-|[<-|[<-|Ha]]];
    try (intros E; apply (ids_inj products) in E; auto; congruence).
  apply Hid; assumption.
Qed.

(** ** Outfits around an accessory *)

Lemma generate_recommendations_nonempty fmt2 draw self request base s :
  OutfitRecommender.by_id self
    !! RecommendationRequest.base_product_id request = Some base ->
  (0 < RecommendationRequest.num_recommendations request)%Z ->
  (forall c, c <> ACCESSORY -> Product.category base <> c ->
             request_candidates self base request c <> []) ->
  exists outfits s',
    OutfitRecommender.generate_recommendations fmt2 draw self request s
    = (Ok outfits, s') /\ outfits <> [].
Proof.
  intros Hbase Hnum Hc.
  destruct (generate_recommendations_found fmt2 draw self request base s
              Hbase)
    as (collected & scored & s' & Hrun & _ & _ & _ & Hsc & Hne).
  eexists _, _. split; [exact Hrun|].
  assert (Hcol : collected <> []).
  { apply Hne; [exact Hnum|].
    apply generate_single_outfit_ok. exact Hc. }
  assert (Hlen : length (sort_desc Outfit.match_score scored)
                 = length collected).
  { rewrite sort_desc_length. symmetry. eapply Forall2_length. exact Hsc. }
  destruct (slice_to_firstn (sort_desc Outfit.match_score scored)
              (RecommendationRequest.num_recommendations request))
    as (k & -> & Hk).
  rewrite Hk by lia. intros E. apply (f_equal (@length _)) in E.
  rewrite length_firstn, Hlen in E. cbn [length] in E.
  destruct collected; [contradiction|]. cbn [length] in E. lia.
Qed.

Lemma example_init :
  OutfitRecommender.init Example.catalog
  = Ok (Example.recommender Example.catalog).
Proof. vm_compute. reflexivity. Qed.

Lemma example_ids : List.NoDup (ids Example.catalog).
Proof.
  unfold ids, Example.catalog. cbn [map Product.id].
  repeat constructor; cbn [In]; intuition discriminate.
Qed.

(** C10. There are a catalog and a request whose base product is an
    accessory (the black leather belt) for which every call returns at
    least one outfit and no returned outfit contains the base product,
    whatever the random source draws. *)
Theorem C10_accessory_base_not_in_outfits :
  exists products request base,
    let self := Example.recommender products in
    OutfitRecommender.by_id self
      !! RecommendationRequest.base_product_id request = Some base /\
    Product.category base = ACCESSORY /\
    forall fmt2 draw s,
      exists outfits s',
        OutfitRecommender.generate_recommendations fmt2 draw self request s
        = (Ok outfits, s') /\
        outfits <> [] /\
        forall o item, In o outfits -> In item (Outfit.items o) ->
                       Product.id item <> Product.id base.
Proof.
  exists Example.catalog, Example.belt_request, Example.acc_001.
  intros self.
  assert (Hbase : OutfitRecommender.by_id self
            !! RecommendationRequest.base_product_id Example.belt_request
          = Some Example.acc_001) by (vm_compute; reflexivity).
  split; [exact Hbase|]. split; [reflexivity|].
  intros fmt2 draw s.
  destruct (generate_recommendations_nonempty fmt2 draw self
              Example.belt_request Example.acc_001 s Hbase)
    as (outfits & s' & Hrun & Hne).
  { reflexivity. }
  { intros c Hc _. destruct c; try contradiction; vm_compute; discriminate. }
  exists outfits, s'. split; [exact Hrun|]. split; [exact Hne|].
  intros o item Ho Hitem.
  apply (accessory_base_omitted fmt2 draw Example.catalog self
           Example.belt_request Example.acc_001 s outfits s' o item);
    auto using example_init, example_ids.
  exists Example.acc_007. split; [|discriminate].
  vm_compute. auto.
Qed.

(** ** Concrete instances *)

(** C2, as stated, fails: with the belt as base product and as only
    candidate, [_select_item] returns the base product itself; this is how
    the belt becomes the accessory of the outfits built around it when the
    catalog has no other accessory. *)
Lemma C2_select_item_returns_base :
  [Example.acc_001] <> [] /\
  OutfitRecommender._select_item Example.draw0
    (Example.recommender Example.catalog) [Example.acc_001] Example.acc_001 0%nat
  = (Ok Example.acc_001, 1%nat) /\
  exists o,
    fst (OutfitRecommender.generate_recommendations Example.fmt2
           Example.draw0 (Example.recommender Example.belt_only_catalog)
           Example.belt_request 0%nat) = Ok [o] /\
    Outfit.accessories o = [Example.acc_001].
Proof.
  split; [discriminate|]. split; [vm_compute; reflexivity|].
  eexists. split; vm_compute; reflexivity.
Qed.

(** C7, as stated, fails: travel in winter from the white T-shirt leaves
    no accessory candidate, and the returned outfit has no accessory. *)
Lemma C7_outfit_without_accessory :
  exists o,
    fst (Example.run Example.winter_travel_request) = Ok [o] /\
    Outfit.accessories o = [] /\
    ~ (1 <= length (Outfit.accessories o) <= 3)%nat.
Proof.
  eexists. split; [vm_compute; reflexivity|].
  split; [reflexivity|]. cbn. lia.
Qed.

(** C1 on the example catalog, for an identifier that is not in it. *)
Lemma C1_generate_recommendations_witness :
  OutfitRecommender.init Example.catalog
  = Ok (Example.recommender Example.catalog) /\
  (raised (fst (Example.run Example.unknown_request))
   <-> ~ In "top_999"%string (ids Example.catalog)) /\
  (~ In "top_999"%string (ids Example.catalog) ->
   Example.run Example.unknown_request
   = (Raise (ValueError "Product top_999 not found"), 0%nat)) /\
  (In "top_999"%string (ids Example.catalog) ->
   exists outfits s', Example.run Example.unknown_request = (Ok outfits, s')).
Proof.
  split; [vm_compute; reflexivity|].
  apply (C1_generate_recommendations Example.fmt2 Example.draw0
           Example.catalog (Example.recommender Example.catalog)
           Example.unknown_request 0%nat).
  vm_compute; reflexivity.
Defined.

(** C2 (amended) with the T-shirt as base product and two accessories as
    candidates. *)
Lemma C2_select_item_witness :
  Example.two_accessories <> [] /\
  exists p,
    OutfitRecommender._select_item Example.draw0
      (Example.recommender Example.catalog) Example.two_accessories
      Example.top_001 0%nat = (Ok p, 1%nat) /\
    In p Example.two_accessories.
Proof.
  assert (Hne : Example.two_accessories <> []) by discriminate.
  split; [exact Hne|].
  destruct (C2_select_item Example.draw0
              (Example.recommender Example.catalog) Example.two_accessories
              Example.top_001 0%nat)
    as (_ & _ & _ & _ & _ & H).
  destruct (H Hne) as (p & Hrun & Hin & _).
  exists p. split; [exact Hrun|exact Hin].
Defined.

(** C3 for the T-shirt and the cargo pants of the example catalog. *)
Lemma C3_compatibility_witness :
  OutfitRecommender.init Example.catalog
  = Ok (Example.recommender Example.catalog) /\
  OutfitRecommender._get_compatibility (Example.recommender Example.catalog)
    Example.top_001 Example.bottom_008
  = OutfitRecommender._get_compatibility
      (Example.recommender Example.catalog)
      Example.bottom_008 Example.top_001.
Proof.
  assert (Hinit : OutfitRecommender.init Example.catalog
                  = Ok (Example.recommender Example.catalog))
    by (vm_compute; reflexivity).
  split; [exact Hinit|].
  destruct (C3_compatibility Example.catalog
              (Example.recommender Example.catalog)
              Example.top_001 Example.bottom_008 Hinit) as [Hsym _].
  exact Hsym.
Defined.

(** C4 for the T-shirt, cargo pants and sneakers under a budget of 300. *)
Lemma C4_score_outfit_witness :
  0 < 300 /\
  exists total reasoning,
    OutfitScorer.score_outfit Example.fmt2
      (OutfitScorer.mk (Some EVERYDAY) None (Some 300))
      Example.beige_outfit = Ok (total, reasoning) /\
    0 <= total <= 1.
Proof.
  split; [reflexivity|].
  destruct (C4_score_outfit Example.fmt2
              (OutfitScorer.mk (Some EVERYDAY) None (Some 300))
              Example.beige_outfit)
    as (c & st & oc & se & b & r1 & r2 & r3 & r4 & r5 & total & reasoning
        & _ & _ & _ & _ & _ & Hrun & _ & _ & Hrange).
  - intros b Hb. injection Hb as <-. reflexivity.
  - exists total, reasoning. split; [exact Hrun|exact Hrange].
Defined.

(** C7 (amended) for the first outfit returned for the request with a
    budget. *)
Lemma C7_accessories_witness :
  exists o,
    OutfitRecommender.init Example.catalog
    = Ok (Example.recommender Example.catalog) /\
    List.NoDup (ids Example.catalog) /\
    Example.run Example.budget_request
    = (Ok (Example.recommend Example.budget_request),
       snd (Example.run Example.budget_request)) /\
    In o (Example.recommend Example.budget_request) /\
    (length (Outfit.accessories o) <= 3)%nat /\
    List.NoDup (map Product.id (Outfit.accessories o)).
Proof.
  assert (Hinit : OutfitRecommender.init Example.catalog
                  = Ok (Example.recommender Example.catalog))
    by (vm_compute; reflexivity).
  assert (Hids : List.NoDup (ids Example.catalog)).
  { unfold ids, Example.catalog. cbn [map Product.id].
    repeat constructor; cbn [In]; intuition discriminate. }
  assert (Hrun : Example.run Example.budget_request
                 = (Ok (Example.recommend Example.budget_request),
                    snd (Example.run Example.budget_request)))
    by (vm_compute; reflexivity).
  exists (hd Example.complementary_outfit
             (Example.recommend Example.budget_request)).
  assert (Hin : In (hd Example.complementary_outfit
                       (Example.recommend Example.budget_request))
                   (Example.recommend Example.budget_request))
    by (vm_compute; left; reflexivity).
  destruct (C7_accessories Example.fmt2 Example.draw0 Example.catalog
              (Example.recommender Example.catalog) Example.budget_request
              0%nat (Example.recommend Example.budget_request)
              (snd (Example.run Example.budget_request))
              (hd Example.complementary_outfit
                  (Example.recommend Example.budget_request))
              Hinit Hids Hrun Hin) as (Hlen & _ & Hnd & _).
  split; [exact Hinit|]. split; [exact Hids|]. split; [exact Hrun|].
  split; [exact Hin|]. split; [exact Hlen|exact Hnd].
Defined.


(** * Further properties of the scorer *)

(** ** Ratios of counts *)

Lemma scaled_le_counts (p q : Z) (a b : nat) :
  inject_Z p * inject_Z (Z.of_nat a) <= inject_Z q * inject_Z (Z.of_nat b)
  <-> (p * Z.of_nat a <= q * Z.of_nat b)%Z.
Proof. rewrite <- !inject_Z_mult, <- Zle_Qle. reflexivity. Qed.

Lemma ratio_times (m t : nat) :
  (0 < t)%nat ->
  inject_Z (Z.of_nat m)
  == inject_Z (Z.of_nat m) / inject_Z (Z.of_nat t) * inject_Z (Z.of_nat t).
Proof.
  intros Ht. pose proof (inject_nat_pos t Ht). field. lra.
Qed.

(** [c <= m / t] in terms of the counts. *)
Lemma le_ratio (c : Q) (m t : nat) :
  (0 < t)%nat ->
  c <= inject_Z (Z.of_nat m) / inject_Z (Z.of_nat t)
  <-> c * inject_Z (Z.of_nat t) <= inject_Z (Z.of_nat m).
Proof.
  intros Ht.
  pose proof (inject_nat_pos t Ht) as Hpos.
  pose proof (ratio_times m t Ht) as E.
  set (r := inject_Z (Z.of_nat m) / inject_Z (Z.of_nat t)) in *.
  set (T := inject_Z (Z.of_nat t)) in *.
  set (M := inject_Z (Z.of_nat m)) in *.
  split; intros H.
  - assert (H2 : 0 <= (r - c) * T) by (apply Qmult_le_0_compat; lra).
    lra.
  - assert (H2 : 0 <= (r - c) * T) by lra.
    destruct (Qlt_le_dec (r - c) 0) as [Hn|Hn]; [|lra].
    assert (0 < (c - r) * T) by (apply Qmult_lt_0_compat; lra). lra.
Qed.

(** [p / q <= m / t] for positive [q], over the integers. *)
Lemma frac_le_ratio (p q : Z) (m t : nat) :
  (0 < q)%Z -> (0 < t)%nat ->
  (p # Z.to_pos q) <= inject_Z (Z.of_nat m) / inject_Z (Z.of_nat t)
  <-> (p * Z.of_nat t <= q * Z.of_nat m)%Z.
Proof.
  intros Hq Ht. rewrite le_ratio by exact Ht.
  rewrite <- scaled_le_counts.
  assert (Hq' : 0 < inject_Z q).
  { replace 0 with (inject_Z 0) by reflexivity. rewrite <- Zlt_Qlt. exact Hq. }
  assert (E : (p # Z.to_pos q) * inject_Z q == inject_Z p).
  { rewrite Qmake_Qdiv. rewrite Z2Pos.id by exact Hq. field. lra. }
  set (c := p # Z.to_pos q) in *.
  set (T := inject_Z (Z.of_nat t)) in *.
  set (M := inject_Z (Z.of_nat m)) in *.
  set (P := inject_Z p) in *. set (Qq := inject_Z q) in *.
  assert (E2 : (M - c * T) * Qq == Qq * M - P * T) by (rewrite <- E; ring).
  split; intros H.
  - assert (H2 : 0 <= (M - c * T) * Qq) by (apply Qmult_le_0_compat; lra).
    lra.
  - assert (H2 : 0 <= (M - c * T) * Qq) by lra.
    destruct (Qlt_le_dec (M - c * T) 0) as [Hn|Hn]; [|lra].
    assert (H3 : 0 < (c * T - M) * Qq) by (apply Qmult_lt_0_compat; lra).
    assert (E3 : (c * T - M) * Qq == - ((M - c * T) * Qq)) by ring.
    lra.
Qed.

Lemma ratio_eq_one (m t : nat) :
  (0 < t)%nat ->
  inject_Z (Z.of_nat m) / inject_Z (Z.of_nat t) == 1 <-> m = t.
Proof.
  intros Ht. pose proof (inject_nat_pos t Ht) as Hpos.
  pose proof (ratio_times m t Ht) as E.
  split.
  - intros H. rewrite H in E. rewrite Qmult_1_l in E.
    apply (proj1 (inject_Z_injective _ _)) in E. lia.
  - intros Hm. subst m. unfold Qdiv. apply Qmult_inv_r.
    intros H0. rewrite H0 in Hpos. apply (Qlt_irrefl 0). exact Hpos.
Qed.

(** ** Style, occasion and season *)

(** X1. The style sub-score of an outfit is 1.0 when all its other items
    have the style of the top, 0.75 when at least half of them but not
    all do, and 0.55 otherwise; the "Single item" case cannot occur. *)
Theorem X1_style_score (o : Outfit.t) :
  let others :=
    Outfit.bottom o :: Outfit.footwear o :: Outfit.accessories o in
  let matches :=
    count_if (fun p => bool_decide (Product.style p
                                    = Product.style (Outfit.top o))) others in
  let total := length others in
  exists score reason,
    OutfitScorer._score_style_compatibility o = Ok (score, reason) /\
    (matches = total -> score = 1.0) /\
    ((matches < total)%nat -> (total <= 2 * matches)%nat -> score = 0.75) /\
    ((2 * matches < total)%nat -> score = 0.55) /\
    reason <> "Single item"%string.
Proof.
  intros others matches total.
  unfold OutfitScorer._score_style_compatibility, Outfit.items.
  cbn [app map length Nat.sub Nat.eqb].
  assert (Hm : count_if
                 (fun s => bool_decide (s = Product.style (Outfit.top o)))
                 (Product.style (Outfit.bottom o)
                  :: Product.style (Outfit.footwear o)
                  :: map Product.style (Outfit.accessories o)) = matches).
  { unfold matches, count_if, others.
    change (Product.style (Outfit.bottom o)
            :: Product.style (Outfit.footwear o)
            :: map Product.style (Outfit.accessories o))
      with (map Product.style
              (Outfit.bottom o :: Outfit.footwear o
               :: Outfit.accessories o)).
    generalize (Outfit.bottom o :: Outfit.footwear o
                :: Outfit.accessories o).
    induction l as [|p l IH]; [reflexivity|]. cbn [map List.filter].
    destruct (bool_decide (Product.style p = Product.style (Outfit.top o)));
      cbn [length]; rewrite IH; reflexivity. }
  rewrite Hm.
  assert (Ht : S (S (length (map Product.style (Outfit.accessories o))))
               = total)
    by (unfold total, others; cbn [length]; rewrite length_map; reflexivity).
  rewrite Ht.
  assert (Hpos : (0 < total)%nat) by (unfold total, others; cbn; lia).
  pose proof (inject_nat_pos total Hpos).
  rewrite truediv_ok by lra. cbn [exc_bind].
  pose proof (ratio_eq_one matches total Hpos) as H1.
  pose proof (frac_le_ratio 1 2 matches total ltac:(lia) Hpos) as H2.
  change (1 # Z.to_pos 2) with (1 # 2) in H2.
  set (r := inject_Z (Z.of_nat matches) / inject_Z (Z.of_nat total)) in *.
  destruct (Qeq_bool r 1.0) eqn:E1.
  - apply Qeq_bool_iff in E1.
    assert (E1' : r == 1) by lra. apply H1 in E1'.
    eexists _, _. split; [reflexivity|].
    split_and!; try reflexivity; try lia; discriminate.
  - apply Qeq_bool_neq in E1.
    assert (Hne : matches <> total).
    { intros E. apply H1 in E. apply E1. lra. }
    destruct (Qle_bool 0.5 r) eqn:E2.
    + apply Qle_bool_iff in E2.
      assert (E2' : 1 # 2 <= r) by lra. apply H2 in E2'.
      eexists _, _. split; [reflexivity|].
      split_and!; try reflexivity; try lia; discriminate.
    + apply Qle_bool_gt in E2.
      assert (E3 : ~ (1 * Z.of_nat total <= 2 * Z.of_nat matches)%Z).
      { intros H3. apply H2 in H3. lra. }
      eexists _, _. split; [reflexivity|].
      split_and!; try reflexivity; try lia; discriminate.
Qed.

Lemma ratio_score_cases (matching total : nat) (r1 r2 r3 r4 : string) :
  (0 < total)%nat ->
  exists score reason,
    (let* match_ratio :=
       truediv (inject_Z (Z.of_nat matching)) (inject_Z (Z.of_nat total)) in
     if Qle_bool 0.8 match_ratio then Ok (1.0, r1)
     else if Qle_bool 0.6 match_ratio then Ok (0.8, r2)
     else if Qle_bool 0.4 match_ratio then Ok (0.6, r3)
     else Ok (0.4, r4)) = Ok (score, reason) /\
    ((4 * total <= 5 * matching)%nat -> score = 1.0 /\ reason = r1) /\
    ((5 * matching < 4 * total)%nat -> (3 * total <= 5 * matching)%nat ->
     score = 0.8 /\ reason = r2) /\
    ((5 * matching < 3 * total)%nat -> (2 * total <= 5 * matching)%nat ->
     score = 0.6 /\ reason = r3) /\
    ((5 * matching < 2 * total)%nat -> score = 0.4 /\ reason = r4).
Proof.
  intros Hpos. pose proof (inject_nat_pos total Hpos).
  rewrite truediv_ok by lra. cbn [exc_bind].
  pose proof (frac_le_ratio 4 5 matching total ltac:(lia) Hpos) as H8.
  pose proof (frac_le_ratio 3 5 matching total ltac:(lia) Hpos) as H6.
  pose proof (frac_le_ratio 2 5 matching total ltac:(lia) Hpos) as H4.
  change (4 # Z.to_pos 5) with (4 # 5) in H8.
  change (3 # Z.to_pos 5) with (3 # 5) in H6.
  change (2 # Z.to_pos 5) with (2 # 5) in H4.
  set (r := inject_Z (Z.of_nat matching) / inject_Z (Z.of_nat total)) in *.
  assert (D8 : (4 # 5 <= r) \/ ~ (4 # 5 <= r))
    by (destruct (Qlt_le_dec r (4 # 5)); [right; lra|left; assumption]).
  assert (D6 : (3 # 5 <= r) \/ ~ (3 # 5 <= r))
    by (destruct (Qlt_le_dec r (3 # 5)); [right; lra|left; assumption]).
  assert (D4 : (2 # 5 <= r) \/ ~ (2 # 5 <= r))
    by (destruct (Qlt_le_dec r (2 # 5)); [right; lra|left; assumption]).
  destruct (Qle_bool 0.8 r) eqn:E8;
    [apply Qle_bool_iff in E8|apply Qle_bool_gt in E8];
    [|destruct (Qle_bool 0.6 r) eqn:E6;
      [apply Qle_bool_iff in E6|apply Qle_bool_gt in E6];
      [|destruct (Qle_bool 0.4 r) eqn:E4;
        [apply Qle_bool_iff in E4|apply Qle_bool_gt in E4]]];
    (eexists _, _; split; [reflexivity|]);
    destruct D8 as [D8|D8]; try (exfalso; lra);
    destruct D6 as [D6|D6]; try (exfalso; lra);
    destruct D4 as [D4|D4]; try (exfalso; lra);
    rewrite H8 in D8; rewrite H6 in D6; rewrite H4 in D4;
    split_and!; intros; try (split; reflexivity); exfalso; lia.
Qed.

Lemma count_if_all {A} (f : A -> bool) (l : list A) :
  (forall x, In x l -> f x = true) -> count_if f l = length l.
Proof.
  unfold count_if. induction l as [|x l IH]; intros H; [reflexivity|].
  cbn [List.filter]. rewrite (H x) by (left; reflexivity).
  cbn [length]. rewrite IH; [reflexivity|].
  intros y Hy. apply H. right. exact Hy.
Qed.

Lemma count_if_le {A} (f : A -> bool) (l : list A) :
  (count_if f l <= length l)%nat.
Proof. unfold count_if. apply List.filter_length_le. Qed.

(** X2. With a target occasion, the occasion sub-score depends on the
    number of the outfit's items (top, bottom, footwear and accessories)
    that list the occasion: 1.0 when at least 4/5 of them do, 0.8 from
    3/5, 0.6 from 2/5 and 0.4 below; an outfit whose items all list the
    occasion scores 1.0.  Without a target the sub-score is 0.7. *)
Theorem X2_occasion_score (occ : Occasion) (ssn : option Season)
    (mb : option Q) (o : Outfit.t) :
  let matching :=
    count_if (fun p => occasion_in occ (Product.occasion p))
             (Outfit.items o) in
  let total := length (Outfit.items o) in
  (exists score reason,
     OutfitScorer._score_occasion_fit (OutfitScorer.mk (Some occ) ssn mb) o
     = Ok (score, reason) /\
     ((4 * total <= 5 * matching)%nat -> score = 1.0) /\
     ((5 * matching < 4 * total)%nat -> (3 * total <= 5 * matching)%nat ->
      score = 0.8) /\
     ((5 * matching < 3 * total)%nat -> (2 * total <= 5 * matching)%nat ->
      score = 0.6) /\
     ((5 * matching < 2 * total)%nat -> score = 0.4) /\
     ((forall p, In p (Outfit.items o) -> In occ (Product.occasion p)) ->
      score = 1.0)) /\
  OutfitScorer._score_occasion_fit (OutfitScorer.mk None ssn mb) o
  = Ok (0.7, "No specific occasion specified"%string).
Proof.
  intros matching total. split; [|reflexivity].
  unfold OutfitScorer._score_occasion_fit.
  cbn [OutfitScorer.target_occasion].
  fold matching. fold total.
  assert (Hpos : (0 < total)%nat)
    by (unfold total, Outfit.items; cbn [app length]; lia).
  destruct (ratio_score_cases matching total
              ("Perfect for " ++ Occasion_value occ ++ " occasion")
              ("Good fit for " ++ Occasion_value occ)
              ("Moderately suitable for " ++ Occasion_value occ)
              ("May not be ideal for " ++ Occasion_value occ) Hpos)
    as (score & reason & Hrun & H1 & H2 & H3 & H4).
  exists score, reason. split; [exact Hrun|].
  split_and!; intros; try (apply H1; assumption);
    try (apply H2; assumption); try (apply H3; assumption);
    try (apply H4; assumption).
  apply H1. unfold matching, total. rewrite count_if_all; [lia|].
  intros p Hp. apply occasion_in_In. auto.
Qed.

(** X3. With a target season, the season sub-score depends in the same way
    on the number of items whose season is the target or all-season; an
    outfit of all-season items scores 1.0 for every target season.
    Without a target the sub-score is 0.7. *)
Theorem X3_season_score (occ : option Occasion) (ssn : Season)
    (mb : option Q) (o : Outfit.t) :
  let matching :=
    count_if (fun p => season_matches ssn (Product.season p))
             (Outfit.items o) in
  let total := length (Outfit.items o) in
  (exists score reason,
     OutfitScorer._score_season_fit (OutfitScorer.mk occ (Some ssn) mb) o
     = Ok (score, reason) /\
     ((4 * total <= 5 * matching)%nat -> score = 1.0) /\
     ((5 * matching < 4 * total)%nat -> (3 * total <= 5 * matching)%nat ->
      score = 0.8) /\
     ((5 * matching < 3 * total)%nat -> (2 * total <= 5 * matching)%nat ->
      score = 0.6) /\
     ((5 * matching < 2 * total)%nat -> score = 0.4) /\
     ((forall p, In p (Outfit.items o) -> Product.season p = ALL_SEASON) ->
      score = 1.0)) /\
  OutfitScorer._score_season_fit (OutfitScorer.mk occ None mb) o
  = Ok (0.7, "No specific season specified"%string).
Proof.
  intros matching total. split; [|reflexivity].
  unfold OutfitScorer._score_season_fit.
  cbn [OutfitScorer.target_season].
  fold matching. fold total.
  assert (Hpos : (0 < total)%nat)
    by (unfold total, Outfit.items; cbn [app length]; lia).
  destruct (ratio_score_cases matching total
              ("Perfect for " ++ Season_value ssn ++ " season")
              ("Good for " ++ Season_value ssn ++ " season")
              ("Moderately suitable for " ++ Season_value ssn)
              ("May not be ideal for " ++ Season_value ssn) Hpos)
    as (score & reason & Hrun & H1 & H2 & H3 & H4).
  exists score, reason. split; [exact Hrun|].
  split_and!; intros; try (apply H1; assumption);
    try (apply H2; assumption); try (apply H3; assumption);
    try (apply H4; assumption).
  apply H1. unfold matching, total. rewrite count_if_all; [lia|].
  intros p Hp. apply season_matches_spec. auto.
Qed.

(** ** The reasoning text *)

Lemma concat_cons_prefix (sep x : string) (rest : list string) :
  exists tail, String.concat sep (x :: rest) = (x ++ tail)%string.
Proof.
  destruct rest as [|y rest].
  - exists ""%string. cbn [String.concat].
    induction x as [|c x IH]; [reflexivity|].
    change (String c x ++ "")%string with (String c (x ++ ""))%string.
    f_equal. exact IH.
  - eexists. cbn [String.concat]. reflexivity.
Qed.

Lemma append_head (a : Ascii.ascii) (s t : string) :
  (String a s ++ t)%string = String a (s ++ t)%string.
Proof. reflexivity. Qed.

(** X4. The reasoning text always starts with a colour clause, chosen by
    the colour score (from 0.8 "Excellent color harmony", from 0.6 "Good
    color coordination", below "Color harmony"), followed by at most four
    further clauses joined by ". "; the budget clause is among them
    exactly when a non-zero budget is given, and the fallback text
    "Well-coordinated outfit" is never produced. *)
Theorem X4_reasoning (self : OutfitScorer.t)
    (color_score : Q) (color_reason : string)
    (style_score : Q) (style_reason : string)
    (occasion_score : Q) (occasion_reason : string)
    (season_score : Q) (season_reason : string)
    (budget_score : Q) (budget_reason : string) :
  let reasoning :=
    OutfitScorer._generate_reasoning self color_score color_reason
      style_score style_reason occasion_score occasion_reason
      season_score season_reason budget_score budget_reason in
  exists clause rest,
    reasoning = String.concat ". " (clause :: rest) /\
    (0.8 <= color_score ->
     clause = ("Excellent color harmony: " ++ color_reason)%string) /\
    (0.6 <= color_score -> color_score < 0.8 ->
     clause = ("Good color coordination: " ++ color_reason)%string) /\
    (color_score < 0.6 ->
     clause = ("Color harmony: " ++ color_reason)%string) /\
    (length rest <= 4)%nat /\
    (In ("Budget: " ++ budget_reason)%string rest
     <-> is_Some (budget_given (OutfitScorer.max_budget self))) /\
    reasoning <> "Well-coordinated outfit"%string.
Proof.
  intros reasoning. unfold reasoning, OutfitScorer._generate_reasoning.
  set (clause :=
         if Qle_bool 0.8 color_score
         then ["Excellent color harmony: " ++ color_reason]%string
         else if Qle_bool 0.6 color_score
              then ["Good color coordination: " ++ color_reason]%string
              else ["Color harmony: " ++ color_reason]%string).
  set (c1 := if Qle_bool 0.8 style_score
             then ["Style: " ++ style_reason]%string else []).
  set (c2 := if bool_decide (is_Some (OutfitScorer.target_occasion self))
                && Qle_bool 0.7 occasion_score
             then ["Occasion: " ++ occasion_reason]%string else []).
  set (c3 := if bool_decide (is_Some (OutfitScorer.target_season self))
                && Qle_bool 0.7 season_score
             then ["Season: " ++ season_reason]%string else []).
  set (c4 := if bool_decide
                  (is_Some (budget_given (OutfitScorer.max_budget self)))
             then ["Budget: " ++ budget_reason]%string else []).
  assert (Hparts :
    (let parts := clause in
     let parts := if Qle_bool 0.8 style_score
                  then (parts ++ ["Style: " ++ style_reason]%string)%list
                  else parts in
     let parts := if bool_decide
                       (is_Some (OutfitScorer.target_occasion self))
                     && Qle_bool 0.7 occasion_score
                  then (parts ++ ["Occasion: " ++ occasion_reason]%string)%list
                  else parts in
     let parts := if bool_decide (is_Some (OutfitScorer.target_season self))
                     && Qle_bool 0.7 season_score
                  then (parts ++ ["Season: " ++ season_reason]%string)%list
                  else parts in
     let parts := if bool_decide
                       (is_Some (budget_given (OutfitScorer.max_budget self)))
                  then (parts ++ ["Budget: " ++ budget_reason]%string)%list
                  else parts in
     parts) = (clause ++ c1 ++ c2 ++ c3 ++ c4)%list).
  { cbv zeta. unfold c1, c2, c3, c4.
    destruct (Qle_bool 0.8 style_score),
      (bool_decide (is_Some (OutfitScorer.target_occasion self))
       && Qle_bool 0.7 occasion_score),
      (bool_decide (is_Some (OutfitScorer.target_season self))
       && Qle_bool 0.7 season_score),
      (bool_decide (is_Some (budget_given (OutfitScorer.max_budget self))));
      rewrite <- ?app_assoc, ?app_nil_r; reflexivity. }
  cbv zeta in Hparts. rewrite Hparts. clear Hparts.
  assert (Hclause : exists x, clause = [x] /\
    (0.8 <= color_score ->
     x = ("Excellent color harmony: " ++ color_reason)%string) /\
    (0.6 <= color_score -> color_score < 0.8 ->
     x = ("Good color coordination: " ++ color_reason)%string) /\
    (color_score < 0.6 -> x = ("Color harmony: " ++ color_reason)%string) /\
    exists ch tl, x = String ch tl /\ String ch "" <> "W"%string).
  { unfold clause.
    destruct (Qle_bool 0.8 color_score) eqn:E8;
      [apply Qle_bool_iff in E8|apply Qle_bool_gt in E8];
      [|destruct (Qle_bool 0.6 color_score) eqn:E6;
        [apply Qle_bool_iff in E6|apply Qle_bool_gt in E6]];
      eexists; (split; [reflexivity|]);
      (split_and!; [intros; try reflexivity; exfalso; lra ..|]);
      eexists _, _; (split; [reflexivity|]); discriminate. }
  destruct Hclause as (x & -> & H8 & H6 & H0 & ch & tl & Hx & Hch).
  cbn [app].
  exists x, (c1 ++ c2 ++ c3 ++ c4)%list.
  split_and!; try assumption.
  - reflexivity.
  - rewrite !length_app. unfold c1, c2, c3, c4.
    repeat match goal with
           | |- context [if ?b then _ else _] => destruct b
           end; cbn [length]; lia.
  - rewrite !in_app_iff. split.
    + intros [H|[H|[H|H]]].
      * unfold c1 in H.
        destruct (Qle_bool 0.8 style_score); cbn [In] in H; [|destruct H].
        destruct H as [H|[]]. rewrite !append_head in H. discriminate H.
      * unfold c2 in H.
        destruct (bool_decide (is_Some (OutfitScorer.target_occasion self))
                  && Qle_bool 0.7 occasion_score);
          cbn [In] in H; [|destruct H].
        destruct H as [H|[]]. rewrite !append_head in H. discriminate H.
      * unfold c3 in H.
        destruct (bool_decide (is_Some (OutfitScorer.target_season self))
                  && Qle_bool 0.7 season_score);
          cbn [In] in H; [|destruct H].
        destruct H as [H|[]]. rewrite !append_head in H. discriminate H.
      * unfold c4 in H.
        destruct (bool_decide
                    (is_Some (budget_given (OutfitScorer.max_budget self))))
          eqn:E; cbn [In] in H; [|destruct H].
        apply bool_decide_eq_true in E. exact E.
    + intros H. right. right. right. unfold c4.
      rewrite bool_decide_eq_true_2 by exact H. left. reflexivity.
  - destruct (concat_cons_prefix ". " x (c1 ++ c2 ++ c3 ++ c4)%list)
      as [tail ->].
    rewrite Hx.
    change (String ch tl ++ tail)%string with (String ch (tl ++ tail))%string.
    intros [= E _]. apply Hch. rewrite E. reflexivity.
Qed.

(** ** Floors of the scores *)

Lemma score_color_harmony_floor o :
  exists score reason,
    OutfitScorer._score_color_harmony o = Ok (score, reason) /\
    0.5 <= score.
Proof.
  destruct (score_color_harmony_formula o) as (score & reason & Hrun & Hsc).
  exists score, reason. split; [exact Hrun|].
  cbv zeta in Hsc. rewrite Hsc.
  set (others := Outfit.bottom o :: Outfit.footwear o :: Outfit.accessories o).
  set (base_hue := hue (Product.color (Outfit.top o))).
  pose proof (fold_scores_range base_hue others 0) as [Hlo _].
  fold (Qsum (map (item_score base_hue) others)) in Hlo.
  assert (Hpos : 0 < of_len others) by apply of_len_pos.
  assert (0.5 <= Qsum (map (item_score base_hue) others) / of_len others).
  { apply Qle_shift_div_l; [exact Hpos|]. lra. }
  assert (0 <= Qmin 0.1 (0.03 * inject_Z (Z.of_nat (neutral_count o)))).
  { apply Qmin_nonneg; [lra|].
    assert (0 <= inject_Z (Z.of_nat (neutral_count o))).
    { replace 0 with (inject_Z 0) by reflexivity. rewrite <- Zle_Qle. lia. }
    lra. }
  apply Q.min_glb; lra.
Qed.

Lemma score_style_floor o :
  exists score reason,
    OutfitScorer._score_style_compatibility o = Ok (score, reason) /\
    0.55 <= score.
Proof.
  unfold OutfitScorer._score_style_compatibility, Outfit.items.
  cbn [app map length Nat.sub Nat.eqb].
  rewrite truediv_ok
    by (match goal with
        | |- ~ inject_Z (Z.of_nat ?n) == 0 =>
            pose proof (inject_nat_pos n ltac:(lia)); lra
        end).
  cbn [exc_bind].
  case_cmp; eexists _, _; (split; [reflexivity|]); lra.
Qed.

Lemma ratio_score_floor (matching total : nat) (r1 r2 r3 r4 : string) :
  (0 < total)%nat ->
  exists score reason,
    (let* match_ratio :=
       truediv (inject_Z (Z.of_nat matching)) (inject_Z (Z.of_nat total)) in
     if Qle_bool 0.8 match_ratio then Ok (1.0, r1)
     else if Qle_bool 0.6 match_ratio then Ok (0.8, r2)
     else if Qle_bool 0.4 match_ratio then Ok (0.6, r3)
     else Ok (0.4, r4)) = Ok (score, reason) /\
    0.4 <= score.
Proof.
  intros Hpos. pose proof (inject_nat_pos total Hpos).
  rewrite truediv_ok by lra. cbn [exc_bind].
  case_cmp; eexists _, _; (split; [reflexivity|]); lra.
Qed.

Lemma score_occasion_floor self o :
  exists score reason,
    OutfitScorer._score_occasion_fit self o = Ok (score, reason) /\
    0.4 <= score.
Proof.
  unfold OutfitScorer._score_occasion_fit.
  destruct (OutfitScorer.target_occasion self) as [occ|].
  - apply ratio_score_floor. unfold Outfit.items. cbn [app length]. lia.
  - eexists _, _. split; [reflexivity|]. lra.
Qed.

Lemma score_season_floor self o :
  exists score reason,
    OutfitScorer._score_season_fit self o = Ok (score, reason) /\
    0.4 <= score.
Proof.
  unfold OutfitScorer._score_season_fit.
  destruct (OutfitScorer.target_season self) as [ssn|].
  - apply ratio_score_floor. unfold Outfit.items. cbn [app length]. lia.
  - eexists _, _. split; [reflexivity|]. lra.
Qed.

Lemma score_budget_floor fmt2 self o :
  exists score reason,
    OutfitScorer._score_budget fmt2 self o = Ok (score, reason) /\
    0.1 <= score.
Proof.
  unfold OutfitScorer._score_budget.
  destruct (budget_given (OutfitScorer.max_budget self)) as [b|] eqn:E;
    [|eexists _, _; split; [reflexivity|lra]].
  apply budget_given_Some in E. rewrite !truediv_ok by exact E.
  destruct (Qle_bool (Outfit.total_price o) b); cbn [exc_bind].
  - case_cmp; eexists _, _; (split; [reflexivity|]); lra.
  - eexists _, _. split; [reflexivity|]. apply Q.le_max_l.
Qed.

(** X5. Whatever the scorer and the outfit, the colour sub-score is at
    least 0.5, the style sub-score at least 0.55, the occasion and season
    sub-scores at least 0.4 and the budget sub-score at least 0.1, so the
    total score of an outfit is never below 0.4375. *)
Theorem X5_score_floor (fmt2 : Q -> string) (self : OutfitScorer.t)
    (o : Outfit.t) :
  exists color style occasion season budget r1 r2 r3 r4 r5 total reasoning,
    OutfitScorer._score_color_harmony o = Ok (color, r1) /\
    OutfitScorer._score_style_compatibility o = Ok (style, r2) /\
    OutfitScorer._score_occasion_fit self o = Ok (occasion, r3) /\
    OutfitScorer._score_season_fit self o = Ok (season, r4) /\
    OutfitScorer._score_budget fmt2 self o = Ok (budget, r5) /\
    OutfitScorer.score_outfit fmt2 self o = Ok (total, reasoning) /\
    0.5 <= color /\ 0.55 <= style /\ 0.4 <= occasion /\ 0.4 <= season /\
    0.1 <= budget /\ 0.4375 <= total.
Proof.
  destruct (score_color_harmony_floor o) as (c & r1 & Hc & Hcr).
  destruct (score_style_floor o) as (s & r2 & Hs & Hsr).
  destruct (score_occasion_floor self o) as (oc & r3 & Ho & Hor).
  destruct (score_season_floor self o) as (se & r4 & Hse & Hser).
  destruct (score_budget_floor fmt2 self o) as (b & r5 & Hbu & Hbr).
  exists c, s, oc, se, b, r1, r2, r3, r4, r5.
  unfold OutfitScorer.score_outfit.
  rewrite Hc, Hs, Ho, Hse, Hbu. cbn [exc_bind].
  eexists _, _. split_and!; try reflexivity; try assumption.
  unfold OutfitScorer.COLOR_WEIGHT, OutfitScorer.STYLE_WEIGHT,
    OutfitScorer.OCCASION_WEIGHT, OutfitScorer.SEASON_WEIGHT,
    OutfitScorer.BUDGET_WEIGHT. lra.
Qed.

(** X6. Under a positive budget, an outfit over the budget has a budget
    sub-score below 0.5, hence below the sub-score (0.9 or 1.0) of every
    outfit within the budget, and among outfits over the budget the
    sub-score does not increase with the total price. *)
Theorem X6_budget_order (fmt2 : Q -> string) (occ : option Occasion)
    (ssn : option Season) (budget : Q) (o1 o2 o3 : Outfit.t) :
  0 < budget ->
  Outfit.total_price o1 <= budget ->
  budget < Outfit.total_price o2 ->
  Outfit.total_price o2 <= Outfit.total_price o3 ->
  let self := OutfitScorer.mk occ ssn (Some budget) in
  exists s1 s2 s3 r1 r2 r3,
    OutfitScorer._score_budget fmt2 self o1 = Ok (s1, r1) /\
    OutfitScorer._score_budget fmt2 self o2 = Ok (s2, r2) /\
    OutfitScorer._score_budget fmt2 self o3 = Ok (s3, r3) /\
    0.9 <= s1 /\ s2 < 0.5 /\ s3 <= s2 /\ s2 < s1.
Proof.
  intros Hb H1 H2 H3 self.
  assert (Hnz : ~ budget == 0) by lra.
  unfold OutfitScorer._score_budget, self. cbn [OutfitScorer.max_budget].
  rewrite (budget_given_pos _ Hb). rewrite !truediv_ok by exact Hnz.
  assert (E1 : Qle_bool (Outfit.total_price o1) budget = true)
    by (apply Qle_bool_iff; exact H1).
  assert (E2 : Qle_bool (Outfit.total_price o2) budget = false)
    by (apply Qle_bool_gt; exact H2).
  assert (E3 : Qle_bool (Outfit.total_price o3) budget = false)
    by (apply Qle_bool_gt; lra).
  rewrite E1, E2, E3. cbn [exc_bind].
  set (q2 := (Outfit.total_price o2 - budget) / budget).
  set (q3 := (Outfit.total_price o3 - budget) / budget).
  assert (Hq2 : 0 < q2).
  { apply Qlt_shift_div_l; [exact Hb|]. lra. }
  assert (Hq : q2 <= q3).
  { unfold q2, q3, Qdiv. apply Qmult_le_compat_r; [lra|].
    apply Qlt_le_weak, Qinv_lt_0_compat. exact Hb. }
  assert (Hs1 : exists s1 r1,
    (if Qltb (Outfit.total_price o1 / budget) 0.7
     then Ok (0.9, ("Within budget ($" ++ fmt2 (Outfit.total_price o1)
                    ++ " of $" ++ fmt2 budget ++ ")")%string)
     else Ok (1.0, ("Optimal budget usage ($"
                    ++ fmt2 (Outfit.total_price o1)
                    ++ " of $" ++ fmt2 budget ++ ")")%string))
    = Ok (s1, r1) /\ 0.9 <= s1).
  { destruct (Qltb _ 0.7); eexists _, _; (split; [reflexivity|]); lra. }
  destruct Hs1 as (s1 & r1 & -> & Hs1).
  exists s1. eexists _, _, r1, _, _.
  split_and!; try reflexivity; try assumption.
  - apply Q.max_lub_lt; [lra|].
    assert (0 < Qmin 0.5 q2) by (apply Q.min_glb_lt; lra). lra.
  - apply Q.max_le_compat_l.
    assert (Qmin 0.5 q2 <= Qmin 0.5 q3) by (apply Q.min_le_compat_l; exact Hq).
    lra.
  - assert (Qmax 0.1 (0.5 - Qmin 0.5 q2) < 0.5).
    { apply Q.max_lub_lt; [lra|].
      assert (0 < Qmin 0.5 q2) by (apply Q.min_glb_lt; lra). lra. }
    lra.
Qed.

(** ** Ranges of the colour components *)

Lemma channel_range (z : Z) :
  (0 <= z <= 255)%Z -> 0 <= inject_Z z / 255 <= 1.
Proof.
  intros [H0 H1].
  assert (0 <= inject_Z z)
    by (replace 0 with (inject_Z 0) by reflexivity; rewrite <- Zle_Qle; lia).
  assert (inject_Z z <= 255)
    by (replace 255 with (inject_Z 255) by reflexivity; rewrite <- Zle_Qle;
        lia).
  split.
  - apply Qle_shift_div_l; lra.
  - apply Qle_shift_div_r; lra.
Qed.

(** X7. For a colour with channels in 0..255, [to_hsv] returns a hue in
    [0, 360), a saturation in [0, 1] and a value in [0, 1]; a grey (three
    equal channels) has hue 0 and saturation 0. *)
Theorem X7_to_hsv_range (c : Color.t) :
  (0 <= Color.r c <= 255)%Z ->
  (0 <= Color.g c <= 255)%Z ->
  (0 <= Color.b c <= 255)%Z ->
  exists h s v,
    Color.to_hsv c = Ok (h, s, v) /\
    0 <= h /\ h < 360 /\ 0 <= s <= 1 /\ 0 <= v <= 1 /\
    (Color.r c = Color.g c -> Color.g c = Color.b c -> h == 0 /\ s == 0).
Proof.
  intros Hr Hg Hb.
  pose proof (hue_range c) as Hh.
  pose proof (to_hsv_hsv c) as Hrun.
  revert Hh Hrun. unfold hue, saturation, hsv, Color.to_hsv.
  pose proof (channel_range _ Hr) as Hr'.
  pose proof (channel_range _ Hg) as Hg'.
  pose proof (channel_range _ Hb) as Hb'.
  set (r := inject_Z (Color.r c) / 255) in *.
  set (g := inject_Z (Color.g c) / 255) in *.
  set (b := inject_Z (Color.b c) / 255) in *.
  set (max_val := Qmax (Qmax r g) b).
  set (min_val := Qmin (Qmin r g) b).
  set (delta := max_val - min_val).
  assert (Hmax : r <= max_val /\ g <= max_val /\ b <= max_val /\
                 max_val <= 1).
  { unfold max_val. pose proof (Q.le_max_l (Qmax r g) b).
    pose proof (Q.le_max_r (Qmax r g) b).
    pose proof (Q.le_max_l r g). pose proof (Q.le_max_r r g).
    split_and!; try lra. repeat apply Q.max_lub; lra. }
  assert (Hmin : min_val <= r /\ min_val <= g /\ min_val <= b /\
                 0 <= min_val).
  { unfold min_val. pose proof (Q.le_min_l (Qmin r g) b).
    pose proof (Q.le_min_r (Qmin r g) b).
    pose proof (Q.le_min_l r g). pose proof (Q.le_min_r r g).
    split_and!; try lra. repeat apply Q.min_glb; lra. }
  assert (Hs : exists s,
    (if Qeq_bool max_val 0 then Ok 0 else truediv delta max_val) = Ok s
    /\ 0 <= s <= 1 /\ (delta == 0 -> s == 0)).
  { destruct (Qeq_bool max_val 0) eqn:E.
    - exists 0. split; [reflexivity|]. split; [lra|]. reflexivity.
    - apply Qeq_bool_neq in E. rewrite (truediv_ok _ _ E).
      exists (delta / max_val). split; [reflexivity|].
      assert (0 < max_val) by lra.
      split; [split|].
      + apply Qle_shift_div_l; unfold delta; lra.
      + apply Qle_shift_div_r; unfold delta; lra.
      + intros Ed. rewrite Ed. field. exact E. }
  destruct Hs as (s & -> & Hs01 & Hs0).
  assert (Hgrey : Color.r c = Color.g c -> Color.g c = Color.b c ->
                  delta == 0).
  { intros E1 E2. unfold delta, max_val, min_val, r, g, b.
    rewrite E1, E2.
    rewrite !Q.max_id, !Q.min_id. ring. }
  destruct (Qeq_bool delta 0) eqn:Ed.
  - cbn [exc_bind fst snd]. intros Hh _.
    exists 0, s, max_val. split; [reflexivity|].
    apply Qeq_bool_iff in Ed.
    split_and!; try lra.
  - apply Qeq_bool_neq in Ed. rewrite !(truediv_ok _ _ Ed).
    destruct (Qeq_bool max_val r); [|destruct (Qeq_bool max_val g)];
      cbn [exc_bind fst snd]; intros Hh _;
      eexists _, s, max_val; (split; [reflexivity|]);
      (split_and!; try lra);
      intros E1 E2; exfalso; apply Ed; auto.
Qed.

(** * Further properties of the recommender *)

(** ** The coarse colour compatibility *)

Lemma calculate_color_compatibility_value c1 c2 :
  OutfitRecommender._calculate_color_compatibility c1 c2
  = Ok (color_compatibility c1 c2).
Proof.
  unfold color_compatibility.
  destruct (calculate_color_compatibility_ok c1 c2) as (q & -> & _).
  reflexivity.
Qed.

Lemma color_compatibility_sym c1 c2 :
  color_compatibility c1 c2 = color_compatibility c2 c1.
Proof.
  unfold color_compatibility,
    OutfitRecommender._calculate_color_compatibility.
  rewrite !to_hsv_hsv. cbn [exc_bind].
  rewrite (Qabs_Qminus (hue c1) (hue c2)). reflexivity.
Qed.

(** ** Lookups in the indexes *)

Lemma index_by_id_notin l bc (bi : gmap string Product.t) k :
  ~ In k (ids l) ->
  snd (fold_left OutfitRecommender.index_step l (bc, bi)) !! k = bi !! k.
Proof.
  revert bc bi. induction l as [|q l IH]; intros bc bi Hk; [reflexivity|].
  cbn [fold_left OutfitRecommender.index_step].
  cbn [ids map In] in Hk. fold (ids l) in Hk.
  rewrite IH by tauto. apply lookup_insert_ne. tauto.
Qed.

Lemma index_by_id_last l1 p l2 bc (bi : gmap string Product.t) :
  ~ In (Product.id p) (ids l2) ->
  snd (fold_left OutfitRecommender.index_step (l1 ++ p :: l2) (bc, bi))
    !! Product.id p = Some p.
Proof.
  intros Hk. rewrite fold_left_app. cbn [fold_left].
  destruct (fold_left OutfitRecommender.index_step l1 (bc, bi))
    as [bc1 bi1].
  cbn [OutfitRecommender.index_step].
  rewrite index_by_id_notin by exact Hk. apply lookup_insert_eq.
Qed.

Lemma ids_app l1 l2 : ids (l1 ++ l2) = (ids l1 ++ ids l2)%list.
Proof. apply map_app. Qed.

(** X9. The identifier index returns, for an identifier, the last catalog
    product that carries it; with unique identifiers every catalog product
    is found under its own identifier. *)
Theorem X9_by_id_lookup (products : list Product.t)
    (self : OutfitRecommender.t) :
  OutfitRecommender.init products = Ok self ->
  (forall l1 p l2,
     products = (l1 ++ p :: l2)%list -> ~ In (Product.id p) (ids l2) ->
     OutfitRecommender.by_id self !! Product.id p = Some p) /\
  (List.NoDup (ids products) ->
   forall p, In p products ->
     OutfitRecommender.by_id self !! Product.id p = Some p).
Proof.
  intros Hinit. apply init_fields in Hinit as (_ & _ & Hid & _).
  assert (Hlast : forall l1 p l2,
    products = (l1 ++ p :: l2)%list -> ~ In (Product.id p) (ids l2) ->
    OutfitRecommender.by_id self !! Product.id p = Some p).
  { intros l1 p l2 -> Hk. rewrite Hid.
    unfold OutfitRecommender._index_products. apply index_by_id_last.
    exact Hk. }
  split; [exact Hlast|].
  intros Hnd p Hp. apply in_split in Hp as (l1 & l2 & E).
  apply (Hlast l1 p l2 E). subst products.
  rewrite ids_app in Hnd. cbn [ids map] in Hnd.
  apply List.NoDup_remove_2 in Hnd. intros Hin. apply Hnd.
  apply in_or_app. right. exact Hin.
Qed.

(** ** The pairs of the compatibility index *)

Lemma sorted_pair_inj a b c d :
  OutfitRecommender.sorted_pair a b = OutfitRecommender.sorted_pair c d ->
  (a = c /\ b = d) \/ (a = d /\ b = c).
Proof.
  destruct (sorted_pair_cases a b) as [-> | ->],
           (sorted_pair_cases c d) as [-> | ->];
    intros [= -> ->]; auto.
Qed.

Lemma precompute_row_lookup p1 rest cache :
  List.NoDup (ids rest) ->
  exists cache',
    OutfitRecommender.precompute_row p1 rest cache = Ok cache' /\
    (forall p2, In p2 rest ->
       cache' !! OutfitRecommender.sorted_pair (Product.id p1)
                                               (Product.id p2)
       = Some (color_compatibility (Product.color p1) (Product.color p2)))
    /\
    (forall k,
       (forall p2, In p2 rest ->
          k <> OutfitRecommender.sorted_pair (Product.id p1)
                                             (Product.id p2)) ->
       cache' !! k = cache !! k).
Proof.
  revert cache. induction rest as [|p2 rest IH]; intros cache Hnd.
  - exists cache. split; [reflexivity|]. split; [intros ? []|auto].
  - cbn [OutfitRecommender.precompute_row].
    rewrite calculate_color_compatibility_value. cbn [exc_bind].
    cbn [ids map] in Hnd. apply List.NoDup_cons_iff in Hnd as [Hp2 Hnd].
    fold (ids rest) in Hp2, Hnd.
    destruct (IH (<[OutfitRecommender.sorted_pair (Product.id p1)
                      (Product.id p2) :=
                    color_compatibility (Product.color p1)
                                        (Product.color p2)]> cache) Hnd)
      as (cache' & Hrun & Hset & Hkeep).
    exists cache'. split; [exact Hrun|]. split.
    + intros q [<-|Hq]; [|apply Hset; exact Hq].
      rewrite Hkeep; [apply lookup_insert_eq|].
      intros q' Hq' E. apply Hp2.
      assert (Eid : Product.id p2 = Product.id q')
        by (apply sorted_pair_inj in E as [[_ E]|[E1 E2]]; congruence).
      rewrite Eid. apply in_map. exact Hq'.
    + intros k Hk. rewrite Hkeep.
      * apply lookup_insert_ne. intros E. apply (Hk p2); [left|]; auto.
      * intros q Hq. apply Hk. right. exact Hq.
Qed.

Lemma precompute_rows_lookup products cache :
  List.NoDup (ids products) ->
  exists cache',
    OutfitRecommender.precompute_rows products cache = Ok cache' /\
    (forall p1 p2, before products p1 p2 ->
       cache' !! OutfitRecommender.sorted_pair (Product.id p1)
                                               (Product.id p2)
       = Some (color_compatibility (Product.color p1) (Product.color p2)))
    /\
    (forall k,
       (forall p1 p2, before products p1 p2 ->
          k <> OutfitRecommender.sorted_pair (Product.id p1)
                                             (Product.id p2)) ->
       cache' !! k = cache !! k).
Proof.
  revert cache. induction products as [|p rest IH]; intros cache Hnd.
  - exists cache. split; [reflexivity|]. split; [|auto].
    intros p1 p2 (l1 & l2 & l3 & E). destruct l1; discriminate.
  - cbn [OutfitRecommender.precompute_rows].
    cbn [ids map] in Hnd. apply List.NoDup_cons_iff in Hnd as [Hp Hnd].
    fold (ids rest) in Hp, Hnd.
    destruct (precompute_row_lookup p rest cache Hnd)
      as (c1 & -> & Hset1 & Hkeep1).
    cbn [exc_bind].
    destruct (IH c1 Hnd) as (c2 & -> & Hset2 & Hkeep2).
    exists c2. split; [reflexivity|].
    assert (Hbefore : forall p1 p2, before (p :: rest) p1 p2 ->
              (p1 = p /\ In p2 rest) \/ before rest p1 p2).
    { intros p1 p2 (l1 & l2 & l3 & E). destruct l1 as [|x l1].
      - injection E as -> ->. left. split; [reflexivity|].
        apply in_or_app. right. left. reflexivity.
      - injection E as -> ->. right. exists l1, l2, l3. reflexivity. }
    assert (Hin : forall p1 p2, before rest p1 p2 ->
              In p1 rest /\ In p2 rest).
    { intros p1 p2 (l1 & l2 & l3 & ->). split.
      - apply in_or_app. right. left. reflexivity.
      - apply in_or_app. right. right. apply in_or_app. right. left.
        reflexivity. }
    split.
    + intros p1 p2 Hb. apply Hbefore in Hb as [[-> Hp2]|Hb].
      * rewrite Hkeep2; [apply Hset1; exact Hp2|].
        intros a b Hab E. apply Hin in Hab as [Ha Hb'].
        apply sorted_pair_inj in E as [[E _]|[E _]]; apply Hp; rewrite E;
          apply in_map; assumption.
      * apply Hset2. exact Hb.
    + intros k Hk. rewrite Hkeep2, Hkeep1; [reflexivity| |].
      * intros p2 Hp2. apply Hk.
        apply in_split in Hp2 as (m1 & m2 & ->).
        exists [], m1, m2. reflexivity.
      * intros p1 p2 (l1 & l2 & l3 & ->). apply Hk.
        exists (p :: l1), l2, l3. reflexivity.
Qed.

Lemma before_or {A} (l : list A) (x y : A) :
  In x l -> In y l -> x <> y -> before l x y \/ before l y x.
Proof.
  induction l as [|z l IH]; [intros []|].
  intros [->|Hx] [->|Hy] Hne.
  - contradiction.
  - left. apply in_split in Hy as (m1 & m2 & ->).
    exists [], m1, m2. reflexivity.
  - right. apply in_split in Hx as (m1 & m2 & ->).
    exists [], m1, m2. reflexivity.
  - destruct (IH Hx Hy Hne) as [(l1 & l2 & l3 & ->)|(l1 & l2 & l3 & ->)];
      [left|right]; exists (z :: l1), l2, l3; reflexivity.
Qed.

Lemma before_ids_distinct products p q :
  List.NoDup (ids products) -> before products p q ->
  Product.id p <> Product.id q.
Proof.
  intros Hnd (l1 & l2 & l3 & ->) E.
  rewrite ids_app in Hnd. apply List.NoDup_app_remove_l in Hnd.
  cbn [ids map] in Hnd. apply List.NoDup_cons_iff in Hnd as [Hp _].
  apply Hp. rewrite E. change (In (Product.id q) (ids (l2 ++ q :: l3))).
  rewrite ids_app. apply in_or_app. right. left. reflexivity.
Qed.

(** X10. For a catalog with unique identifiers, the index built by the
    constructor holds every pair of distinct catalog products: their
    compatibility is the score that [_calculate_color_compatibility] gives
    for their colours, never the default.  The pair of a product with
    itself is not indexed and gets the default 0.5. *)
Theorem X10_indexed_pairs (products : list Product.t)
    (self : OutfitRecommender.t) :
  OutfitRecommender.init products = Ok self ->
  List.NoDup (ids products) ->
  (forall p q, In p products -> In q products -> p <> q ->
     exists v,
       OutfitRecommender._calculate_color_compatibility
         (Product.color p) (Product.color q) = Ok v /\
       OutfitRecommender.compatibility_cache self
         !! OutfitRecommender.sorted_pair (Product.id p) (Product.id q)
       = Some v /\
       OutfitRecommender._get_compatibility self p q = v) /\
  (forall p, In p products ->
     OutfitRecommender._get_compatibility self p p = 0.5).
Proof.
  intros Hinit Hnd.
  apply init_fields in Hinit as (_ & _ & _ & Hpre).
  unfold OutfitRecommender._precompute_compatibility in Hpre.
  destruct (precompute_rows_lookup products ∅ Hnd)
    as (cache & Hrun & Hset & Hkeep).
  rewrite Hrun in Hpre. injection Hpre as Hcache.
  split.
  - intros p q Hp Hq Hne.
    exists (color_compatibility (Product.color p) (Product.color q)).
    split; [apply calculate_color_compatibility_value|].
    assert (Hlook :
      OutfitRecommender.compatibility_cache self
        !! OutfitRecommender.sorted_pair (Product.id p) (Product.id q)
      = Some (color_compatibility (Product.color p) (Product.color q))).
    { rewrite <- Hcache.
      destruct (before_or products p q Hp Hq Hne) as [Hb|Hb].
      - apply Hset. exact Hb.
      - rewrite sorted_pair_comm, color_compatibility_sym.
        apply Hset. exact Hb. }
    split; [exact Hlook|].
    unfold OutfitRecommender._get_compatibility. rewrite Hlook. reflexivity.
  - intros p Hp. unfold OutfitRecommender._get_compatibility.
    rewrite <- Hcache, Hkeep; [rewrite lookup_empty; reflexivity|].
    intros a b Hab E.
    apply (before_ids_distinct products a b Hnd Hab).
    apply sorted_pair_inj in E as [[E1 E2]|[E1 E2]]; congruence.
Qed.

(** ** The outfits of a call *)

Lemma Qsum_from (l : list Q) (acc : Q) :
  fold_left Qplus l acc == acc + Qsum l.
Proof.
  unfold Qsum. revert acc. induction l as [|x l IH]; intros acc.
  - cbn. ring.
  - cbn [fold_left]. rewrite IH, (IH (0 + x)). ring.
Qed.

(** X11. The total price of every returned outfit is the price of its top
    plus its bottom plus its footwear plus the sum of the prices of its
    accessories, that is the sum of the prices of all its items. *)
Theorem X11_total_price fmt2 draw self request s outfits s' o :
  OutfitRecommender.generate_recommendations fmt2 draw self request s
  = (Ok outfits, s') ->
  In o outfits ->
  Outfit.total_price o
  = Product.price (Outfit.top o) + Product.price (Outfit.bottom o)
    + Product.price (Outfit.footwear o)
    + Qsum (map Product.price (Outfit.accessories o)) /\
  Outfit.total_price o == Qsum (map Product.price (Outfit.items o)).
Proof.
  intros Hrun Hin.
  destruct (returned_outfit _ _ _ _ _ _ _ _ Hrun Hin)
    as (base & o0 & sc & r & _ & Hgen & ->).
  destruct Hgen as (_ & _ & _ & _ & _ & _ & _ & _ & Hprice).
  cbn [Outfit.set_score Outfit.total_price Outfit.top Outfit.bottom
       Outfit.footwear Outfit.accessories].
  split; [exact Hprice|].
  rewrite Hprice. unfold Outfit.items.
  cbn [Outfit.set_score Outfit.top Outfit.bottom Outfit.footwear
       Outfit.accessories app map].
  unfold Qsum at 2. cbn [fold_left]. rewrite Qsum_from. ring.
Qed.

(** X12. When the base product is a top, a bottom or a footwear item, it
    fills that slot in every returned outfit. *)
Theorem X12_base_in_slot fmt2 draw self request base s outfits s' o :
  OutfitRecommender.by_id self
    !! RecommendationRequest.base_product_id request = Some base ->
  OutfitRecommender.generate_recommendations fmt2 draw self request s
  = (Ok outfits, s') ->
  In o outfits ->
  (Product.category base = TOP -> Outfit.top o = base) /\
  (Product.category base = BOTTOM -> Outfit.bottom o = base) /\
  (Product.category base = FOOTWEAR -> Outfit.footwear o = base).
Proof.
  intros Hbase Hrun Hin.
  destruct (returned_outfit _ _ _ _ _ _ _ _ Hrun Hin)
    as (base' & o0 & sc & r & Hbase' & Hgen & ->).
  rewrite Hbase in Hbase'. injection Hbase' as <-.
  destruct Hgen as (Htop & Hbot & Hfoot & _).
  cbn [Outfit.set_score Outfit.top Outfit.bottom Outfit.footwear].
  unfold slot_ok in Htop, Hbot, Hfoot.
  split_and!; intros E; rewrite E in *;
    rewrite bool_decide_eq_true_2 in * by reflexivity; assumption.
Qed.

(** X13. Every item of a returned outfit is a catalog product of the
    category of its slot; with unique identifiers in the catalog, no
    identifier occurs twice among the items of an outfit. *)
Theorem X13_outfit_items fmt2 draw products self request s outfits s' o :
  OutfitRecommender.init products = Ok self ->
  OutfitRecommender.generate_recommendations fmt2 draw self request s
  = (Ok outfits, s') ->
  In o outfits ->
  (In (Outfit.top o) products /\ Product.category (Outfit.top o) = TOP) /\
  (In (Outfit.bottom o) products
   /\ Product.category (Outfit.bottom o) = BOTTOM) /\
  (In (Outfit.footwear o) products
   /\ Product.category (Outfit.footwear o) = FOOTWEAR) /\
  (forall a, In a (Outfit.accessories o) ->
     In a products /\ Product.category a = ACCESSORY) /\
  (List.NoDup (ids products) ->
   List.NoDup (map Product.id (Outfit.items o))).
Proof.
  intros Hinit Hrun Hin.
  destruct (returned_outfit _ _ _ _ _ _ _ _ Hrun Hin)
    as (base & o0 & sc & r & Hbase & Hgen & ->).
  destruct Hgen as (Htop & Hbot & Hfoot & Hincl & Hnda & _).
  destruct (by_id_lookup products self
              (RecommendationRequest.base_product_id request) Hinit)
    as [_ Hsome].
  destruct (Hsome base Hbase) as [Hbin _].
  apply (slot_ok_In products self base request _ _ Hinit Hbin) in Htop, Hbot,
    Hfoot.
  assert (Hacc : forall a, In a (Outfit.accessories o0) ->
                   In a products /\ Product.category a = ACCESSORY).
  { intros a Ha. apply (request_candidates_In products self base request).
    - exact Hinit.
    - apply Hincl. exact Ha. }
  unfold Outfit.items.
  cbn [Outfit.set_score Outfit.top Outfit.bottom Outfit.footwear
       Outfit.accessories app map].
  destruct Htop as [Ht Htc], Hbot as [Hb Hbc], Hfoot as [Hf Hfc].
  split_and!; try assumption.
  intros Hnd.
  assert (Hnotacc : forall p, In p products ->
            Product.category p <> ACCESSORY ->
            ~ In (Product.id p)
                 (map Product.id (Outfit.accessories o0))).
  { intros p Hp Hc Hi. apply in_map_iff in Hi as (a & E & Ha).
    destruct (Hacc a Ha) as [Hap Hac].
    apply (ids_inj products) in E; auto. congruence. }
  repeat constructor; cbn [In].
  - intros [E|[E|Hi]].
    + apply (ids_inj products) in E; auto. congruence.
    + apply (ids_inj products) in E; auto. congruence.
    + apply (Hnotacc _ Ht); [congruence|exact Hi].
  - intros [E|Hi].
    + apply (ids_inj products) in E; auto. congruence.
    + apply (Hnotacc _ Hb); [congruence|exact Hi].
  - apply (Hnotacc _ Hf). congruence.
  - apply (ids_NoDup products); auto. intros a Ha. apply Hacc. exact Ha.
Qed.



(** ** Scores, counts and draws of a call *)

Lemma score_outfit_set_score fmt2 scorer o score reasoning :
  OutfitScorer.score_outfit fmt2 scorer (Outfit.set_score o score reasoning)
  = OutfitScorer.score_outfit fmt2 scorer o.
Proof. destruct o. reflexivity. Qed.

Lemma score_outfit_floor fmt2 self o total reasoning :
  OutfitScorer.score_outfit fmt2 self o = Ok (total, reasoning) ->
  0.4375 <= total.
Proof.
  destruct (score_color_harmony_floor o) as (c & r1 & Hc & Hcr).
  destruct (score_style_floor o) as (s & r2 & Hs & Hsr).
  destruct (score_occasion_floor self o) as (oc & r3 & Ho & Hor).
  destruct (score_season_floor self o) as (se & r4 & Hse & Hser).
  destruct (score_budget_floor fmt2 self o) as (b & r5 & Hbu & Hbr).
  unfold OutfitScorer.score_outfit.
  rewrite Hc, Hs, Ho, Hse, Hbu. cbn [exc_bind]. intros [= <- _].
  unfold OutfitScorer.COLOR_WEIGHT, OutfitScorer.STYLE_WEIGHT,
    OutfitScorer.OCCASION_WEIGHT, OutfitScorer.SEASON_WEIGHT,
    OutfitScorer.BUDGET_WEIGHT. lra.
Qed.

Lemma score_outfit_ceiling fmt2 self o total reasoning :
  (forall b, OutfitScorer.max_budget self = Some b -> 0 < b) ->
  OutfitScorer.score_outfit fmt2 self o = Ok (total, reasoning) ->
  total <= 1.
Proof.
  intros Hb.
  destruct (score_color_harmony_range o) as (c & r1 & Hc & Hcr).
  destruct (score_style_range o) as (s & r2 & Hs & Hsr).
  destruct (score_occasion_range self o) as (oc & r3 & Ho & Hor).
  destruct (score_season_range self o) as (se & r4 & Hse & Hser).
  destruct (score_budget_range fmt2 self o Hb) as (b & r5 & Hbu & Hbr).
  unfold OutfitScorer.score_outfit.
  rewrite Hc, Hs, Ho, Hse, Hbu. cbn [exc_bind]. intros [= <- _].
  unfold OutfitScorer.COLOR_WEIGHT, OutfitScorer.STYLE_WEIGHT,
    OutfitScorer.OCCASION_WEIGHT, OutfitScorer.SEASON_WEIGHT,
    OutfitScorer.BUDGET_WEIGHT. lra.
Qed.

Lemma returned_scored fmt2 draw self request s outfits s' o :
  OutfitRecommender.generate_recommendations fmt2 draw self request s
  = (Ok outfits, s') ->
  In o outfits ->
  exists o0, scored_from fmt2 (request_scorer request) o0 o.
Proof.
  intros Hrun Hin.
  apply generate_recommendations_Ok in Hrun
    as (base & collected & scored & _ & -> & _ & _ & Hsc).
  destruct (slice_to_firstn (sort_desc Outfit.match_score scored)
              (RecommendationRequest.num_recommendations request))
    as (k & Hk & _).
  rewrite Hk in Hin. apply firstn_In in Hin. apply sort_desc_In in Hin.
  clear Hk. induction Hsc as [|x y l l' Hxy _ IH]; [destruct Hin|].
  destruct Hin as [<-|Hin]; [exists x; exact Hxy|auto].
Qed.

(** X15. Every returned outfit carries the score and the reasoning that
    the scorer of the request computes for it: scoring it again gives its
    [match_score] and [reasoning].  Its match score is at least 0.4375,
    and at most 1 when the maximum budget, if given, is positive. *)
Theorem X15_returned_scores fmt2 draw self request s outfits s' o :
  OutfitRecommender.generate_recommendations fmt2 draw self request s
  = (Ok outfits, s') ->
  In o outfits ->
  OutfitScorer.score_outfit fmt2 (request_scorer request) o
  = Ok (Outfit.match_score o, Outfit.reasoning o) /\
  0.4375 <= Outfit.match_score o /\
  ((forall b, RecommendationRequest.max_budget request = Some b -> 0 < b) ->
   Outfit.match_score o <= 1).
Proof.
  intros Hrun Hin.
  destruct (returned_scored _ _ _ _ _ _ _ _ Hrun Hin)
    as (o0 & sc & r & Hsc & ->).
  rewrite score_outfit_set_score.
  destruct o0; cbn [Outfit.set_score Outfit.match_score Outfit.reasoning].
  split_and!.
  - exact Hsc.
  - eapply score_outfit_floor. exact Hsc.
  - intros Hb. eapply score_outfit_ceiling; [|exact Hsc]. exact Hb.
Qed.

Lemma attempts_loop_none draw self base candidates request remaining s :
  (RecommendationRequest.num_recommendations request <= 0)%Z ->
  OutfitRecommender.attempts_loop draw self base candidates request
    remaining [] s = (Ok [], s).
Proof.
  intros Hnum. destruct remaining as [|k]; [reflexivity|].
  cbn [OutfitRecommender.attempts_loop length].
  assert (E : (Z.of_nat 0
               <? RecommendationRequest.num_recommendations request)%Z
              = false) by (apply Z.ltb_ge; lia).
  rewrite E. reflexivity.
Qed.

(** X16. When the requested count is zero or negative and the base product
    is in the catalog, the call returns the empty list without drawing. *)
Theorem X16_nothing_requested fmt2 draw self request base s :
  OutfitRecommender.by_id self
    !! RecommendationRequest.base_product_id request = Some base ->
  (RecommendationRequest.num_recommendations request <= 0)%Z ->
  OutfitRecommender.generate_recommendations fmt2 draw self request s
  = (Ok [], s).
Proof.
  intros Hbase Hnum.
  unfold OutfitRecommender.generate_recommendations. rewrite Hbase.
  unfold rand_bind at 1. rewrite attempts_loop_none by exact Hnum.
  unfold rand_bind, rand_lift.
  cbn [OutfitRecommender.score_loop sort_desc fold_right rand_ret].
  unfold slice_to. destruct (_ <? 0)%Z; rewrite firstn_nil; reflexivity.
Qed.

(** ** Attempts that fail *)

Lemma generate_single_outfit_raises draw self base candidates request c s :
  c <> ACCESSORY -> Product.category base <> c -> candidates c = [] ->
  exists e s',
    OutfitRecommender._generate_single_outfit draw self base candidates
      request s = (Raise e, s').
Proof.
  intros Hacc Hcat Hnil.
  assert (Hslot : forall s0,
            (if bool_decide (Product.category base = c) then rand_ret base
             else OutfitRecommender._select_item draw self (candidates c)
                    base) s0
            = (Raise (ValueError "No candidates available"), s0)).
  { intros s0. rewrite bool_decide_eq_false_2 by exact Hcat.
    rewrite Hnil. reflexivity. }
  unfold OutfitRecommender._generate_single_outfit.
  unfold rand_bind at 1.
  destruct (slot_run draw self base candidates TOP s)
    as [(top & s1 & Et & _)|(e & Et & _)]; rewrite Et; [|eauto].
  unfold rand_bind at 1.
  destruct (slot_run draw self base candidates BOTTOM s1)
    as [(bottom & s2 & Eb & _)|(e & Eb & _)]; rewrite Eb; [|eauto].
  unfold rand_bind at 1.
  destruct (slot_run draw self base candidates FOOTWEAR s2)
    as [(footwear & s3 & Ef & _)|(e & Ef & _)]; rewrite Ef; [|eauto].
  exfalso. destruct c; try contradiction.
  - rewrite Hslot in Et. discriminate.
  - rewrite Hslot in Eb. discriminate.
  - rewrite Hslot in Ef. discriminate.
Qed.

Lemma attempts_loop_fails draw self base candidates request remaining s :
  (forall s0, exists e s1,
     OutfitRecommender._generate_single_outfit draw self base candidates
       request s0 = (Raise e, s1)) ->
  exists s',
    OutfitRecommender.attempts_loop draw self base candidates request
      remaining [] s = (Ok [], s').
Proof.
  intros Hraise. revert s. induction remaining as [|k IH]; intros s.
  - exists s. reflexivity.
  - cbn [OutfitRecommender.attempts_loop].
    destruct (Z.of_nat (length (@nil Outfit.t))
              <? RecommendationRequest.num_recommendations request)%Z;
      [|exists s; reflexivity].
    unfold rand_bind at 1, rand_try.
    destruct (Hraise s) as (e & s1 & ->). apply IH.
Qed.

(** X17. For a base product of the catalog and a positive requested count,
    the returned list is empty exactly when the top, the bottom or the
    footwear slot has to be filled from an empty candidate list: an empty
    list is returned, no error is raised. *)
Theorem X17_empty_result fmt2 draw self request base s outfits s' :
  OutfitRecommender.by_id self
    !! RecommendationRequest.base_product_id request = Some base ->
  (0 < RecommendationRequest.num_recommendations request)%Z ->
  OutfitRecommender.generate_recommendations fmt2 draw self request s
  = (Ok outfits, s') ->
  (outfits = [] <->
   exists c, c <> ACCESSORY /\ Product.category base <> c /\
             request_candidates self base request c = []).
Proof.
  intros Hbase Hnum Hrun. split.
  - intros ->.
    assert (Hdec : forall c,
              (Product.category base <> c /\
               request_candidates self base request c = []) \/
              (Product.category base <> c ->
               request_candidates self base request c <> [])).
    { intros c. destruct (decide (Product.category base = c)) as [E|E].
      - right. intros H. contradiction.
      - destruct (request_candidates self base request c) eqn:Ec.
        + left. auto.
        + right. intros _. discriminate. }
    destruct (Hdec TOP) as [[H1 H2]|Ht];
      [exists TOP; split_and!; auto; discriminate|].
    destruct (Hdec BOTTOM) as [[H1 H2]|Hb];
      [exists BOTTOM; split_and!; auto; discriminate|].
    destruct (Hdec FOOTWEAR) as [[H1 H2]|Hf];
      [exists FOOTWEAR; split_and!; auto; discriminate|].
    exfalso.
    destruct (generate_recommendations_nonempty fmt2 draw self request base s
                Hbase Hnum) as (outfits & s1 & Hrun' & Hne).
    { intros c Hc. destruct c; try contradiction; auto. }
    rewrite Hrun in Hrun'. injection Hrun' as <- _. contradiction.
  - intros (c & Hacc & Hcat & Hnil).
    revert Hrun. unfold OutfitRecommender.generate_recommendations.
    rewrite Hbase. fold (request_candidates self base request).
    unfold rand_bind at 1.
    destruct (attempts_loop_fails draw self base
                (request_candidates self base request) request 100 s)
      as (s1 & ->).
    { intros s0. apply (generate_single_outfit_raises _ _ _ _ _ c); auto. }
    unfold rand_bind, rand_lift.
    cbn [OutfitRecommender.score_loop sort_desc fold_right rand_ret].
    intros [= <- _]. unfold slice_to.
    destruct (_ <? 0)%Z; apply firstn_nil.
Qed.

(** ** Draws of a call *)

Lemma select_item_draws draw self candidates base s r s' :
  OutfitRecommender._select_item draw self candidates base s = (r, s') ->
  (s <= s' <= S s)%nat.
Proof.
  destruct candidates as [|c0 cs].
  - intros [= _ <-]. lia.
  - destruct (select_item_ok draw self (c0 :: cs) base s)
      as (p & -> & _); [discriminate|].
    intros [= _ <-]. lia.
Qed.

Lemma accessory_loop_draws draw self candidates base n accessories s r s' :
  OutfitRecommender.accessory_loop draw self candidates base n accessories s
  = (r, s') ->
  (s <= s' <= s + n)%nat.
Proof.
  revert accessories s. induction n as [|n IH]; intros accessories s.
  - intros [= _ <-]. lia.
  - cbn [OutfitRecommender.accessory_loop].
    destruct candidates as [|c0 cs] eqn:Ec.
    + intros H. apply IH in H. lia.
    + unfold rand_bind at 1.
      destruct (select_item_ok draw self (c0 :: cs) base s)
        as (p & -> & _); [discriminate|].
      destruct (negb _); intros H; apply IH in H; lia.
Qed.

Lemma slot_draws draw self base (candidates : Category -> list Product.t)
    c s r s' :
  (if bool_decide (Product.category base = c) then rand_ret base
   else OutfitRecommender._select_item draw self (candidates c) base) s
  = (r, s') ->
  (s <= s' <= S s)%nat.
Proof.
  destruct (bool_decide _).
  - intros [= _ <-]. lia.
  - apply select_item_draws.
Qed.

Lemma generate_single_outfit_draws draw self base candidates request s r s' :
  OutfitRecommender._generate_single_outfit draw self base candidates request s
  = (r, s') ->
  (s <= s' <= s + 7)%nat.
Proof.
  unfold OutfitRecommender._generate_single_outfit.
  unfold rand_bind at 1.
  destruct ((if bool_decide (Product.category base = TOP)
             then rand_ret base
             else OutfitRecommender._select_item draw self (candidates TOP)
                    base) s)
    as [[top|e] s1] eqn:Et; apply slot_draws in Et;
    [|intros [= _ <-]; lia].
  unfold rand_bind at 1.
  destruct ((if bool_decide (Product.category base = BOTTOM)
             then rand_ret base
             else OutfitRecommender._select_item draw self
                    (candidates BOTTOM) base) s1)
    as [[bottom|e] s2] eqn:Eb; apply slot_draws in Eb;
    [|intros [= _ <-]; lia].
  unfold rand_bind at 1.
  destruct ((if bool_decide (Product.category base = FOOTWEAR)
             then rand_ret base
             else OutfitRecommender._select_item draw self
                    (candidates FOOTWEAR) base) s2)
    as [[footwear|e] s3] eqn:Ef; apply slot_draws in Ef;
    [|intros [= _ <-]; lia].
  unfold rand_bind at 1.
  destruct (randint_1_3 draw s3) as (n & -> & Hn).
  unfold rand_bind at 1.
  destruct (accessory_loop_spec draw self (candidates ACCESSORY) base n []
              (S s3))
    as (accs & ext & s4 & Hrun & Happ & _ & _ & _ & Hne & _).
  pose proof (accessory_loop_draws _ _ _ _ _ _ _ _ _ Hrun) as Hs4.
  rewrite Hrun. cbn [app] in Happ. subst ext.
  unfold rand_bind at 1.
  destruct accs as [|a accs].
  - destruct (candidates ACCESSORY) as [|c0 cs] eqn:Ec.
    + cbn [rand_ret]. intros [= _ <-]. lia.
    + exfalso. apply Hne; [discriminate|lia|reflexivity].
  - cbn [rand_ret]. intros [= _ <-]. lia.
Qed.

Lemma attempts_loop_draws draw self base candidates request remaining
    outfits s r s' :
  OutfitRecommender.attempts_loop draw self base candidates request
    remaining outfits s = (r, s') ->
  (s <= s' <= s + 7 * remaining)%nat.
Proof.
  revert outfits s. induction remaining as [|k IH]; intros outfits s.
  - intros [= _ <-]. lia.
  - cbn [OutfitRecommender.attempts_loop].
    destruct (_ <? _)%Z; [|intros [= _ <-]; lia].
    unfold rand_bind at 1, rand_try.
    destruct (OutfitRecommender._generate_single_outfit draw self base
                candidates request s) as [[o|e] s1] eqn:Egen;
      apply generate_single_outfit_draws in Egen.
    + destruct (negb _); intros H; apply IH in H; lia.
    + intros H; apply IH in H; lia.
Qed.

(** X18. A call of [generate_recommendations] draws at most 700 times from
    the random source, at most 7 times in each of its at most 100
    attempts, whatever its outcome. *)
Theorem X18_draws fmt2 draw self request s r s' :
  OutfitRecommender.generate_recommendations fmt2 draw self request s
  = (r, s') ->
  (s <= s' <= s + 700)%nat.
Proof.
  unfold OutfitRecommender.generate_recommendations.
  destruct (OutfitRecommender.by_id self
              !! RecommendationRequest.base_product_id request) as [base|].
  - unfold rand_bind at 1.
    destruct (OutfitRecommender.attempts_loop _ _ _ _ _ _ _ s)
      as [[l|e] s1] eqn:Eloop; apply attempts_loop_draws in Eloop.
    + unfold rand_bind, rand_lift.
      destruct (OutfitRecommender.score_loop _ _ _ _);
        intros [= _ <-]; lia.
    + intros [= _ <-]. lia.
  - intros [= _ <-]. lia.
Qed.

(** ** What a call can return *)

Lemma choice_at {A} (l : list A) (x : A) (s : nat) :
  In x l ->
  exists i, OutfitRecommender.choice (fun _ => i) l s = (Ok x, S s).
Proof.
  intros Hin. destruct l as [|y l]; [destruct Hin|].
  destruct (In_nth _ _ y Hin) as (i & Hi & Hnth).
  exists i. unfold OutfitRecommender.choice.
  rewrite Nat.mod_small by exact Hi. rewrite Hnth. reflexivity.
Qed.

(** X19. Every one of the top candidates of [_select_item] is returned for
    some draw; when every candidate has the base product's identifier,
    every candidate is. *)
Theorem X19_select_item_reaches self candidates base s p :
  let scored := OutfitRecommender.score_candidates self candidates base in
  let top := firstn (Nat.max 3 (length scored / 3)) (sort_desc fst scored) in
  In p (map snd top) \/ (scored = [] /\ In p candidates) ->
  exists draw,
    OutfitRecommender._select_item draw self candidates base s = (Ok p, S s).
Proof.
  intros scored top Hin.
  assert (Hlen : length (sort_desc fst scored) = length scored)
    by apply sort_desc_length.
  unfold OutfitRecommender._select_item.
  destruct candidates as [|c0 cs].
  { exfalso. destruct Hin as [Hin|[_ Hin]]; destruct Hin. }
  fold scored. rewrite Hlen. fold top.
  destruct Hin as [Hin|[E Hin]].
  - apply in_map_iff in Hin as ([sc q] & Hq & Hin). cbn [snd] in Hq.
    subst q.
    destruct (choice_at top (sc, p) s Hin) as (i & Hrun).
    exists (fun _ => i).
    destruct top as [|t ts]; [destruct Hin|].
    unfold rand_bind. rewrite Hrun. reflexivity.
  - assert (Htop : top = []).
    { unfold top. rewrite E. cbn [sort_desc fold_right]. apply firstn_nil. }
    rewrite Htop.
    destruct (choice_at (c0 :: cs) p s Hin) as (i & Hrun).
    exists (fun _ => i). exact Hrun.
Qed.

Lemma slot_ok_choices base candidates c p :
  slot_ok base candidates c p <-> In p (slot_choices base candidates c).
Proof.
  unfold slot_ok, slot_choices.
  destruct (bool_decide (Product.category base = c)); [|reflexivity].
  cbn [In]. split; [auto|]. intros [E|[]]. auto.
Qed.

(** X20. A call returns at most as many outfits as there are combinations
    of a top, a bottom and a footwear item to choose from, the base
    product being the only choice for its own slot. *)
Theorem X20_count_bound fmt2 draw self request base s outfits s' :
  OutfitRecommender.by_id self
    !! RecommendationRequest.base_product_id request = Some base ->
  OutfitRecommender.generate_recommendations fmt2 draw self request s
  = (Ok outfits, s') ->
  let choices := slot_choices base (request_candidates self base request) in
  (length outfits
   <= length (choices TOP) * length (choices BOTTOM)
      * length (choices FOOTWEAR))%nat.
Proof.
  intros Hbase Hrun choices.
  apply generate_recommendations_Ok in Hrun
    as (base' & collected & scored & Hbase' & -> & Hgen & Hnd & Hsc).
  rewrite Hbase in Hbase'. injection Hbase' as <-.
  destruct (slice_to_firstn (sort_desc Outfit.match_score scored)
              (RecommendationRequest.num_recommendations request))
    as (k & -> & _).
  rewrite length_firstn, sort_desc_length.
  rewrite <- (Forall2_length _ _ _ Hsc).
  set (cores := list_prod (list_prod (ids (choices TOP))
                                     (ids (choices BOTTOM)))
                          (ids (choices FOOTWEAR))).
  assert (Hincl : incl (map core collected) cores).
  { intros t Ht. apply in_map_iff in Ht as (o & <- & Ho).
    rewrite List.Forall_forall in Hgen. apply Hgen in Ho.
    destruct Ho as (Ht & Hb & Hf & _).
    apply slot_ok_choices in Ht, Hb, Hf.
    unfold core, cores. repeat apply in_prod; apply in_map; assumption. }
  apply (List.NoDup_incl_length Hnd) in Hincl.
  unfold cores, ids in Hincl.
  rewrite !length_prod, !length_map in Hincl. lia.
Qed.

(** ** The cache of recommendations *)

Lemma dict_get_set_same {V} (k : string) (v : V) d :
  dict_get k (dict_set k v d) = Some v.
Proof.
  induction d as [|[k' v'] d IH]; cbn [dict_set dict_get].
  - rewrite String.eqb_refl. reflexivity.
  - destruct (String.eqb k' k) eqn:E; cbn [dict_get]; rewrite E; auto.
Qed.

Lemma dict_get_set_other {V} (k k' : string) (v : V) d :
  k' <> k -> dict_get k' (dict_set k v d) = dict_get k' d.
Proof.
  intros Hne. induction d as [|[k0 v0] d IH]; cbn [dict_set dict_get].
  - destruct (String.eqb k k') eqn:E; [|reflexivity].
    apply String.eqb_eq in E. congruence.
  - destruct (String.eqb k0 k) eqn:E; cbn [dict_get].
    + apply String.eqb_eq in E. subst k0.
      destruct (String.eqb k k') eqn:E'; [|reflexivity].
      apply String.eqb_eq in E'. congruence.
    + rewrite IH. reflexivity.
Qed.

Lemma dict_get_None {V} (k : string) (d : list (string * V)) :
  dict_get k d = None <-> ~ In k (dict_keys d).
Proof.
  unfold dict_keys. induction d as [|[k0 v0] d IH]; cbn [dict_get map fst In].
  - tauto.
  - destruct (String.eqb k0 k) eqn:E.
    + apply String.eqb_eq in E. split; [discriminate|tauto].
    + apply String.eqb_neq in E. tauto.
Qed.

Lemma dict_keys_set {V} (k : string) (v : V) d :
  dict_keys (dict_set k v d)
  = match dict_get k d with
    | Some _ => dict_keys d
    | None => (dict_keys d ++ [k])%list
    end.
Proof.
  unfold dict_keys.
  induction d as [|[k0 v0] d IH]; cbn [dict_set dict_get map fst app].
  - reflexivity.
  - destruct (String.eqb k0 k) eqn:E; cbn [map fst]; [reflexivity|].
    rewrite IH. destruct (dict_get k d); reflexivity.
Qed.

Lemma dict_set_NoDup {V} (k : string) (v : V) d :
  List.NoDup (dict_keys d) -> List.NoDup (dict_keys (dict_set k v d)).
Proof.
  intros Hnd. rewrite dict_keys_set.
  destruct (dict_get k d) eqn:E; [exact Hnd|].
  apply dict_get_None in E.
  apply List.NoDup_app; [exact Hnd|repeat constructor; intros []|].
  intros x Hx [<-|[]]. contradiction.
Qed.

Lemma dict_set_length {V} (k : string) (v : V) d :
  length (dict_set k v d)
  = match dict_get k d with
    | Some _ => length d
    | None => S (length d)
    end.
Proof.
  pose proof (f_equal (@length _) (dict_keys_set k v d)) as H.
  unfold dict_keys in H at 1. rewrite length_map in H. rewrite H.
  destruct (dict_get k d); unfold dict_keys;
    rewrite ?length_app, length_map; cbn [length]; lia.
Qed.

Lemma dict_del_head {V} (k : string) (v : V) d :
  List.NoDup (dict_keys ((k, v) :: d)) -> dict_del k ((k, v) :: d) = d.
Proof.
  unfold dict_keys, dict_del. cbn [map fst List.filter].
  rewrite String.eqb_refl. cbn [negb]. intros Hnd.
  apply List.NoDup_cons_iff in Hnd as [Hk _].
  induction d as [|[k0 v0] d IH]; [reflexivity|].
  cbn [List.filter fst map In] in *.
  destruct (String.eqb k0 k) eqn:E.
  - apply String.eqb_eq in E. tauto.
  - cbn [negb]. rewrite IH by tauto. reflexivity.
Qed.

Lemma dict_del_sub {V} (k : string) (d : list (string * V)) :
  (length (dict_del k d) <= length d)%nat /\
  (List.NoDup (dict_keys d) -> List.NoDup (dict_keys (dict_del k d))) /\
  (In k (dict_keys d) -> (length (dict_del k d) < length d)%nat).
Proof.
  unfold dict_del, dict_keys.
  induction d as [|[k0 v0] d (IH1 & IH2 & IH3)]; cbn [List.filter map fst].
  - split_and!; auto. intros [].
  - destruct (String.eqb k0 k) eqn:E; cbn [negb length map fst].
    + split_and!; [lia| |lia].
      intros Hnd. apply List.NoDup_cons_iff in Hnd as [_ Hnd]. auto.
    + apply String.eqb_neq in E. split_and!; [lia| |].
      * intros Hnd. apply List.NoDup_cons_iff in Hnd as [Hk Hnd].
        constructor; [|auto].
        intros Hin. apply Hk. apply in_map_iff in Hin as (x & Hx & Hin).
        apply filter_In in Hin as [Hin _]. apply in_map_iff. eauto.
      * cbn [In]. intros [H|H]; [contradiction|]. apply IH3 in H. lia.
Qed.

(** The cache that [set] writes to, after the eviction. *)
Lemma set_entries {D} (to_dict : Outfit.t -> D)
    (_cache_key : RecommendationRequest.t -> string)
    (self : RecommendationCache.t D) request outfits :
  exists kept,
    RecommendationCache.cache
      (RecommendationCache.set to_dict _cache_key self request outfits)
    = dict_set (_cache_key request) (map to_dict outfits) kept /\
    (length kept <= length (RecommendationCache.cache self))%nat /\
    (List.NoDup (dict_keys (RecommendationCache.cache self)) ->
     List.NoDup (dict_keys kept)) /\
    ((RecommendationCache.max_size self
      <= Z.of_nat (length (RecommendationCache.cache self)))%Z ->
     RecommendationCache.cache self <> [] ->
     (length kept < length (RecommendationCache.cache self))%nat).
Proof.
  unfold RecommendationCache.set.
  cbn [RecommendationCache.cache RecommendationCache.max_size].
  destruct (RecommendationCache.max_size self
            <=? Z.of_nat (length (RecommendationCache.cache self)))%Z
    eqn:E.
  - destruct (RecommendationCache.cache self) as [|[k0 v0] d] eqn:Ed.
    + exists []. split_and!; auto. intros _ H. contradiction.
    + destruct (dict_del_sub k0 ((k0, v0) :: d)) as (H1 & H2 & H3).
      eexists. split; [reflexivity|]. split_and!; auto.
      intros _ _. apply H3. left. reflexivity.
  - apply Z.leb_gt in E. eexists. split; [reflexivity|].
    split_and!; auto. lia.
Qed.

(** X21. Right after [set] has stored the outfits of a request, [get]
    returns their dictionaries for this request, whatever the cache held
    and whatever its capacity. *)
Theorem X21_get_after_set {D} (to_dict : Outfit.t -> D)
    (_cache_key : RecommendationRequest.t -> string)
    (self : RecommendationCache.t D) request outfits :
  RecommendationCache.get _cache_key
    (RecommendationCache.set to_dict _cache_key self request outfits) request
  = Some (map to_dict outfits).
Proof.
  destruct (set_entries to_dict _cache_key self request outfits)
    as (kept & E & _).
  unfold RecommendationCache.get. rewrite E. apply dict_get_set_same.
Qed.

(** X22. After any sequence of [set] and [clear] calls on a new cache, the
    cache holds at most [max_size] entries, at most one when [max_size] is
    below one, and no key twice. *)
Theorem X22_cache_bound {D} (to_dict : Outfit.t -> D)
    (_cache_key : RecommendationRequest.t -> string) (size : Z)
    (calls : list RecommendationCache.call) :
  let self :=
    RecommendationCache.after to_dict _cache_key
      (RecommendationCache.init size) calls in
  (Z.of_nat (length (RecommendationCache.cache self)) <= Z.max 1 size)%Z /\
  List.NoDup (dict_keys (RecommendationCache.cache self)) /\
  RecommendationCache.max_size self = size.
Proof.
  cbv zeta. unfold RecommendationCache.after.
  set (inv := fun c : RecommendationCache.t D =>
         (Z.of_nat (length (RecommendationCache.cache c))
          <= Z.max 1 size)%Z /\
         List.NoDup (dict_keys (RecommendationCache.cache c)) /\
         RecommendationCache.max_size c = size).
  assert (Hinit : inv (RecommendationCache.init size)).
  { unfold inv. cbn. split_and!; [lia|constructor|reflexivity]. }
  revert Hinit. generalize (@RecommendationCache.init D size).
  induction calls as [|op calls IH]; intros c Hc; [exact Hc|].
  cbn [fold_left]. apply IH. clear IH.
  destruct Hc as (Hlen & Hnd & Hsize).
  destruct op as [request outfits|].
  - destruct (set_entries to_dict _cache_key c request outfits)
      as (kept & E & Hk & Hknd & Hfull).
    unfold inv. rewrite E. split_and!.
    + rewrite dict_set_length. destruct (dict_get _ kept); [lia|].
      destruct (Z_lt_le_dec
                  (Z.of_nat (length (RecommendationCache.cache c)))
                  (RecommendationCache.max_size c))
        as [Hlt|Hge]; [lia|].
      destruct (RecommendationCache.cache c) as [|e d] eqn:Ed.
      * cbn [length] in Hk. assert (length kept = 0%nat) by lia. lia.
      * assert (length kept < length (e :: d))%nat
          by (apply Hfull; [exact Hge|discriminate]). lia.
    + apply dict_set_NoDup. auto.
    + exact Hsize.
  - unfold inv. cbn. split_and!; [lia|constructor|exact Hsize].
Qed.

(** X23. [set] evicts the oldest entry exactly when the cache is full, even
    when the key it stores is already in the cache, and leaves every other
    entry as it was: in a cache with unique keys, a request with another
    key than the stored one is answered as before, except that the oldest
    key is no longer found when the cache was full. *)
Theorem X23_set_evicts_oldest {D} (to_dict : Outfit.t -> D)
    (_cache_key : RecommendationRequest.t -> string)
    (self : RecommendationCache.t D) request outfits other :
  List.NoDup (dict_keys (RecommendationCache.cache self)) ->
  _cache_key other <> _cache_key request ->
  let full :=
    (RecommendationCache.max_size self
     <=? Z.of_nat (length (RecommendationCache.cache self)))%Z in
  RecommendationCache.get _cache_key
    (RecommendationCache.set to_dict _cache_key self request outfits) other
  = if full
       && bool_decide
            (hd_error (dict_keys (RecommendationCache.cache self))
             = Some (_cache_key other))
    then None
    else RecommendationCache.get _cache_key self other.
Proof.
  intros Hnd Hne full.
  unfold RecommendationCache.get, RecommendationCache.set.
  cbn [RecommendationCache.cache RecommendationCache.max_size].
  rewrite dict_get_set_other by exact Hne.
  fold full. destruct full; cbn [andb]; [|reflexivity].
  destruct (RecommendationCache.cache self) as [|[k0 v0] d] eqn:Ed;
    [reflexivity|].
  rewrite dict_del_head by exact Hnd.
  cbn [dict_keys map fst hd_error dict_get].
  destruct (String.eqb k0 (_cache_key other)) eqn:E.
  - apply String.eqb_eq in E. subst k0.
    rewrite bool_decide_eq_true_2 by reflexivity.
    unfold dict_keys in Hnd. cbn [map fst] in Hnd.
    apply List.NoDup_cons_iff in Hnd as [Hk _].
    clear -Hk. induction d as [|[k1 v1] d IH]; [reflexivity|].
    cbn [dict_get map fst In] in *.
    destruct (String.eqb k1 (_cache_key other)) eqn:E1.
    + apply String.eqb_eq in E1. tauto.
    + apply IH. tauto.
  - apply String.eqb_neq in E.
    rewrite bool_decide_eq_false_2 by congruence. reflexivity.
Qed.

(** ** The endpoints *)

Lemma Category_value_inj c1 c2 :
  Category_value c1 = Category_value c2 -> c1 = c2.
Proof. destruct c1, c2; cbn; intros H; try reflexivity; discriminate H. Qed.

Lemma Style_value_inj s1 s2 : Style_value s1 = Style_value s2 -> s1 = s2.
Proof. destruct s1, s2; cbn; intros H; try reflexivity; discriminate H. Qed.

Lemma Season_value_inj s1 s2 : Season_value s1 = Season_value s2 -> s1 = s2.
Proof. destruct s1, s2; cbn; intros H; try reflexivity; discriminate H. Qed.

Lemma Occasion_value_inj o1 o2 :
  Occasion_value o1 = Occasion_value o2 -> o1 = o2.
Proof. destruct o1, o2; cbn; intros H; try reflexivity; discriminate H. Qed.

Lemma map_inj {A B} (f : A -> B) (l1 l2 : list A) :
  (forall x y, f x = f y -> x = y) -> map f l1 = map f l2 -> l1 = l2.
Proof.
  intros Hf. revert l2. induction l1 as [|x l1 IH]; intros [|y l2] H;
    try discriminate; [reflexivity|].
  cbn [map] in H. injection H as Hxy H. f_equal; auto.
Qed.

(** X28. [Product.to_dict] loses nothing: two products with the same
    dictionary are the same product. *)
Theorem X28_to_dict_injective (p q : Product.t) :
  Product_to_dict p = Product_to_dict q -> p = q.
Proof.
  destruct p as [i1 n1 c1 s1 [r1 g1 b1] p1 se1 o1 br1 d1],
           q as [i2 n2 c2 s2 [r2 g2 b2] p2 se2 o2 br2 d2].
  unfold Product_to_dict. cbn. intros H.
  injection H as -> -> Hc Hs -> -> -> -> Hse Ho -> ->.
  apply Category_value_inj in Hc. apply Style_value_inj in Hs.
  apply Season_value_inj in Hse.
  apply (map_inj _ _ _ Occasion_value_inj) in Ho.
  congruence.
Qed.

Lemma find_id_None products k :
  find (fun p => String.eqb (Product.id p) k) products = None
  <-> ~ In k (ids products).
Proof.
  unfold ids. induction products as [|x l IH]; cbn [find map In]; [tauto|].
  destruct (String.eqb (Product.id x) k) eqn:E.
  - apply String.eqb_eq in E. split; [discriminate|tauto].
  - apply String.eqb_neq in E. tauto.
Qed.

Lemma find_id_first l1 p l2 :
  ~ In (Product.id p) (ids l1) ->
  find (fun x => String.eqb (Product.id x) (Product.id p))
       (l1 ++ p :: l2)%list = Some p.
Proof.
  unfold ids. induction l1 as [|x l1 IH]; cbn [find map In app]; intros H.
  - rewrite String.eqb_refl. reflexivity.
  - destruct (String.eqb (Product.id x) (Product.id p)) eqn:E.
    + apply String.eqb_eq in E. tauto.
    + apply IH. tauto.
Qed.

(** X27. [get_product] answers 404 "Product not found" exactly for an
    identifier that no product of the catalog has, and otherwise returns
    the first product of the catalog with this identifier.  With unique
    identifiers this is the product that the recommender finds under the
    identifier. *)
Theorem X27_get_product {PR} (ProductResponse : ProductDict.t -> PR)
    (products : list Product.t) (recommender : OutfitRecommender.t)
    (product_id : string) :
  OutfitRecommender.init products = Ok recommender ->
  (Main.get_product PR ProductResponse products product_id
   = Fail (HTTPException 404 "Product not found")
   <-> ~ In product_id (ids products)) /\
  (forall l1 p l2,
     products = (l1 ++ p :: l2)%list -> Product.id p = product_id ->
     ~ In product_id (ids l1) ->
     Main.get_product PR ProductResponse products product_id
     = Return (ProductResponse (Product_to_dict p))) /\
  (List.NoDup (ids products) ->
   forall p, OutfitRecommender.by_id recommender !! product_id = Some p ->
     Main.get_product PR ProductResponse products product_id
     = Return (ProductResponse (Product_to_dict p))).
Proof.
  intros Hinit.
  assert (Hfirst : forall l1 p l2,
     products = (l1 ++ p :: l2)%list -> Product.id p = product_id ->
     ~ In product_id (ids l1) ->
     Main.get_product PR ProductResponse products product_id
     = Return (ProductResponse (Product_to_dict p))).
  { intros l1 p l2 -> <- Hl1. unfold Main.get_product.
    rewrite find_id_first by exact Hl1. reflexivity. }
  split_and!.
  - unfold Main.get_product.
    destruct (find _ products) as [p|] eqn:E.
    + split; [discriminate|]. intros H. apply find_id_None in H. congruence.
    + split; [|reflexivity]. intros _. apply find_id_None. exact E.
  - exact Hfirst.
  - intros Hnd p Hp.
    destruct (by_id_lookup products recommender product_id Hinit)
      as [_ Hsome].
    destruct (Hsome p Hp) as [Hin Hid].
    apply in_split in Hin as (l1 & l2 & Hsplit).
    apply (Hfirst l1 p l2 Hsplit Hid).
    rewrite Hsplit in Hnd. unfold ids in Hnd. rewrite map_app in Hnd.
    cbn [map] in Hnd. apply List.NoDup_remove_2 in Hnd.
    intros H. apply Hnd. apply in_or_app. left. rewrite Hid. exact H.
Qed.

Lemma by_value_spec repr {A} (members : list A) (value : A -> string)
    (class : string) (s : string) :
  (forall x y, value x = value y -> x = y) ->
  (forall m, In m members) ->
  (forall m, Main.by_value repr members value class s = Ok m
             <-> s = value m) /\
  ((forall m, s <> value m) ->
   Main.by_value repr members value class s
   = Raise (ValueError (repr s ++ " is not a valid " ++ class))).
Proof.
  intros Hinj Hall. unfold Main.by_value.
  destruct (find (fun m => String.eqb (value m) s) members) as [m0|] eqn:E.
  - apply find_some in E as [_ E]. apply String.eqb_eq in E. split.
    + intros m. split.
      * intros [= <-]. auto.
      * intros ->. apply Hinj in E. congruence.
    + intros H. exfalso. apply (H m0). auto.
  - split.
    + intros m. split; [discriminate|]. intros ->. exfalso.
      pose proof (find_none _ _ E m (Hall m)) as H. cbn in H.
      rewrite String.eqb_refl in H. discriminate.
    + reflexivity.
Qed.

Lemma optional_member_spec repr {A} (members : list A) (value : A -> string)
    (class : string) (field : option string) (m : option A) :
  (forall x y, value x = value y -> x = y) ->
  (forall x, In x members) ->
  (forall x, value x <> "") ->
  Main.optional_member repr members value class field = Ok m
  <-> parses value field m.
Proof.
  intros Hinj Hall Hne. unfold Main.optional_member, parses.
  destruct field as [s|].
  - destruct (String.eqb s "") eqn:E.
    + apply String.eqb_eq in E. subst s. split.
      * intros [= <-]. auto.
      * destruct m as [x|]; [|reflexivity].
        intros [= H]. exfalso. apply (Hne x). auto.
    + apply String.eqb_neq in E.
      destruct (by_value_spec repr members value class s Hinj Hall)
        as [Hok _].
      destruct (Main.by_value repr members value class s) as [m0|e] eqn:Eb;
        cbn [exc_bind].
      * pose proof (proj1 (Hok m0) eq_refl) as Hs. subst s. split.
        -- intros [= <-]. reflexivity.
        -- destruct m as [x|].
           ++ intros [= H]. apply Hinj in H. congruence.
           ++ intros [H|[= H]]; [discriminate|]. congruence.
      * split; [discriminate|].
        destruct m as [x|].
        -- intros [= ->].
           pose proof (proj2 (Hok x) eq_refl) as H. discriminate H.
        -- intros [H|[= H]]; [discriminate|]. congruence.
  - split.
    + intros [= <-]. auto.
    + destruct m as [x|]; [discriminate|reflexivity].
Qed.

Lemma Occasion_members_all o : In o Occasion_members.
Proof. destruct o; cbn; tauto. Qed.

Lemma Season_members_all s : In s Season_members.
Proof. destruct s; cbn; tauto. Qed.

Lemma Style_members_all s : In s Style_members.
Proof. destruct s; cbn; tauto. Qed.

(** X26. [get_recommendations] builds its request from the request model
    exactly when each of the occasion, season and style fields is absent,
    empty or the value of a member of its enumeration; the request then
    has that member, or none for an absent or empty field, and the other
    fields unchanged.  A field with any other text raises "... is not a
    valid ...", the first such field in the order occasion, season, style
    deciding. *)
Theorem X26_cache_request (repr : string -> string)
    (request : RecommendationRequestModel.t) :
  (forall cr, Main.cache_request repr request = Ok cr <->
     RecommendationRequest.base_product_id cr
     = RecommendationRequestModel.base_product_id request /\
     parses Occasion_value (RecommendationRequestModel.occasion request)
            (RecommendationRequest.occasion cr) /\
     parses Season_value (RecommendationRequestModel.season request)
            (RecommendationRequest.season cr) /\
     RecommendationRequest.max_budget cr
     = RecommendationRequestModel.max_budget request /\
     parses Style_value (RecommendationRequestModel.style_preference request)
            (RecommendationRequest.style_preference cr) /\
     RecommendationRequest.num_recommendations cr
     = RecommendationRequestModel.num_recommendations request) /\
  (forall s, RecommendationRequestModel.occasion request = Some s ->
     s <> "" -> (forall o, s <> Occasion_value o) ->
     Main.cache_request repr request
     = Raise (ValueError (repr s ++ " is not a valid Occasion"))).
Proof.
  assert (HO := fun f m => optional_member_spec repr Occasion_members
                    Occasion_value "Occasion" f m Occasion_value_inj
                    Occasion_members_all
                    ltac:(intros []; discriminate)).
  assert (HS := fun f m => optional_member_spec repr Season_members
                    Season_value "Season" f m Season_value_inj
                    Season_members_all
                    ltac:(intros []; discriminate)).
  assert (HT := fun f m => optional_member_spec repr Style_members
                    Style_value "Style" f m Style_value_inj
                    Style_members_all
                    ltac:(intros []; discriminate)).
  split.
  - intros [i o se b st n]. unfold Main.cache_request.
    cbn [RecommendationRequest.base_product_id RecommendationRequest.occasion
         RecommendationRequest.season RecommendationRequest.max_budget
         RecommendationRequest.style_preference
         RecommendationRequest.num_recommendations].
    rewrite <- HO, <- HS, <- HT.
    destruct (Main.optional_member repr Occasion_members _ _ _) as [o'|e1];
      cbn [exc_bind];
      [|split; [discriminate|intros (_ & H & _); discriminate]].
    destruct (Main.optional_member repr Season_members _ _ _) as [se'|e2];
      cbn [exc_bind];
      [|split; [discriminate|intros (_ & _ & H & _); discriminate]].
    destruct (Main.optional_member repr Style_members _ _ _) as [st'|e3];
      cbn [exc_bind];
      [|split; [discriminate|intros (_ & _ & _ & _ & H & _); discriminate]].
    split.
    + intros [= <- <- <- <- <- <-]. auto 10.
    + intros (-> & [= ->] & [= ->] & -> & [= ->] & ->). reflexivity.
  - intros s Hs Hne Hno. unfold Main.cache_request. rewrite Hs.
    unfold Main.optional_member at 1.
    apply String.eqb_neq in Hne. rewrite Hne.
    destruct (by_value_spec repr Occasion_members Occasion_value "Occasion"
                s Occasion_value_inj Occasion_members_all) as [_ Hraise].
    rewrite (Hraise Hno). reflexivity.
Qed.

(** ** The recommendation endpoint *)

Lemma get_set_same {D} (to_dict : Outfit.t -> D)
    (_cache_key : RecommendationRequest.t -> string)
    (self : RecommendationCache.t D) request outfits :
  RecommendationCache.get _cache_key
    (RecommendationCache.set to_dict _cache_key self request outfits) request
  = Some (map to_dict outfits).
Proof.
  unfold RecommendationCache.get, RecommendationCache.set.
  cbn [RecommendationCache.cache]. apply dict_get_set_same.
Qed.

(** X24. When [get_recommendations] has returned a non-empty response for
    a request, the same request is answered from the cache afterwards: the
    response is the same, the cache is not changed and nothing is drawn. *)
Theorem X24_repeat_request {D R} (to_dict : Outfit.t -> D)
    (OutfitResponse : D -> R)
    (_cache_key : RecommendationRequest.t -> string)
    (repr : string -> string) (str : PyError -> string)
    (fmt2 : Q -> string) (draw : nat -> nat)
    (recommender : OutfitRecommender.t) (cache : RecommendationCache.t D)
    (request : RecommendationRequestModel.t) (s : nat)
    (response : list R) (cache' : RecommendationCache.t D) (s' s2 : nat) :
  Main.get_recommendations D R to_dict OutfitResponse _cache_key repr str
    fmt2 draw recommender cache request s
  = (Return response, cache', s') ->
  response <> [] ->
  Main.get_recommendations D R to_dict OutfitResponse _cache_key repr str
    fmt2 draw recommender cache' request s2
  = (Return response, cache', s2).
Proof.
  unfold Main.get_recommendations.
  destruct (Main.cache_request repr request) as [cr|e]; [|discriminate].
  destruct (RecommendationCache.get _cache_key cache cr) as [[|d ds]|] eqn:Eg.
  - destruct (OutfitRecommender.generate_recommendations fmt2 draw recommender
                cr s) as [[outfits|[msg| |]] s1]; try discriminate.
    intros [= <- <- <-] Hne. rewrite get_set_same.
    destruct (map to_dict outfits) as [|d ds]; [contradiction|reflexivity].
  - intros [= <- <- <-] _. rewrite Eg. reflexivity.
  - destruct (OutfitRecommender.generate_recommendations fmt2 draw recommender
                cr s) as [[outfits|[msg| |]] s1]; try discriminate.
    intros [= <- <- <-] Hne. rewrite get_set_same.
    destruct (map to_dict outfits) as [|d ds]; [contradiction|reflexivity].
Qed.

(** X25. The errors of [get_recommendations] on the recommender of a
    catalog.  An [HTTPException] has status 400 and detail "Product ... not
    found", for a base product identifier that is not in the catalog; the
    status is never 500.  Any other exception is the [ValueError] of an
    invalid occasion, season or style, which the endpoint does not catch.
    A failing call leaves the cache as it was and draws nothing.  A valid
    request for a product of the catalog gets a response, and one for an
    unknown product gets the status 400 unless a non-empty response is
    cached for it. *)
Theorem X25_endpoint_errors {D R} (to_dict : Outfit.t -> D)
    (OutfitResponse : D -> R)
    (_cache_key : RecommendationRequest.t -> string)
    (repr : string -> string) (str : PyError -> string)
    (fmt2 : Q -> string) (draw : nat -> nat)
    (products : list Product.t)
    (recommender : OutfitRecommender.t) (cache : RecommendationCache.t D)
    (request : RecommendationRequestModel.t) (s : nat) :
  OutfitRecommender.init products = Ok recommender ->
  let out :=
    Main.get_recommendations D R to_dict OutfitResponse _cache_key repr str
      fmt2 draw recommender cache request s in
  let id := RecommendationRequestModel.base_product_id request in
  (forall status detail,
     fst (fst out) = Fail (HTTPException status detail) ->
     status = 400%Z /\ detail = "Product " ++ id ++ " not found" /\
     ~ In id (ids products)) /\
  (forall e, fst (fst out) = Fail (Uncaught e) ->
     Main.cache_request repr request = Raise e /\
     exists msg, e = ValueError msg) /\
  (forall e, fst (fst out) = Fail e -> snd (fst out) = cache /\ snd out = s) /\
  (forall cr, Main.cache_request repr request = Ok cr ->
     (In id (ids products) -> exists response, fst (fst out) = Return response)
     /\
     (~ In id (ids products) ->
      (forall d ds,
         RecommendationCache.get _cache_key cache cr <> Some (d :: ds)) ->
      out = (Fail (HTTPException 400 ("Product " ++ id ++ " not found")),
             cache, s))).
Proof.
  intros Hinit out id.
  assert (Hparse : forall e, Main.cache_request repr request = Raise e ->
                     exists msg, e = ValueError msg).
  { unfold Main.cache_request, Main.optional_member, Main.by_value.
    intros e.
    repeat match goal with
           | |- context [match ?x with _ => _ end] => destruct x
           end; cbn [exc_bind]; intros [= <-]; eauto. }
  assert (Hid : forall cr, Main.cache_request repr request = Ok cr ->
                  RecommendationRequest.base_product_id cr = id).
  { unfold Main.cache_request. intros cr.
    destruct (Main.optional_member repr Occasion_members _ _ _);
      [|discriminate].
    destruct (Main.optional_member repr Season_members _ _ _);
      [|discriminate].
    destruct (Main.optional_member repr Style_members _ _ _);
      [|discriminate].
    cbn [exc_bind]. intros [= <-]. reflexivity. }
  unfold out, Main.get_recommendations.
  destruct (Main.cache_request repr request) as [cr|e0] eqn:Ecr.
  2:{ cbn [fst snd]. split_and!.
      - intros status detail [=].
      - intros e [= <-]. split; [reflexivity|]. apply Hparse. reflexivity.
      - auto.
      - intros cr [=]. }
  specialize (Hid cr eq_refl).
  destruct (by_id_lookup products recommender id Hinit) as [Hnone Hsome].
  assert (Hgen :
    (In id (ids products) ->
     exists outfits s1,
       OutfitRecommender.generate_recommendations fmt2 draw recommender cr s
       = (Ok outfits, s1)) /\
    (~ In id (ids products) ->
     OutfitRecommender.generate_recommendations fmt2 draw recommender cr s
     = (Raise (ValueError ("Product " ++ id ++ " not found")), s))).
  { destruct (OutfitRecommender.by_id recommender !! id) as [base|] eqn:Eb.
    - assert (Hin : In id (ids products)).
      { destruct (Hsome base eq_refl) as [Hp <-]. apply in_map. exact Hp. }
      split; [|tauto]. intros _.
      rewrite <- Hid in Eb.
      destruct (generate_recommendations_found fmt2 draw recommender cr base s
                  Eb) as (collected & scored & s1 & Hrun & _).
      eauto.
    - assert (Hnot : ~ In id (ids products)) by (apply Hnone; reflexivity).
      split; [tauto|]. intros _.
      rewrite <- Hid in Eb.
      rewrite (generate_recommendations_missing fmt2 draw recommender cr s Eb).
      rewrite Hid. reflexivity. }
  destruct Hgen as [Hfound Hmissing].
  assert (Hmiss :
    let gen :=
      match OutfitRecommender.generate_recommendations fmt2 draw recommender
              cr s with
      | (Ok outfits, s') =>
          (Return (map OutfitResponse (map to_dict outfits)),
           RecommendationCache.set to_dict _cache_key cache cr outfits, s')
      | (Raise (ValueError msg), s') =>
          (Fail (HTTPException 400 (Main.str_error str (ValueError msg))),
           cache, s')
      | (Raise e, s') =>
          (Fail (HTTPException 500
                   ("Internal server error: " ++ Main.str_error str e)),
           cache, s')
      end in
    (forall status detail,
       fst (fst gen) = Fail (HTTPException status detail) ->
       status = 400%Z /\ detail = "Product " ++ id ++ " not found" /\
       ~ In id (ids products)) /\
    (forall e, fst (fst gen) <> Fail (Uncaught e)) /\
    (forall e, fst (fst gen) = Fail e -> snd (fst gen) = cache /\ snd gen = s)
    /\
    (In id (ids products) -> exists response, fst (fst gen) = Return response)
    /\
    (~ In id (ids products) ->
     gen = (Fail (HTTPException 400 ("Product " ++ id ++ " not found")),
            cache, s))).
  { intros gen. unfold gen.
    destruct (in_dec string_dec id (ids products)) as [Hin|Hnot].
    - destruct (Hfound Hin) as (outfits & s1 & ->). cbn [fst snd].
      split_and!; try discriminate; eauto. contradiction.
    - rewrite (Hmissing Hnot). cbn [fst snd Main.str_error].
      split_and!; try discriminate; auto.
      + intros status detail [= <- <-]. auto.
      + contradiction. }
  destruct (RecommendationCache.get _cache_key cache cr) as [[|d ds]|] eqn:Eg.
  - destruct Hmiss as (H1 & H2 & H3 & H4 & H5).
    split; [exact H1|]. split; [|split; [exact H3|]].
    + intros e He. exfalso. exact (H2 e He).
    + intros cr' [= <-]. split; auto.
  - cbn [fst snd]. split_and!; try discriminate.
    intros cr' [= <-]. split; [eauto|].
    intros _ H. exfalso. exact (H d ds Eg).
  - destruct Hmiss as (H1 & H2 & H3 & H4 & H5).
    split; [exact H1|]. split; [|split; [exact H3|]].
    + intros e He. exfalso. exact (H2 e He).
    + intros cr' [= <-]. split; auto.
Qed.

(** * Instances of the further properties *)

Lemma sample_run :
  Example.run Example.budget_request
  = (Ok (Example.recommend Example.budget_request),
     snd (Example.run Example.budget_request)).
Proof. vm_compute; reflexivity. Qed.

Lemma sample_first :
  In Sample.first_outfit (Example.recommend Example.budget_request).
Proof. vm_compute; left; reflexivity. Qed.

Lemma sample_base :
  OutfitRecommender.by_id (Example.recommender Example.catalog)
    !! RecommendationRequest.base_product_id Example.budget_request
  = Some Example.top_001.
Proof. vm_compute; reflexivity. Qed.

Lemma sample_budget (b : Q) :
  RecommendationRequest.max_budget Example.budget_request = Some b -> 0 < b.
Proof. intros [= <-]. reflexivity. Qed.

(** X6 for outfits of total price 60, 120 and 209.97 under a budget of
    100. *)
Lemma X6_budget_order_witness :
  0 < 100 /\
  Outfit.total_price Example.complementary_outfit <= 100 /\
  100 < Outfit.total_price Example.over_budget_outfit /\
  Outfit.total_price Example.over_budget_outfit
  <= Outfit.total_price Example.beige_outfit /\
  exists s1 s2 r1 r2,
    OutfitScorer._score_budget Example.fmt2
      (OutfitScorer.mk None None (Some 100)) Example.complementary_outfit
    = Ok (s1, r1) /\
    OutfitScorer._score_budget Example.fmt2
      (OutfitScorer.mk None None (Some 100)) Example.over_budget_outfit
    = Ok (s2, r2) /\
    s2 < s1.
Proof.
  assert (H0 : 0 < 100) by reflexivity.
  assert (H1 : Outfit.total_price Example.complementary_outfit <= 100)
    by (vm_compute; discriminate).
  assert (H2 : 100 < Outfit.total_price Example.over_budget_outfit)
    by reflexivity.
  assert (H3 : Outfit.total_price Example.over_budget_outfit
               <= Outfit.total_price Example.beige_outfit)
    by (vm_compute; discriminate).
  split; [exact H0|]. split; [exact H1|]. split; [exact H2|].
  split; [exact H3|].
  destruct (X6_budget_order Example.fmt2 None None 100
              Example.complementary_outfit Example.over_budget_outfit
              Example.beige_outfit H0 H1 H2 H3)
    as (s1 & s2 & s3 & r1 & r2 & r3 & E1 & E2 & _ & _ & _ & _ & Hlt).
  exists s1, s2, r1, r2. split; [exact E1|]. split; [exact E2|exact Hlt].
Defined.

(** X7 for the beige of the cargo pants. *)
Lemma X7_to_hsv_range_witness :
  (0 <= 245 <= 255)%Z /\ (0 <= 220 <= 255)%Z /\
  exists h s v,
    Color.to_hsv (Color.mk 245 245 220) = Ok (h, s, v) /\
    0 <= h /\ h < 360 /\ 0 <= s <= 1 /\ 0 <= v <= 1.
Proof.
  assert (H1 : (0 <= 245 <= 255)%Z) by lia.
  assert (H2 : (0 <= 220 <= 255)%Z) by lia.
  split; [exact H1|]. split; [exact H2|].
  destruct (X7_to_hsv_range (Color.mk 245 245 220) H1 H1 H2)
    as (h & s & v & E & Hh0 & Hh & Hs & Hv & _).
  exists h, s, v. split; [exact E|]. split; [exact Hh0|].
  split; [exact Hh|]. split; [exact Hs|exact Hv].
Defined.

(** X9 for the hat, the last product of the example catalog. *)
Lemma X9_by_id_lookup_witness :
  OutfitRecommender.init Example.catalog
  = Ok (Example.recommender Example.catalog) /\
  OutfitRecommender.by_id (Example.recommender Example.catalog)
    !! Product.id Example.acc_007 = Some Example.acc_007.
Proof.
  split; [exact example_init|].
  destruct (X9_by_id_lookup Example.catalog
              (Example.recommender Example.catalog) example_init)
    as [Hlast _].
  apply (Hlast [Example.top_001; Example.bottom_008; Example.footwear_001;
                Example.acc_001] Example.acc_007 []).
  - reflexivity.
  - intros [].
Defined.

(** X10 for the T-shirt and the cargo pants of the example catalog. *)
Lemma X10_indexed_pairs_witness :
  OutfitRecommender.init Example.catalog
  = Ok (Example.recommender Example.catalog) /\
  List.NoDup (ids Example.catalog) /\
  (exists v,
     OutfitRecommender._calculate_color_compatibility
       (Product.color Example.top_001) (Product.color Example.bottom_008)
     = Ok v /\
     OutfitRecommender._get_compatibility
       (Example.recommender Example.catalog)
       Example.top_001 Example.bottom_008 = v) /\
  OutfitRecommender._get_compatibility (Example.recommender Example.catalog)
    Example.top_001 Example.top_001 = 0.5.
Proof.
  split; [exact example_init|]. split; [exact example_ids|].
  destruct (X10_indexed_pairs Example.catalog
              (Example.recommender Example.catalog) example_init
              example_ids) as [Hpair Hself].
  split.
  - destruct (Hpair Example.top_001 Example.bottom_008)
      as (v & Hv & _ & Hget).
    + left. reflexivity.
    + right. left. reflexivity.
    + discriminate.
    + exists v. split; [exact Hv|exact Hget].
  - apply Hself. left. reflexivity.
Defined.

(** X11 for the first outfit returned for the request with a budget. *)
Lemma X11_total_price_witness :
  Example.run Example.budget_request
  = (Ok (Example.recommend Example.budget_request),
     snd (Example.run Example.budget_request)) /\
  In Sample.first_outfit (Example.recommend Example.budget_request) /\
  Outfit.total_price Sample.first_outfit
  == Qsum (map Product.price (Outfit.items Sample.first_outfit)).
Proof.
  split; [exact sample_run|]. split; [exact sample_first|].
  destruct (X11_total_price Example.fmt2 Example.draw0
              (Example.recommender Example.catalog) Example.budget_request
              0%nat (Example.recommend Example.budget_request)
              (snd (Example.run Example.budget_request))
              Sample.first_outfit sample_run sample_first) as [_ H].
  exact H.
Defined.

(** X12 for the request with a budget, whose base product is a top. *)
Lemma X12_base_in_slot_witness :
  OutfitRecommender.by_id (Example.recommender Example.catalog)
    !! RecommendationRequest.base_product_id Example.budget_request
  = Some Example.top_001 /\
  In Sample.first_outfit (Example.recommend Example.budget_request) /\
  Outfit.top Sample.first_outfit = Example.top_001.
Proof.
  split; [exact sample_base|]. split; [exact sample_first|].
  destruct (X12_base_in_slot Example.fmt2 Example.draw0
              (Example.recommender Example.catalog) Example.budget_request
              Example.top_001 0%nat
              (Example.recommend Example.budget_request)
              (snd (Example.run Example.budget_request))
              Sample.first_outfit sample_base sample_run sample_first)
    as [H _].
  apply H. reflexivity.
Defined.

(** X13 for the first outfit returned for the request with a budget. *)
Lemma X13_outfit_items_witness :
  OutfitRecommender.init Example.catalog
  = Ok (Example.recommender Example.catalog) /\
  In Sample.first_outfit (Example.recommend Example.budget_request) /\
  List.NoDup (ids Example.catalog) /\
  In (Outfit.bottom Sample.first_outfit) Example.catalog /\
  Product.category (Outfit.bottom Sample.first_outfit) = BOTTOM /\
  List.NoDup (map Product.id (Outfit.items Sample.first_outfit)).
Proof.
  split; [exact example_init|]. split; [exact sample_first|].
  split; [exact example_ids|].
  destruct (X13_outfit_items Example.fmt2 Example.draw0 Example.catalog
              (Example.recommender Example.catalog) Example.budget_request
              0%nat (Example.recommend Example.budget_request)
              (snd (Example.run Example.budget_request))
              Sample.first_outfit example_init sample_run sample_first)
    as (_ & [Hb Hbc] & _ & _ & Hnd).
  split; [exact Hb|]. split; [exact Hbc|]. apply Hnd. exact example_ids.
Defined.


(** X15 for the first outfit returned for the request with a budget. *)
Lemma X15_returned_scores_witness :
  In Sample.first_outfit (Example.recommend Example.budget_request) /\
  OutfitScorer.score_outfit Example.fmt2
    (request_scorer Example.budget_request) Sample.first_outfit
  = Ok (Outfit.match_score Sample.first_outfit,
        Outfit.reasoning Sample.first_outfit) /\
  0.4375 <= Outfit.match_score Sample.first_outfit <= 1.
Proof.
  split; [exact sample_first|].
  destruct (X15_returned_scores Example.fmt2 Example.draw0
              (Example.recommender Example.catalog) Example.budget_request
              0%nat (Example.recommend Example.budget_request)
              (snd (Example.run Example.budget_request))
              Sample.first_outfit sample_run sample_first)
    as (Hsc & Hlo & Hhi).
  split; [exact Hsc|]. split; [exact Hlo|].
  apply Hhi. exact sample_budget.
Defined.

(** X16 for a request of zero outfits. *)
Lemma X16_nothing_requested_witness :
  (RecommendationRequest.num_recommendations Sample.zero_request <= 0)%Z /\
  OutfitRecommender.generate_recommendations Example.fmt2 Example.draw0
    (Example.recommender Example.catalog) Sample.zero_request 0%nat
  = (Ok [], 0%nat).
Proof.
  assert (Hnum : (RecommendationRequest.num_recommendations
                    Sample.zero_request <= 0)%Z) by (cbn; lia).
  split; [exact Hnum|].
  apply (X16_nothing_requested Example.fmt2 Example.draw0
           (Example.recommender Example.catalog) Sample.zero_request
           Example.top_001 0%nat).
  - vm_compute; reflexivity.
  - exact Hnum.
Defined.

(** X17 for the request with a budget. *)
Lemma X17_empty_result_witness :
  (0 < RecommendationRequest.num_recommendations Example.budget_request)%Z /\
  (Example.recommend Example.budget_request = [] <->
   exists c, c <> ACCESSORY /\ Product.category Example.top_001 <> c /\
     request_candidates (Example.recommender Example.catalog)
       Example.top_001 Example.budget_request c = []).
Proof.
  assert (Hnum : (0 < RecommendationRequest.num_recommendations
                        Example.budget_request)%Z) by (cbn; lia).
  split; [exact Hnum|].
  exact (X17_empty_result Example.fmt2 Example.draw0
           (Example.recommender Example.catalog) Example.budget_request
           Example.top_001 0%nat (Example.recommend Example.budget_request)
           (snd (Example.run Example.budget_request))
           sample_base Hnum sample_run).
Defined.

(** X18 for the request with a budget. *)
Lemma X18_draws_witness :
  (0 <= snd (Example.run Example.budget_request) <= 0 + 700)%nat.
Proof.
  exact (X18_draws Example.fmt2 Example.draw0
           (Example.recommender Example.catalog) Example.budget_request
           0%nat (Ok (Example.recommend Example.budget_request))
           (snd (Example.run Example.budget_request)) sample_run).
Defined.

(** X19 for the hat among the two accessories, from the T-shirt. *)
Lemma X19_select_item_reaches_witness :
  In Example.acc_007 Example.two_accessories /\
  exists draw,
    OutfitRecommender._select_item draw
      (Example.recommender Example.catalog) Example.two_accessories
      Example.top_001 0%nat = (Ok Example.acc_007, 1%nat).
Proof.
  split; [right; left; reflexivity|].
  apply (X19_select_item_reaches (Example.recommender Example.catalog)
           Example.two_accessories Example.top_001 0%nat Example.acc_007).
  left. vm_compute. auto.
Defined.

(** X20 for the request with a budget: one top, one bottom and one
    footwear item to choose from. *)
Lemma X20_count_bound_witness :
  (length (Example.recommend Example.budget_request)
   <= length (slot_choices Example.top_001
                (request_candidates (Example.recommender Example.catalog)
                   Example.top_001 Example.budget_request) TOP)
      * length (slot_choices Example.top_001
                  (request_candidates (Example.recommender Example.catalog)
                     Example.top_001 Example.budget_request) BOTTOM)
      * length (slot_choices Example.top_001
                  (request_candidates (Example.recommender Example.catalog)
                     Example.top_001 Example.budget_request) FOOTWEAR))%nat.
Proof.
  exact (X20_count_bound Example.fmt2 Example.draw0
           (Example.recommender Example.catalog) Example.budget_request
           Example.top_001 0%nat (Example.recommend Example.budget_request)
           (snd (Example.run Example.budget_request))
           sample_base sample_run).
Defined.

(** X23 for a full cache of two entries: storing the outfits of the belt
    request, whose key is in the cache, evicts the entry of the T-shirt. *)
Lemma X23_set_evicts_oldest_witness :
  List.NoDup (dict_keys (RecommendationCache.cache Sample.full_cache)) /\
  Sample.key Example.budget_request <> Sample.key Example.belt_request /\
  RecommendationCache.get Sample.key Sample.full_cache Example.budget_request
  = Some [] /\
  RecommendationCache.get Sample.key
    (RecommendationCache.set (fun o => o) Sample.key Sample.full_cache
       Example.belt_request [Sample.first_outfit])
    Example.budget_request
  = None.
Proof.
  assert (Hnd : List.NoDup
                  (dict_keys (RecommendationCache.cache Sample.full_cache))).
  { cbn. repeat constructor; cbn [In]; intuition discriminate. }
  assert (Hne : Sample.key Example.budget_request
                <> Sample.key Example.belt_request) by discriminate.
  split; [exact Hnd|]. split; [exact Hne|]. split; [reflexivity|].
  exact (X23_set_evicts_oldest (fun o => o) Sample.key Sample.full_cache
           Example.belt_request [Sample.first_outfit] Example.budget_request
           Hnd Hne).
Defined.

(** X24 for the request with a budget on a new cache of capacity 1000. *)
Lemma X24_repeat_request_witness :
  Sample.response (Sample.endpoint (RecommendationCache.init 1000) 0%nat)
  <> [] /\
  Sample.endpoint
    (snd (fst (Sample.endpoint (RecommendationCache.init 1000) 0%nat)))
    (snd (Sample.endpoint (RecommendationCache.init 1000) 0%nat))
  = (Return
       (Sample.response
          (Sample.endpoint (RecommendationCache.init 1000) 0%nat)),
     snd (fst (Sample.endpoint (RecommendationCache.init 1000) 0%nat)),
     snd (Sample.endpoint (RecommendationCache.init 1000) 0%nat)).
Proof.
  assert (Hne : Sample.response
                  (Sample.endpoint (RecommendationCache.init 1000) 0%nat)
                <> []) by (vm_compute; discriminate).
  split; [exact Hne|].
  assert (Hrun :
    Main.get_recommendations Outfit.t Outfit.t (fun o => o) (fun d => d)
      Sample.key (fun s => s) (fun _ => ""%string) Example.fmt2
      Example.draw0 (Example.recommender Example.catalog)
      (RecommendationCache.init 1000) Sample.model 0%nat
    = (Return
         (Sample.response
            (Sample.endpoint (RecommendationCache.init 1000) 0%nat)),
       snd (fst (Sample.endpoint (RecommendationCache.init 1000) 0%nat)),
       snd (Sample.endpoint (RecommendationCache.init 1000) 0%nat)))
    by (vm_compute; reflexivity).
  exact (X24_repeat_request (fun o : Outfit.t => o) (fun d : Outfit.t => d)
           Sample.key (fun s => s) (fun _ => ""%string) Example.fmt2
           Example.draw0 (Example.recommender Example.catalog)
           (RecommendationCache.init 1000) Sample.model 0%nat
           (Sample.response
              (Sample.endpoint (RecommendationCache.init 1000) 0%nat))
           (snd (fst (Sample.endpoint (RecommendationCache.init 1000)
                        0%nat)))
           (snd (Sample.endpoint (RecommendationCache.init 1000) 0%nat))
           (snd (Sample.endpoint (RecommendationCache.init 1000) 0%nat))
           Hrun Hne).
Defined.

(** X25 for the request with a budget on a new cache: the base product is
    in the catalog, the endpoint responds. *)
Lemma X25_endpoint_errors_witness :
  OutfitRecommender.init Example.catalog
  = Ok (Example.recommender Example.catalog) /\
  In "top_001"%string (ids Example.catalog) /\
  exists response,
    fst (fst (Sample.endpoint (RecommendationCache.init 1000) 0%nat))
    = Return response.
Proof.
  assert (Hin : In "top_001"%string (ids Example.catalog))
    by (left; reflexivity).
  split; [exact example_init|]. split; [exact Hin|].
  destruct (X25_endpoint_errors (fun o : Outfit.t => o)
              (fun d : Outfit.t => d) Sample.key (fun s => s)
              (fun _ => ""%string) Example.fmt2 Example.draw0
              Example.catalog (Example.recommender Example.catalog)
              (RecommendationCache.init 1000) Sample.model 0%nat
              example_init) as (_ & _ & _ & H).
  destruct (H Example.budget_request) as [Hfound _].
  - reflexivity.
  - apply Hfound. exact Hin.
Defined.

(** X27 for the hat of the example catalog. *)
Lemma X27_get_product_witness :
  OutfitRecommender.init Example.catalog
  = Ok (Example.recommender Example.catalog) /\
  List.NoDup (ids Example.catalog) /\
  Main.get_product ProductDict.t (fun d => d) Example.catalog "acc_007"
  = Return (Product_to_dict Example.acc_007).
Proof.
  split; [exact example_init|]. split; [exact example_ids|].
  destruct (X27_get_product (fun d : ProductDict.t => d) Example.catalog
              (Example.recommender Example.catalog) "acc_007" example_init)
    as (_ & _ & H).
  apply (H example_ids). vm_compute; reflexivity.
Defined.

(** X28 for the T-shirt and a product built from the same fields. *)
Lemma X28_to_dict_injective_witness :
  Product_to_dict
    (Product.mk "top_001" "Classic White T-Shirt" TOP CASUAL
       (Color.mk 255 255 255) 29.99 ALL_SEASON [EVERYDAY; SPORTS; TRAVEL]
       (Some "Basics Co") None)
  = Product_to_dict Example.top_001 /\
  Product.mk "top_001" "Classic White T-Shirt" TOP CASUAL
    (Color.mk 255 255 255) 29.99 ALL_SEASON [EVERYDAY; SPORTS; TRAVEL]
    (Some "Basics Co") None
  = Example.top_001.
Proof.
  split; [reflexivity|].
  apply X28_to_dict_injective. reflexivity.
Defined.

(** * The decisions in binary64 *)

(** ** Rounding *)

Lemma round_proper x y : x == y -> Binary64.round x = Binary64.round y.
Proof.
  intros H. unfold Binary64.round. rewrite (Qred_complete x y H).
  reflexivity.
Qed.

Lemma Qopp_opp_eq (x : Q) : - - x = x.
Proof.
  destruct x as [n d]. unfold Qopp. cbn [Qnum Qden].
  rewrite Z.opp_involutive. reflexivity.
Qed.

Lemma Qcompare_opp_0 (x : Q) : Qcompare (- x) 0 = CompOpp (Qcompare x 0).
Proof.
  destruct x as [n d]. unfold Qcompare, Qopp. cbn [Qnum Qden].
  rewrite !Z.mul_1_r. destruct n; reflexivity.
Qed.

(** Rounding is symmetric around zero. *)
Lemma round_opp x : Binary64.round (- x) = - Binary64.round x.
Proof.
  unfold Binary64.round. rewrite Qred_opp, Qcompare_opp_0.
  destruct (Qcompare (Qred x) 0); cbn [CompOpp].
  - reflexivity.
  - rewrite Qopp_opp_eq. reflexivity.
  - rewrite Qopp_opp_eq. reflexivity.
Qed.

Lemma Qabs_opp_eq (x : Q) : Qabs (- x) = Qabs x.
Proof.
  destruct x as [n d]. unfold Qabs, Qopp. cbn [Qnum Qden].
  rewrite Z.abs_opp. reflexivity.
Qed.

Lemma sub_swap x y : Qabs (Binary64.sub x y) = Qabs (Binary64.sub y x).
Proof.
  unfold Binary64.sub.
  rewrite (round_proper (y - x) (- (x - y))) by ring.
  rewrite round_opp, Qabs_opp_eq. reflexivity.
Qed.

Lemma div_ok x y :
  ~ y == 0 -> Binary64.div x y = Ok (Binary64.quot x y).
Proof.
  intros H. unfold Binary64.div. destruct (Qeq_bool y 0) eqn:E; auto.
  apply Qeq_bool_iff in E. contradiction.
Qed.

Lemma quot_same x y : ~ y == 0 -> x == y -> Binary64.quot x y = 1.
Proof.
  intros Hy E. unfold Binary64.quot.
  rewrite (round_proper (x / y) 1) by (rewrite E; field; exact Hy).
  vm_compute. reflexivity.
Qed.

Lemma quot_half x y : ~ y == 0 -> x == 0.5 * y -> Binary64.quot x y = 1 # 2.
Proof.
  intros Hy E. unfold Binary64.quot.
  rewrite (round_proper (x / y) (1 # 2)) by (rewrite E; field; exact Hy).
  vm_compute. reflexivity.
Qed.

Lemma quot_fifth x y : ~ y == 0 -> x == 0.2 * y ->
  Binary64.quot x y = Binary64.lit 0.2.
Proof.
  intros Hy E. unfold Binary64.quot, Binary64.lit.
  apply round_proper. rewrite E. field. exact Hy.
Qed.

(** ** The budget sub-score *)

(** C5. With a positive maximum budget, [_score_budget], computing in
    binary64, returns: 1.0 when the total price equals the budget; 0.9 at
    half the budget and whenever the ratio it computes is below 0.7; 1.0
    when that ratio is at least 0.7; over budget
    [max(0.1, 0.5 - min(0.5, overage / budget))] in binary64, which is 0.3
    at 20% over when the overage is computed without rounding error.  The
    ratio, the overage and the numbers 0.7, 0.9, 0.1, 0.3 are the binary64
    ones.  Without a maximum budget it returns the flat 0.7. *)
Theorem C5_score_budget (fmt2 : Q -> string) (occ : option Occasion)
    (ssn : option Season) (outfit : Outfit.t) :
  (forall budget : Q, 0 < budget ->
    let total := Outfit.total_price outfit in
    let ratio := Binary64.quot total budget in
    let overage := Binary64.sub total budget in
    exists score reason,
      Float._score_budget fmt2
        (OutfitScorer.mk occ ssn (Some budget)) outfit = Ok (score, reason) /\
      (total == budget -> score == 1.0) /\
      (total == 0.5 * budget -> score == Binary64.lit 0.9) /\
      (total <= budget -> ratio < Binary64.lit 0.7 ->
         score == Binary64.lit 0.9) /\
      (total <= budget -> Binary64.lit 0.7 <= ratio -> score == 1.0) /\
      (budget < total ->
         score == Qmax (Binary64.lit 0.1)
                       (Binary64.sub 0.5
                          (Qmin 0.5 (Binary64.quot overage budget)))) /\
      (total == 1.2 * budget -> overage == total - budget ->
         score == Binary64.lit 0.3)) /\
  Float._score_budget fmt2 (OutfitScorer.mk occ ssn None) outfit
  = Ok (Binary64.lit 0.7, "No budget constraint"%string).
Proof.
  split; [|reflexivity].
  intros budget Hpos total ratio overage.
  assert (Hnz : ~ budget == 0) by lra.
  assert (H07 : Binary64.lit 0.7 < 1) by (vm_compute; reflexivity).
  assert (H05 : (1 # 2) < Binary64.lit 0.7) by (vm_compute; reflexivity).
  unfold Float._score_budget. cbn [OutfitScorer.max_budget].
  rewrite (budget_given_pos _ Hpos). fold total.
  rewrite !(div_ok _ _ Hnz). fold ratio overage.
  destruct (Qle_bool total budget) eqn:Hle.
  - apply Qle_bool_iff in Hle. cbn [exc_bind].
    destruct (Qltb ratio (Binary64.lit 0.7)) eqn:Hr.
    + apply Qltb_lt in Hr. eexists _, _. split; [reflexivity|].
      split_and!; intros; try reflexivity; exfalso; try lra.
      unfold ratio in Hr. rewrite (quot_same _ _ Hnz) in Hr by assumption.
      lra.
    + apply Qltb_ge in Hr. eexists _, _. split; [reflexivity|].
      split_and!; intros; try reflexivity; exfalso; try lra.
      unfold ratio in Hr. rewrite (quot_half _ _ Hnz) in Hr by assumption.
      lra.
  - apply Qle_bool_gt in Hle. cbn [exc_bind].
    eexists _, _. split; [reflexivity|].
    split_and!; intros; try reflexivity; try (exfalso; lra).
    rewrite (quot_fifth overage budget Hnz) by lra.
    vm_compute. reflexivity.
Qed.

(** ** The candidate filter *)

Lemma float_filter_candidates_category self base occ ssn mb sp c :
  Float._filter_candidates self base occ ssn mb sp c
  = Float.filter_category self base occ ssn mb sp c.
Proof.
  unfold Float._filter_candidates. cbn [fold_left].
  destruct c; reflexivity.
Qed.

Lemma float_filter_category_keeps self base occ ssn mb sp c :
  (forall b, mb = Some b -> ~ b == 0) ->
  Float.filter_category self base occ ssn mb sp c
  = List.filter (Float.keeps base occ ssn mb sp)
                (OutfitRecommender.by_category self c).
Proof.
  intros Hb. unfold Float.filter_category, Float.keeps.
  assert (Hg : budget_given mb = mb).
  { destruct mb as [b|]; [|reflexivity].
    apply budget_given_nonzero. apply Hb. reflexivity. }
  rewrite Hg. clear Hg Hb.
  set (l := OutfitRecommender.by_category self c).
  destruct occ, ssn, sp, mb; rewrite ?filter_filter;
    try (symmetry; exact (filter_true l));
    apply List.filter_ext; intros p;
    cbn [andb]; rewrite ?andb_true_r, ?andb_assoc; reflexivity.
Qed.

Lemma float_keeps_spec base occ ssn mb sp p :
  Float.keeps base occ ssn mb sp p = true <->
  (forall o, occ = Some o -> In o (Product.occasion p)) /\
  (forall s, ssn = Some s ->
     Product.season p = s \/ Product.season p = ALL_SEASON) /\
  (forall st, sp = Some st ->
     Product.style p = st \/ Product.style p = Product.style base) /\
  (forall b, mb = Some b ->
     Product.price p
     <= Binary64.mul (Binary64.sub b (Product.price base)) 1.5).
Proof.
  unfold Float.keeps. rewrite !andb_true_iff.
  assert (H1 : match occ with
               | Some o => occasion_in o (Product.occasion p)
               | None => true
               end = true
               <-> forall o, occ = Some o -> In o (Product.occasion p)).
  { destruct occ as [o|].
    - rewrite occasion_in_In. split; [intros H o' [= <-]; exact H|auto].
    - split; [intros _ o [=]|reflexivity]. }
  assert (H2 : match ssn with
               | Some s => season_matches s (Product.season p)
               | None => true
               end = true
               <-> forall s, ssn = Some s ->
                     Product.season p = s \/ Product.season p = ALL_SEASON).
  { destruct ssn as [s|].
    - rewrite season_matches_spec. split; [intros H s' [= <-]; exact H|auto].
    - split; [intros _ s [=]|reflexivity]. }
  assert (H3 : match sp with
               | Some st =>
                   bool_decide (Product.style p = st)
                   || bool_decide (Product.style p = Product.style base)
               | None => true
               end = true
               <-> forall st, sp = Some st ->
                     Product.style p = st
                     \/ Product.style p = Product.style base).
  { destruct sp as [st|].
    - rewrite orb_true_iff, !bool_decide_eq_true.
      split; [intros H st' [= <-]; exact H|auto].
    - split; [intros _ st [=]|reflexivity]. }
  assert (H4 : match mb with
               | Some b =>
                   Qle_bool (Product.price p)
                     (Binary64.mul (Binary64.sub b (Product.price base)) 1.5)
               | None => true
               end = true
               <-> forall b, mb = Some b ->
                     Product.price p
                     <= Binary64.mul (Binary64.sub b (Product.price base))
                                     1.5).
  { destruct mb as [b|].
    - rewrite Qle_bool_iff. split; [intros H b' [= <-]; exact H|auto].
    - split; [intros _ b [=]|reflexivity]. }
  rewrite H1, H2, H3, H4. tauto.
Qed.

(** C9. For every category, with a maximum budget that is non-zero when
    given, the candidate filter keeps exactly the catalog items of that
    category (in catalog order) that list the target occasion, are of the
    target season or all-season, have the preferred or the base product's
    style, and cost at most (max budget - base price) * 1.5, each
    constraint applying only when it is given; the difference and the
    product of the budget bound are the binary64 ones, rounded as the code
    computes them.  The result is a list, possibly empty, never an
    error. *)
Theorem C9_filter_candidates products self base occ ssn mb sp category :
  OutfitRecommender.init products = Ok self ->
  (forall b, mb = Some b -> ~ b == 0) ->
  let kept := Float._filter_candidates self base occ ssn mb sp category in
  kept = List.filter
           (fun p => bool_decide (Product.category p = category)
                     && Float.keeps base occ ssn mb sp p) products /\
  forall p,
    In p kept <->
    In p products /\ Product.category p = category /\
    (forall o, occ = Some o -> In o (Product.occasion p)) /\
    (forall s, ssn = Some s ->
       Product.season p = s \/ Product.season p = ALL_SEASON) /\
    (forall st, sp = Some st ->
       Product.style p = st \/ Product.style p = Product.style base) /\
    (forall b, mb = Some b ->
       Product.price p
       <= Binary64.mul (Binary64.sub b (Product.price base)) 1.5).
Proof.
  intros Hinit Hb kept.
  assert (E : kept = List.filter
           (fun p => bool_decide (Product.category p = category)
                     && Float.keeps base occ ssn mb sp p) products).
  { unfold kept. rewrite float_filter_candidates_category.
    rewrite float_filter_category_keeps by exact Hb.
    rewrite (by_category_init _ _ _ Hinit). apply filter_filter. }
  split; [exact E|].
  intros p. rewrite E, filter_In, andb_true_iff, bool_decide_eq_true.
  rewrite float_keeps_spec. tauto.
Qed.

(** ** The compatibility of two colours *)

Lemma float_to_hsv_hue c :
  exists s v, Float.to_hsv c = Ok (Float.hue c, s, v).
Proof.
  unfold Float.hue, Float.to_hsv.
  set (r := Binary64.quot (Binary64.of_int (Color.r c)) 255).
  set (g := Binary64.quot (Binary64.of_int (Color.g c)) 255).
  set (b := Binary64.quot (Binary64.of_int (Color.b c)) 255).
  set (max_val := Qmax (Qmax r g) b).
  set (delta := Binary64.sub max_val (Qmin (Qmin r g) b)).
  assert (Hs : exists s,
    (if Qeq_bool max_val 0 then Ok 0 else Binary64.div delta max_val)
    = Ok s).
  { destruct (Qeq_bool max_val 0) eqn:E; [eauto|].
    apply Qeq_bool_neq in E. rewrite (div_ok _ _ E). eauto. }
  destruct Hs as [s ->].
  destruct (Qeq_bool delta 0) eqn:Ed; [cbn; eauto|].
  apply Qeq_bool_neq in Ed.
  rewrite !(div_ok _ _ Ed).
  destruct (Qeq_bool max_val r); [cbn; eauto|].
  destruct (Qeq_bool max_val g); cbn; eauto.
Qed.

Lemma float_hue_distance_same h1 h2 :
  h1 == h2 -> Float.hue_distance h1 h2 == 0.
Proof.
  intros E. unfold Float.hue_distance, Binary64.sub.
  rewrite (round_proper (h1 - h2) 0) by lra.
  vm_compute. reflexivity.
Qed.

(** X8. In binary64, [_calculate_color_compatibility] never raises and
    does not depend on the order of the two colours.  With the hues and the
    hue distance as the code computes them, its score is 0.9 for a
    distance below 30 (in particular for equal hues), 0.85 strictly between
    150 and 180, 0.75 strictly between 115 and 125, and 0.6 otherwise, the
    distance 180 of exact complements included. *)
Theorem X8_color_compatibility (c1 c2 : Color.t) :
  let d := Float.hue_distance (Float.hue c1) (Float.hue c2) in
  exists q,
    Float._calculate_color_compatibility c1 c2 = Ok q /\
    Float._calculate_color_compatibility c2 c1 = Ok q /\
    (d < 30 -> q = Binary64.lit 0.9) /\
    (150 < d -> d < 180 -> q = Binary64.lit 0.85) /\
    (115 < d -> d < 125 -> q = Binary64.lit 0.75) /\
    ((30 <= d /\ d <= 115) \/ (125 <= d /\ d <= 150) \/ 180 <= d ->
     q = Binary64.lit 0.6) /\
    (Float.hue c1 == Float.hue c2 -> q = Binary64.lit 0.9).
Proof.
  intros d. unfold d. clear d.
  unfold Float._calculate_color_compatibility.
  destruct (float_to_hsv_hue c1) as (s1 & v1 & ->).
  destruct (float_to_hsv_hue c2) as (s2 & v2 & ->).
  cbn [exc_bind].
  rewrite (sub_swap (Float.hue c2) (Float.hue c1)).
  pose proof (float_hue_distance_same (Float.hue c1) (Float.hue c2)) as Hd0.
  revert Hd0. generalize (Float.hue c1) (Float.hue c2). intros h1 h2.
  unfold Float.hue_distance.
  set (a := Qabs (Binary64.sub h1 h2)). clearbody a.
  set (d := if Qltb 180 a then Binary64.sub 360 a else a). clearbody d.
  intros Hd0.
  repeat (case_cmp1; try (exfalso; lra));
    cbn [andb]; eexists; (split; [reflexivity|]); (split; [reflexivity|]);
    split_and!; intros; try reflexivity; exfalso;
    try lra; try (specialize (Hd0 ltac:(assumption)); lra).
Qed.

(** * Instances in binary64 and on a list of two outfits *)

(** C5 for a total price of 6.999999999999999 under a budget of 10: the
    exact ratio is below 0.7, the binary64 ratio is the number 0.7, and the
    score is 1.0. *)
Lemma C5_score_budget_witness :
  0 < 10 /\
  Outfit.total_price FloatSample.outfit_below_7 <= 10 /\
  Outfit.total_price FloatSample.outfit_below_7 / 10 < 0.7 /\
  Binary64.lit 0.7
  <= Binary64.quot (Outfit.total_price FloatSample.outfit_below_7) 10 /\
  exists score reason,
    Float._score_budget Example.fmt2
      (OutfitScorer.mk None None (Some 10)) FloatSample.outfit_below_7
    = Ok (score, reason) /\
    score == 1.0.
Proof.
  assert (H0 : 0 < 10) by reflexivity.
  assert (Hle : Outfit.total_price FloatSample.outfit_below_7 <= 10)
    by (vm_compute; discriminate).
  assert (Hexact : Outfit.total_price FloatSample.outfit_below_7 / 10 < 0.7)
    by (vm_compute; reflexivity).
  assert (Hr : Binary64.lit 0.7
               <= Binary64.quot
                    (Outfit.total_price FloatSample.outfit_below_7) 10)
    by (vm_compute; discriminate).
  split; [exact H0|]. split; [exact Hle|]. split; [exact Hexact|].
  split; [exact Hr|].
  destruct (C5_score_budget Example.fmt2 None None
              FloatSample.outfit_below_7) as [H _].
  destruct (H 10 H0) as (score & reason & Hrun & _ & _ & _ & Hopt & _).
  exists score, reason. split; [exact Hrun|]. exact (Hopt Hle Hr).
Defined.

(** C9 for the sneakers under a budget of 266.65 from the blazer: the
    bound is the binary64 number 99.98999999999995, below the price
    99.99, and the filter drops them. *)
Lemma C9_filter_candidates_witness :
  OutfitRecommender.init FloatSample.catalog
  = Ok (Example.recommender FloatSample.catalog) /\
  ~ FloatSample.budget == 0 /\
  Binary64.mul
    (Binary64.sub FloatSample.budget (Product.price FloatSample.top_002))
    1.5 < Product.price FloatSample.footwear_001 /\
  Float._filter_candidates (Example.recommender FloatSample.catalog)
    FloatSample.top_002 None None (Some FloatSample.budget) None FOOTWEAR
  = [].
Proof.
  assert (Hinit : OutfitRecommender.init FloatSample.catalog
                  = Ok (Example.recommender FloatSample.catalog))
    by (vm_compute; reflexivity).
  assert (Hb : ~ FloatSample.budget == 0)
    by (intros E; vm_compute in E; discriminate E).
  split; [exact Hinit|]. split; [exact Hb|].
  split; [vm_compute; reflexivity|].
  assert (Hbudget : forall b : Q,
            Some FloatSample.budget = Some b -> ~ b == 0).
  { intros b Heq. apply (inj Some) in Heq. subst b. exact Hb. }
  destruct (C9_filter_candidates FloatSample.catalog
              (Example.recommender FloatSample.catalog) FloatSample.top_002
              None None (Some FloatSample.budget) None FOOTWEAR
              Hinit Hbudget) as [Hkept _].
  rewrite Hkept. vm_compute. reflexivity.
Defined.

(** The hue of Color(33, 18, 3) is 30 in exact arithmetic and the
    binary64 number below 30 in the code, which makes the colour
    analogous to a grey. *)
Lemma float_hue_below_30 :
  hue (Color.mk 33 18 3) == 30 /\
  Float.hue (Color.mk 33 18 3) < 30 /\
  Float._calculate_color_compatibility (Color.mk 128 128 128)
    (Color.mk 33 18 3) = Ok (Binary64.lit 0.9).
Proof.
  split; [vm_compute; reflexivity|].
  split; vm_compute; reflexivity.
Qed.

(** C6 on a catalog with two bottoms that score the same: the loop
    collects the outfit of the second one first, and the returned list
    keeps this order. *)
Lemma C6_recommendations_witness :
  (0 <= RecommendationRequest.num_recommendations Sample.twin_request)%Z /\
  Sample.twin_run = (Ok Sample.twin_outfits, snd Sample.twin_run) /\
  map core Sample.twin_outfits
  = [("top_001", "bottom_twin", "footwear_001");
     ("top_001", "bottom_008", "footwear_001")]%string /\
  forallb (fun o => Qeq_bool (Outfit.match_score o) 0.8095)
          Sample.twin_outfits = true /\
  (Z.of_nat (length Sample.twin_outfits) <= 5)%Z /\
  StronglySorted (descending Outfit.match_score) Sample.twin_outfits /\
  exists collected scored,
    OutfitRecommender.attempts_loop Sample.shifted
      (Example.recommender Sample.twin_catalog) Example.top_001
      (request_candidates (Example.recommender Sample.twin_catalog)
         Example.top_001 Sample.twin_request)
      Sample.twin_request 100 [] 0%nat
    = (Ok collected, snd Sample.twin_run) /\
    map core collected = map core Sample.twin_outfits /\
    Forall2 (scored_from Example.fmt2 (request_scorer Sample.twin_request))
            collected scored /\
    Sample.twin_outfits
    = firstn 5 (sort_desc Outfit.match_score scored).
Proof.
  assert (Hnum : (0 <= RecommendationRequest.num_recommendations
                         Sample.twin_request)%Z) by (cbn; lia).
  assert (Hrun : Sample.twin_run
                 = (Ok Sample.twin_outfits, snd Sample.twin_run))
    by (vm_compute; reflexivity).
  split; [exact Hnum|]. split; [exact Hrun|].
  split; [vm_compute; reflexivity|].
  split; [vm_compute; reflexivity|].
  destruct (C6_recommendations Example.fmt2 Sample.shifted
              (Example.recommender Sample.twin_catalog) Sample.twin_request
              0%nat Sample.twin_outfits (snd Sample.twin_run) Hnum Hrun)
    as (Hlen & Hsorted & _ & base & collected & scored & Hbase & Hloop
        & _ & Hsc & _ & Hout & _).
  split; [exact Hlen|]. split; [exact Hsorted|].
  assert (Hb : base = Example.top_001).
  { assert (H : OutfitRecommender.by_id
                  (Example.recommender Sample.twin_catalog)
                  !! RecommendationRequest.base_product_id
                       Sample.twin_request
                = Some Example.top_001) by (vm_compute; reflexivity).
    rewrite H in Hbase. injection Hbase as <-. reflexivity. }
  subst base.
  exists collected, scored. split; [exact Hloop|]. split; [|split].
  - assert (E : OutfitRecommender.attempts_loop Sample.shifted
                  (Example.recommender Sample.twin_catalog) Example.top_001
                  (request_candidates
                     (Example.recommender Sample.twin_catalog)
                     Example.top_001 Sample.twin_request)
                  Sample.twin_request 100 [] 0%nat
                = (Ok (map (fun o => Outfit.set_score o 0.0 ""%string)
                           Sample.twin_outfits),
                   snd Sample.twin_run)) by (vm_compute; reflexivity).
    rewrite E in Hloop.
    assert (Hc : collected
                 = map (fun o => Outfit.set_score o 0.0 ""%string)
                       Sample.twin_outfits) by congruence.
    rewrite Hc, map_map. apply map_ext. intros o. reflexivity.
  - exact Hsc.
  - exact Hout.
Defined.

(** Binary64 at work: the number that 0.1 denotes; 0.1 + 0.2, which is
    not 0.3; ties going to the even significand; gradual underflow; the
    sign of [%]. *)
Lemma binary64_examples :
  Binary64.lit 0.1 == 3602879701896397 # 36028797018963968 /\
  Binary64.add (Binary64.lit 0.1) (Binary64.lit 0.2)
  == Binary64.lit 0.30000000000000004 /\
  ~ Binary64.add (Binary64.lit 0.1) (Binary64.lit 0.2) == Binary64.lit 0.3 /\
  Binary64.round (2 ^ 53 + 1) == 2 ^ 53 /\
  Binary64.round (2 ^ 53 + 3) == 2 ^ 53 + 4 /\
  Binary64.round (3 / 2 ^ 1075) == 2 / 2 ^ 1074 /\
  Binary64.round (1 / 2 ^ 1075) == 0 /\
  Binary64.mod_ (-1) 6 == 5.
Proof.
  split_and!; try (vm_compute; reflexivity).
  intros E. vm_compute in E. discriminate E.
Qed.
